(** * Cart and product-detail blocks: a shallow embedding

    The two blocks [blocks/cart/cart.js] and
    [blocks/product-detail/product-detail.js] are embedded function by
    function.  JavaScript objects that are used as records become Rocq
    records, the [products] object of the cart (a string-keyed object whose
    property order is observable through [Object.values]) becomes an
    association list, DOM fragments become small trees, and the shared data
    layer together with the console and the block's DOM is threaded through
    the handlers as an explicit [World]. *)

From Stdlib Require Import ZArith List Bool Ascii String Lia.
From Stdlib Require Import Numbers.DecimalString.
From Stdlib Require Numbers.DecimalPos Numbers.DecimalZ.
Import ListNotations.

Local Open Scope string_scope.
Local Open Scope list_scope.

(** ** JavaScript numbers

    The handlers only add, multiply, compare and print numbers, and test
    them for truthiness.  The development is parametric in the arithmetic,
    so that every statement holds for IEEE doubles as well as for the exact
    instance [ExactNumber] below, which is used to run examples. *)

(** The decimal numeral of an integer, with ["-"] in front of a negative
    one. *)
Definition integer_to_string (z : Z) : string :=
  NilZero.string_of_int (Z.to_int z).

(** The integers up to [2^53] in magnitude: a double holds each of them
    exactly, and [ToString] prints all their digits. *)
Definition safe_integer (z : Z) : Prop := (Z.abs z <= 9007199254740992)%Z.

Class JsNumber (num : Type) : Type := {
  num_of_Z   : Z -> num;          (* an integer literal / parsed integer *)
  num_nan    : num;               (* NaN *)
  num_add    : num -> num -> num; (* a + b *)
  num_mul    : num -> num -> num; (* a * b *)
  num_lt     : num -> num -> bool;(* a < b *)
  num_eqb    : num -> num -> bool;(* a == b, a === b *)
  num_truthy : num -> bool;       (* ToBoolean(a) *)
  num_to_string : num -> string;  (* ToString(a) *)
  num_lt_nan_l : forall b, num_lt num_nan b = false;
  num_lt_int_one : forall z, num_lt (num_of_Z z) (num_of_Z 1) = (z <? 1)%Z;
  num_eqb_nan_l : forall b, num_eqb num_nan b = false;
  num_eqb_nan_r : forall a, num_eqb a num_nan = false;
  num_truthy_nan : num_truthy num_nan = false;
  num_truthy_int : forall z, num_truthy (num_of_Z z) = negb (z =? 0)%Z;
  num_to_string_int :
    forall z, safe_integer z -> num_to_string (num_of_Z z) = integer_to_string z
}.

(** Exact integers extended with NaN: the numbers the cart manipulates when
    quantities are integers and prices are whole amounts. *)
Inductive exact : Type :=
| XNaN
| XInt (z : Z).

Definition exact_add (a b : exact) : exact :=
  match a, b with
  | XInt x, XInt y => XInt (x + y)
  | _, _ => XNaN
  end.

Definition exact_mul (a b : exact) : exact :=
  match a, b with
  | XInt x, XInt y => XInt (x * y)
  | _, _ => XNaN
  end.

Definition exact_lt (a b : exact) : bool :=
  match a, b with
  | XInt x, XInt y => (x <? y)%Z
  | _, _ => false
  end.

Definition exact_eqb (a b : exact) : bool :=
  match a, b with
  | XInt x, XInt y => (x =? y)%Z
  | _, _ => false
  end.

Definition exact_truthy (a : exact) : bool :=
  match a with
  | XInt x => negb (x =? 0)%Z
  | XNaN => false
  end.

(** The digits of a numeral without its trailing zeros; the argument and the
    result are in reverse order. *)
Fixpoint drop_zeros (reversed : string) : string :=
  match reversed with
  | String "0" rest => drop_zeros rest
  | _ => reversed
  end.

Fixpoint reverse_onto (s acc : string) : string :=
  match s with
  | EmptyString => acc
  | String c s' => reverse_onto s' (String c acc)
  end.

(** The exponent notation of [ToString] for the digits [d1 d2 ... dk] of a
    number of magnitude [10^21] or more: [d1.d2...e+(k-1)], the trailing
    zeros dropped. *)
Definition exponent_notation (digits : string) : string :=
  match digits with
  | EmptyString => EmptyString
  | String d1 rest =>
      let fraction := reverse_onto (drop_zeros (reverse_onto rest "")) "" in
      (String d1 (match fraction with
                  | EmptyString => EmptyString
                  | _ => String "." fraction
                  end)
       ++ "e+" ++ integer_to_string (Z.of_nat (String.length rest)))%string
  end.

(** [ToString] on exact numbers: all digits below [10^21], exponent
    notation from there on. *)
Definition exact_to_string (a : exact) : string :=
  match a with
  | XNaN => "NaN"
  | XInt z =>
      if (Z.abs z <? 10 ^ 21)%Z then integer_to_string z
      else ((if (z <? 0)%Z then "-" else "")
            ++ exponent_notation (integer_to_string (Z.abs z)))%string
  end.

#[export] Instance ExactNumber : JsNumber exact.
Proof.
  refine {|
    num_of_Z := XInt;
    num_nan := XNaN;
    num_add := exact_add;
    num_mul := exact_mul;
    num_lt := exact_lt;
    num_eqb := exact_eqb;
    num_truthy := exact_truthy;
    num_to_string := exact_to_string;
    num_lt_nan_l := fun _ => eq_refl;
    num_lt_int_one := fun _ => eq_refl;
    num_eqb_nan_l := fun _ => eq_refl;
    num_eqb_nan_r := fun a => match a with XNaN => eq_refl | XInt _ => eq_refl end;
    num_truthy_nan := eq_refl;
    num_truthy_int := fun _ => eq_refl;
    num_to_string_int := _
  |}.
  unfold safe_integer, exact_to_string. intros z Hz.
  replace (Z.abs z <? 10 ^ 21)%Z with true; [reflexivity|].
  symmetry. apply Z.ltb_lt.
  apply Z.le_lt_trans with (1 := Hz). reflexivity.
Defined.

(** [a || b] on numbers. *)
Definition num_or {num} `{JsNumber num} (a b : num) : num :=
  if num_truthy a then a else b.

(** ** JavaScript strings

    A string is a sequence of code units below 256 (the Latin-1 range), and
    [ascii] is the type of these code units. *)

Module Js.

(** [StrWhiteSpaceChar] below 256: TAB, LF, VT, FF, CR, SP and NBSP. *)
Definition is_space (c : ascii) : bool :=
  let n := nat_of_ascii c in
  ((9 <=? n) && (n <=? 13))%nat || (n =? 32)%nat || (n =? 160)%nat.

Definition is_digit (c : ascii) : bool :=
  let n := nat_of_ascii c in ((48 <=? n) && (n <=? 57))%nat.

Definition is_upper (c : ascii) : bool :=
  let n := nat_of_ascii c in ((65 <=? n) && (n <=? 90))%nat.

Definition is_lower (c : ascii) : bool :=
  let n := nat_of_ascii c in ((97 <=? n) && (n <=? 122))%nat.

(** The class [\w]: letters, digits and underscore. *)
Definition is_word (c : ascii) : bool :=
  is_upper c || is_lower c || is_digit c || (nat_of_ascii c =? 95)%nat.

(** The upper-case letters of the Latin-1 supplement: U+00C0 to U+00DE
    without the multiplication sign U+00D7. *)
Definition is_upper_latin1 (c : ascii) : bool :=
  let n := nat_of_ascii c in
  ((192 <=? n) && (n <=? 222) && negb (n =? 215))%nat.

(** [toLowerCase] on one code unit. *)
Definition lower_char (c : ascii) : ascii :=
  if is_upper c || is_upper_latin1 c
  then ascii_of_nat (nat_of_ascii c + 32) else c.

(** [toUpperCase] on one code unit matched by [\w]. *)
Definition upper_char (c : ascii) : ascii :=
  if is_lower c then ascii_of_nat (nat_of_ascii c - 32) else c.

Fixpoint map_chars (f : ascii -> ascii) (s : string) : string :=
  match s with
  | EmptyString => EmptyString
  | String c s' => String (f c) (map_chars f s')
  end.

(** [s.toLowerCase()] *)
Definition toLowerCase (s : string) : string := map_chars lower_char s.

Fixpoint rev_string (s acc : string) : string :=
  match s with
  | EmptyString => acc
  | String c s' => rev_string s' (String c acc)
  end.

Fixpoint trimStart (s : string) : string :=
  match s with
  | String c s' => if is_space c then trimStart s' else s
  | EmptyString => EmptyString
  end.

(** [s.trim()] *)
Definition trim (s : string) : string :=
  rev_string (trimStart (rev_string (trimStart s) "")) "".

(** ToBoolean on strings: only the empty string is falsy. *)
Definition truthy (s : string) : bool :=
  match s with EmptyString => false | _ => true end.

(** [s.split(d)] for a one-character separator [d]. *)
Fixpoint split_from (d : ascii) (s : string) (cur : string) : list string :=
  match s with
  | EmptyString => [rev_string cur ""]
  | String c s' =>
      if Ascii.eqb c d then rev_string cur "" :: split_from d s' ""
      else split_from d s' (String c cur)
  end.

Definition split (d : ascii) (s : string) : list string := split_from d s "".

(** [s.split(/[...]+/)] for a character class [sep]: a maximal run of
    separator characters counts as one separator. *)
Fixpoint split_runs_from (sep : ascii -> bool) (s : string) (cur : string)
    (in_run : bool) : list string :=
  match s with
  | EmptyString => [rev_string cur ""]
  | String c s' =>
      if sep c then
        if in_run then split_runs_from sep s' "" true
        else rev_string cur "" :: split_runs_from sep s' "" true
      else split_runs_from sep s' (String c cur) false
  end.

Definition split_runs (sep : ascii -> bool) (s : string) : list string :=
  split_runs_from sep s "" false.

(** [xs.join(sep)] *)
Definition join (sep : string) (xs : list string) : string :=
  String.concat sep xs.

(** [s.startsWith(p)] *)
Definition startsWith (p s : string) : bool := String.prefix p s.

(** [s.includes(p)] *)
Fixpoint includes (p s : string) : bool :=
  String.prefix p s ||
  match s with
  | EmptyString => false
  | String _ s' => includes p s'
  end.

(** [xs.filter(Boolean)] on an array of strings. *)
Definition filter_Boolean (xs : list string) : list string :=
  filter truthy xs.

(** Decimal digits at the front of [s], accumulated into [acc]; the second
    component tells whether at least one digit was read. *)
Fixpoint digits_from (s : string) (acc : Z) (seen : bool) : Z * bool :=
  match s with
  | String c s' =>
      if is_digit c
      then digits_from s' (10 * acc + Z.of_nat (nat_of_ascii c - 48))%Z true
      else (acc, seen)
  | EmptyString => (acc, seen)
  end.

(** [parseInt(s, 10)]: skip leading white space, read an optional sign, then
    the longest run of decimal digits; [None] stands for NaN. *)
Definition parseInt10 (s : string) : option Z :=
  let s1 := trimStart s in
  let '(sign, s2) :=
    match s1 with
    | String "-" r => ((-1)%Z, r)
    | String "+" r => (1%Z, r)
    | _ => (1%Z, s1)
    end in
  match digits_from s2 0%Z false with
  | (z, true) => Some (sign * z)%Z
  | (_, false) => None
  end.

(** ToString on an integer-valued number. *)
Definition string_of_Z (z : Z) : string := integer_to_string z.

(** [s.replace(/^[^:]+:/, "")]: a non-empty run of characters other than
    [":"] at the very start of [s], followed by [":"], is removed.  [after]
    looks for the first colon and returns what follows it. *)
Fixpoint after_colon (s : string) : option string :=
  match s with
  | EmptyString => None
  | String c s' => if Ascii.eqb c ":" then Some s' else after_colon s'
  end.

Definition strip_namespace (s : string) : string :=
  match s with
  | EmptyString => s
  | String c s' =>
      if Ascii.eqb c ":" then s
      else match after_colon s' with
           | Some rest => rest
           | None => s
           end
  end.

(** [s.replace(/,/g, " /")] *)
Fixpoint replace_commas (s : string) : string :=
  match s with
  | EmptyString => EmptyString
  | String c s' =>
      if Ascii.eqb c "," then String " " (String "/" (replace_commas s'))
      else String c (replace_commas s')
  end.

(** [s.replace(/\b\w/g, (char) => char.toUpperCase())]: a word character is
    upper-cased when the character before it is not a word character (or
    when it is the first character). *)
Fixpoint capitalize_from (prev_word : bool) (s : string) : string :=
  match s with
  | EmptyString => EmptyString
  | String c s' =>
      String (if is_word c && negb prev_word then upper_char c else c)
             (capitalize_from (is_word c) s')
  end.

Definition capitalize_words (s : string) : string := capitalize_from false s.

(** ToBoolean and [||] on a string that may be [undefined] or [null]. *)
Definition opt_truthy (s : option string) : bool :=
  match s with Some s => truthy s | None => false end.

Definition opt_or (a b : option string) : option string :=
  if opt_truthy a then a else b.

(** [(a || "")], then used as a string. *)
Definition or_empty (a : option string) : string :=
  match a with Some s => s | None => "" end.

(** [s.lastIndexOf(c)] for a one-character [c]; [None] stands for [-1]. *)
Fixpoint lastIndexOf_from (c : ascii) (s : string) (i : nat) (last : option nat)
    : option nat :=
  match s with
  | EmptyString => last
  | String a s' =>
      lastIndexOf_from c s' (S i) (if Ascii.eqb a c then Some i else last)
  end.

Definition lastIndexOf (c : ascii) (s : string) : option nat :=
  lastIndexOf_from c s 0 None.

(** [s.substring(0, e)], where a negative [e] counts as 0. *)
Definition substring_to (e : option nat) (s : string) : string :=
  String.substring 0 (match e with Some n => n | None => 0 end) s.

(** [s.endsWith(p)] *)
Definition endsWith (p s : string) : bool :=
  String.prefix (rev_string p "") (rev_string s "").

End Js.

(** ** Objects used as string-keyed maps

    An object is its list of own properties in property order;
    [Object.values] and [Object.keys] enumerate it in that order, [delete]
    keeps the order of the remaining properties and assigning to a field of
    an existing property value keeps its position.  Keys are product ids.
    [obj_get] looks at the own properties only; what a lookup finds on
    [Object.prototype] is part of the environment of the handlers. *)

Section Objects.
Context {A : Type}.

Definition object := list (string * A).

(** [o[k]], [None] standing for [undefined]. *)
Fixpoint obj_get (o : list (string * A)) (k : string) : option A :=
  match o with
  | [] => None
  | (k', v) :: o' => if String.eqb k' k then Some v else obj_get o' k
  end.

(** [delete o[k]] *)
Definition obj_delete (o : list (string * A)) (k : string) : list (string * A) :=
  filter (fun kv => negb (String.eqb (fst kv) k)) o.

(** In-place update of the value stored under [k] (no effect if absent). *)
Fixpoint obj_update (o : list (string * A)) (k : string) (f : A -> A)
    : list (string * A) :=
  match o with
  | [] => []
  | (k', v) :: o' =>
      if String.eqb k' k then (k', f v) :: o' else (k', v) :: obj_update o' k f
  end.

(** [o[k] = v]: an existing property keeps its position, a new one comes
    last. *)
Fixpoint obj_set (o : list (string * A)) (k : string) (v : A)
    : list (string * A) :=
  match o with
  | [] => [(k, v)]
  | (k', v') :: o' =>
      if String.eqb k' k then (k', v) :: o' else (k', v') :: obj_set o' k v
  end.

Definition obj_values (o : list (string * A)) : list A := map snd o.
Definition obj_keys (o : list (string * A)) : list string := map fst o.

End Objects.

(** ** Shared DOM vocabulary *)

(** A [<picture>] element: either built directly around an [<img>] (absolute
    URLs), or obtained from the responsive-image helper
    [createOptimizedPicture(src, alt, eager, breakpoints)] of the host
    scripts, which is kept symbolic. *)
Inductive Picture : Type :=
| DirectImg (src alt loading : string)
| OptimizedPicture (src alt : string) (eager : bool)
                   (breakpoints : list (string * string)).

(** [alt] text: [name || "Product image"]. *)
Definition alt_text (name : string) : string :=
  if Js.truthy name then name else "Product image".

(** The display name of a product: [name ? name.split(",")[0].trim() : ""]. *)
Definition display_name (name : string) : string :=
  if Js.truthy name then Js.trim (hd "" (Js.split "," name)) else "".

(** ** Products, as delivered by the catalog endpoint *)

(** An image reference with its author and publish URLs. *)
Record ImageRef : Type := mkImageRef {
  _authorUrl  : option string;
  _publishUrl : option string
}.

(** [externalImageURL] is either a string or an object wrapping the URL in
    its [plaintext] field. *)
Inductive ExternalImage : Type :=
| ExtString (url : string)
| ExtObject (plaintext : option string).

(** ToBoolean on [externalImageURL]: an object is truthy, a string is truthy
    unless empty. *)
Definition ext_truthy (e : ExternalImage) : bool :=
  match e with
  | ExtString url => Js.truthy url
  | ExtObject _ => true
  end.

Record Description : Type := mkDescription {
  html      : option string;
  markdown  : option string;
  plaintext : option string
}.

Section Catalog.
Context {num : Type}.

(** A product record; [None] stands for a field that is missing or [null].
    The elements of [category] are strings, as the content model has them. *)
Record Product : Type := mkProduct {
  p_id               : option string;
  p_sku              : option string;
  p_name             : option string;
  p_price            : option num;
  p_category         : option (list string);
  p_description      : option Description;
  p_image            : option ImageRef;
  p_externalImageURL : option ExternalImage;
  p_damImageURL      : option ImageRef
}.

(** The JSON envelope of a listing, reduced to the two places the fetchers
    look at: [data.productsContentFragmentModelList.items] and
    [data.productsModelList.items].  An entry of [items] may be [null]. *)
Record Envelope : Type := mkEnvelope {
  productsContentFragmentModelList_items : option (list (option Product));
  productsModelList_items                : option (list (option Product))
}.

(** What [await fetch(url)] followed by [await resp.json()] comes to. *)
Inductive FetchOutcome : Type :=
| NetworkFailure                (* fetch rejects *)
| ParseFailure                  (* resp.json() rejects *)
| Json (json : Envelope).

End Catalog.

Arguments Product num : clear implicits.
Arguments Envelope num : clear implicits.
Arguments FetchOutcome num : clear implicits.

(** A recommendation card; [card_click] is the product id the click handler
    navigates to, [None] when no handler is installed. *)
Record Card : Type := mkCard {
  card_class    : string;
  card_click    : option string;
  card_media    : option Picture;
  card_category : string;
  card_title    : string
}.

(** The "YOU MAY ALSO LIKE" section. *)
Record RecSection : Type := mkRecSection {
  rec_class : string;
  rec_title : string;
  rec_grid  : list Card
}.

(** The outcome of a [try] block. *)
Inductive TryResult (A : Type) : Type :=
| Returned (a : A)
| Thrown (error : string).
Arguments Returned {A} a.
Arguments Thrown {A} error.

(** The category line of a card or of the detail view: the part after the
    namespace of each category ([parts.length > 1 ? parts[1] : cat]). *)
Definition category_value (cat : string) : string :=
  let parts := Js.split ":" cat in
  if (1 <? List.length parts)%nat then nth 1 parts "" else cat.

(** The 2 x 2 table of listing endpoints. *)
Definition listing_baseUrl (isAuthor isLegacy : bool) : string :=
  if isLegacy then
    if isAuthor
    then "https://author-p165802-e1765367.adobeaemcloud.com/graphql/execute.json/luma3/menproductspagelister;"
    else "https://275323-918sangriatortoise.adobeioruntime.net/api/v1/web/dx-excshell-1/lumaProductsGraphQl?environment=p165802-e1765367&"
  else
    if isAuthor
    then "https://author-p165802-e1765367.adobeaemcloud.com/graphql/execute.json/luma3/zoltarProductListByPath;"
    else "https://275323-918sangriatortoise.adobeioruntime.net/api/v1/web/dx-excshell-1/luma-zoltar?environment=p165802-e1765367&endpoint=zoltarProductListByPath&".

(** * The cart block *)

Module Cart.
Section WithNumbers.
Context {num : Type} {N : JsNumber num}.

(** A line item of the cart, as stored in the data layer. *)
Record LineItem : Type := mkLineItem {
  li_id       : string;
  li_name     : string;
  li_image    : string;
  li_category : string;
  li_quantity : num;
  li_price    : num;
  li_subTotal : num;
  li_total    : num
}.

(** The cart object of the data layer. *)
Record CartData : Type := mkCart {
  productCount : num;
  products     : list (string * LineItem);
  subTotal     : num;
  total        : num
}.

(** Text put into a cell: [formatPrice(amount)], i.e. ["$" + amount.toFixed(2)],
    is kept symbolic as [Price amount]; a bare number as [Count n]. *)
Inductive Text : Type :=
| Price (amount : num)
| Count (n : num).

Definition formatPrice (amount : num) : Text := Price amount.

(** One row of the item list built by [buildCartItem]. *)
Record CartItemRow : Type := mkRow {
  row_product_id : string;          (* data-product-id *)
  row_image      : option Picture;  (* child of .cart-item-image *)
  row_name       : string;          (* .cart-item-name *)
  row_qty        : num;             (* value of .cart-qty-input *)
  row_price      : Text             (* .cart-item-price *)
}.

(** Children of the [.cart-items] container. *)
Inductive ItemsChild : Type :=
| EmptyState
| HeaderRow
| ItemRow (r : CartItemRow).

(** The parts of the block's DOM the handlers read and write.  A field is
    [None] when the element is not in the block ([querySelector] gives
    [null]). *)
Record CartBlock : Type := mkBlock {
  cart_items            : option (list ItemsChild);
  cart_summary_display  : option string;  (* .cart-summary style.display *)
  cart_main_empty_state : option bool;    (* .cart-main has cart-empty-state *)
  cart_content_is_empty : option bool;    (* .cart-content has cart-is-empty *)
  cart_subtotal_value   : option Text;
  cart_total_value      : option Text;
  cart_product_count    : option Text;
  cart_recommendations  : option (list RecSection)
                          (* .cart-recommendations children of .cart-container *)
}.

(** What a handler does to its environment, in order. *)
Inductive Event : Type :=
| UpdateDataLayer (cart : CartData) (merge : bool)
| ConsoleLog (msg : string)
| ConsoleError (msg : string)
| RenderCartItems (cartData : CartData)
| UpdateCartTotals (cartData : CartData).

(** What [products[productId]] finds on [Object.prototype] when [products]
    has no own property [productId]: a function or another object, the
    prototype itself (through the accessor [__proto__]), or a number (the
    handlers can store numbers there, see [assign_on_prototype]). *)
Inductive Inherited : Type :=
| InhObject
| InhPrototype
| InhNumber (n : num).

(** The properties every [Object.prototype] has. *)
Definition standard_prototype : list (string * Inherited) :=
  [("constructor", InhObject); ("__defineGetter__", InhObject);
   ("__defineSetter__", InhObject); ("hasOwnProperty", InhObject);
   ("__lookupGetter__", InhObject); ("__lookupSetter__", InhObject);
   ("isPrototypeOf", InhObject); ("propertyIsEnumerable", InhObject);
   ("toString", InhObject); ("valueOf", InhObject);
   ("__proto__", InhPrototype); ("toLocaleString", InhObject)].

(** What [block.querySelector(selector)] followed by
    [productRow.querySelector(".cart-item-price")] yields for a selector
    whose reading is left to the CSS engine: the selector is refused, or no
    price cell is found, or the price cell of the item row at some position
    among the children of [.cart-items]. *)
Inductive SelectorOutcome : Type :=
| SelectorRefused
| NoPriceCell
| PriceCellOfChild (position : nat).

Record World : Type := mkWorld {
  dataLayer_cart       : option CartData; (* the "cart" key of the store *)
  updateDataLayer_defined : bool;         (* window.updateDataLayer is set *)
  isAuthorEnvironment  : bool;
  object_prototype     : list (string * Inherited);
                                          (* properties of Object.prototype *)
  css_engine           : string -> CartBlock -> SelectorOutcome;
                         (* the reading of [data-product-id="..."] for an id
                            that is not [selector_safe] *)
  block                : CartBlock;
  trace                : list Event       (* most recent last *)
}.

(** How a handler finishes: normally, or by an uncaught exception. *)
Inductive Completion : Type :=
| Normal (w : World)
| Throw (error : string) (w : World).

Definition emit (e : Event) (w : World) : World :=
  mkWorld (dataLayer_cart w) (updateDataLayer_defined w)
          (isAuthorEnvironment w) (object_prototype w) (css_engine w)
          (block w) (trace w ++ [e]).

Definition set_block (b : CartBlock) (w : World) : World :=
  mkWorld (dataLayer_cart w) (updateDataLayer_defined w)
          (isAuthorEnvironment w) (object_prototype w) (css_engine w)
          b (trace w).

Definition set_prototype (proto : list (string * Inherited)) (w : World)
    : World :=
  mkWorld (dataLayer_cart w) (updateDataLayer_defined w)
          (isAuthorEnvironment w) proto (css_engine w) (block w) (trace w).

(** Modelled from the spec: the shared store is not part of the two blocks.
    [get(key)] returns the current value of the key and
    [update(partial, merge)] with [merge = false] fully replaces the named
    top-level key; the handlers work on the object they read as on a local
    copy. *)
Definition getDataLayerProperty_cart (w : World) : option CartData :=
  dataLayer_cart w.

Definition updateDataLayer_replace_cart (c : CartData) (w : World) : World :=
  emit (UpdateDataLayer c false)
       (mkWorld (Some c) (updateDataLayer_defined w)
                (isAuthorEnvironment w) (object_prototype w) (css_engine w)
                (block w) (trace w)).

Definition empty_cart : CartData :=
  mkCart (num_of_Z 0) [] (num_of_Z 0) (num_of_Z 0).

(** [window.getDataLayerProperty("cart") || { productCount: 0, products: {},
    subTotal: 0, total: 0 }] *)
Definition read_cart (w : World) : CartData :=
  match getDataLayerProperty_cart w with
  | Some c => c
  | None => empty_cart
  end.

(** [productValues.reduce((sum, p) => sum + p.quantity, 0)] *)
Definition sum_quantity (productValues : list LineItem) : num :=
  fold_left (fun sum p => num_add sum (li_quantity p)) productValues (num_of_Z 0).

(** [productValues.reduce((sum, p) => sum + p.subTotal, 0)] *)
Definition sum_subTotal (productValues : list LineItem) : num :=
  fold_left (fun sum p => num_add sum (li_subTotal p)) productValues (num_of_Z 0).

(** The block "Recalculate totals", common to both handlers. *)
Definition recalculate (ps : list (string * LineItem)) : CartData :=
  let productValues := obj_values ps in
  let subTotal' := sum_subTotal productValues in
  mkCart (sum_quantity productValues) ps subTotal' subTotal'.

(** [updateCartTotals(block, cartData)] *)
Definition updateCartTotals_dom (b : CartBlock) (cartData : CartData) : CartBlock :=
  mkBlock (cart_items b) (cart_summary_display b)
    (cart_main_empty_state b) (cart_content_is_empty b)
    (match cart_subtotal_value b with
     | Some _ => Some (formatPrice (num_or (subTotal cartData) (num_of_Z 0)))
     | None => None
     end)
    (match cart_total_value b with
     | Some _ => Some (formatPrice (num_or (total cartData) (num_of_Z 0)))
     | None => None
     end)
    (match cart_product_count b with
     | Some _ => Some (Count (num_or (productCount cartData) (num_of_Z 0)))
     | None => None
     end)
    (cart_recommendations b).

Definition updateCartTotals (cartData : CartData) (w : World) : World :=
  set_block (updateCartTotals_dom (block w) cartData)
            (emit (UpdateCartTotals cartData) w).

(** [buildCartItem(product, block, isAuthor)] *)
Definition buildCartItem (product : LineItem) (isAuthor : bool) : CartItemRow :=
  let image := li_image product in
  let name := li_name product in
  mkRow (li_id product)
    (if Js.truthy image then
       Some (if Js.startsWith "http" image
             then DirectImg image (alt_text name) "lazy"
             else OptimizedPicture image (alt_text name) false [("", "200")])
     else None)
    (display_name name)
    (li_quantity product)
    (formatPrice (num_or (li_subTotal product)
                         (num_mul (li_price product) (li_quantity product)))).

(** [renderCartItems(block, cartData)] *)
Definition renderCartItems_dom (isAuthor : bool) (b : CartBlock)
    (cartData : CartData) : CartBlock :=
  match cart_items b with
  | None => b   (* console.error, return *)
  | Some _ =>
      let productValues := obj_values (products cartData) in
      let isEmpty := (List.length productValues =? 0)%nat in
      let flag (old : option bool) :=
        match old with Some _ => Some isEmpty | None => None end in
      mkBlock
        (Some (if isEmpty then [EmptyState]
               else HeaderRow
                    :: map (fun product => ItemRow (buildCartItem product isAuthor))
                           productValues))
        (match cart_summary_display b with
         | Some _ => Some (if isEmpty then "none" else "block")
         | None => None
         end)
        (flag (cart_main_empty_state b))
        (flag (cart_content_is_empty b))
        (cart_subtotal_value b) (cart_total_value b) (cart_product_count b)
        (cart_recommendations b)
  end.

Definition renderCartItems (cartData : CartData) (w : World) : World :=
  let w := emit (RenderCartItems cartData) w in
  match cart_items (block w) with
  | None =>
      emit (ConsoleError "Cart items container (.cart-items) not found in DOM") w
  | Some _ =>
      set_block (renderCartItems_dom (isAuthorEnvironment w) (block w) cartData) w
  end.

(** [currentCart.products[productId]]: an own property, which holds a line
    item, or else what [Object.prototype] has under that name. *)
Inductive Lookup : Type :=
| Own (p : LineItem)
| Inherit (v : Inherited)
| Missing.

Definition lookup_product (w : World) (ps : list (string * LineItem))
    (productId : string) : Lookup :=
  match obj_get ps productId with
  | Some p => Own p
  | None =>
      match obj_get (object_prototype w) productId with
      | Some v => Inherit v
      | None => Missing
      end
  end.

(** ToBoolean of what the lookup found: objects are truthy. *)
Definition lookup_truthy (l : Lookup) : bool :=
  match l with
  | Own _ | Inherit InhObject | Inherit InhPrototype => true
  | Inherit (InhNumber n) => num_truthy n
  | Missing => false
  end.

(** [removeFromCart(productId, block)]; [delete] leaves the object as it is
    when [productId] is not an own property. *)
Definition removeFromCart (productId : string) (w : World) : World :=
  let currentCart := read_cart w in
  if lookup_truthy (lookup_product w (products currentCart) productId) then
    let currentCart := recalculate (obj_delete (products currentCart) productId) in
    let w :=
      if updateDataLayer_defined w
      then emit (ConsoleLog ("Removed product " ++ productId ++ " from cart. New cart:"))
                (updateDataLayer_replace_cart currentCart w)
      else emit (ConsoleError "updateDataLayer not available") w in
    let w := renderCartItems currentCart w in
    updateCartTotals currentCart w
  else w.

(** The value handed to [updateQuantity]: the text of the quantity input, or
    the number [z] (the double nearest to the integer [z]). *)
Inductive QuantityArg : Type :=
| QString (s : string)
| QInt (z : Z).

(** ToString, the first step of [parseInt]. *)
Definition arg_to_string (a : QuantityArg) : string :=
  match a with
  | QString s => s
  | QInt z => num_to_string (num_of_Z z)
  end.

(** [parseInt(newQuantity, 10)] *)
Definition parseInt (newQuantity : QuantityArg) : num :=
  match Js.parseInt10 (arg_to_string newQuantity) with
  | Some z => num_of_Z z
  | None => num_nan
  end.

(** The three assignments to the line item under [productId]. *)
Definition set_quantity (quantity : num) (p : LineItem) : LineItem :=
  let subTotal' := num_mul quantity (li_price p) in
  mkLineItem (li_id p) (li_name p) (li_image p) (li_category p)
             quantity (li_price p) subTotal' subTotal'.

(** [.price] of an object that has no such property of its own: the number
    [Object.prototype] holds under that name, or else [undefined] or an
    object, which are NaN as a factor. *)
Definition inherited_price (proto : list (string * Inherited)) : num :=
  match obj_get proto "price" with
  | Some (InhNumber n) => n
  | _ => num_nan
  end.

(** The three assignments when [products[productId]] is [Object.prototype]
    itself: they add [quantity], [subTotal] and [total] to the prototype of
    every object.  The result is the new prototype and the [subTotal]
    assigned. *)
Definition assign_on_prototype (quantity : num)
    (proto : list (string * Inherited)) : list (string * Inherited) * num :=
  let proto := obj_set proto "quantity" (InhNumber quantity) in
  let subTotal' := num_mul quantity (inherited_price proto) in
  let proto := obj_set proto "subTotal" (InhNumber subTotal') in
  (obj_set proto "total" (InhNumber subTotal'), subTotal').

(** [priceEl.textContent = ...] on the first element of the block carrying
    [data-product-id = productId] (only item rows carry the attribute). *)
Fixpoint set_row_price (productId : string) (t : Text) (rows : list ItemsChild)
    : list ItemsChild :=
  match rows with
  | [] => []
  | ItemRow r :: rows' =>
      if String.eqb (row_product_id r) productId
      then ItemRow (mkRow (row_product_id r) (row_image r) (row_name r)
                          (row_qty r) t) :: rows'
      else ItemRow r :: set_row_price productId t rows'
  | other :: rows' => other :: set_row_price productId t rows'
  end.

Definition update_row_price (productId : string) (t : Text) (b : CartBlock)
    : CartBlock :=
  mkBlock (option_map (set_row_price productId t) (cart_items b))
    (cart_summary_display b) (cart_main_empty_state b)
    (cart_content_is_empty b) (cart_subtotal_value b) (cart_total_value b)
    (cart_product_count b) (cart_recommendations b).

(** [priceEl.textContent = ...] on the price cell of the child at
    [position], when that child is an item row. *)
Fixpoint set_price_at (position : nat) (t : Text) (rows : list ItemsChild)
    : list ItemsChild :=
  match rows, position with
  | [], _ => []
  | ItemRow r :: rows', O =>
      ItemRow (mkRow (row_product_id r) (row_image r) (row_name r)
                     (row_qty r) t) :: rows'
  | other :: rows', O => other :: rows'
  | other :: rows', S position' => other :: set_price_at position' t rows'
  end.

Definition update_price_at (position : nat) (t : Text) (b : CartBlock)
    : CartBlock :=
  mkBlock (option_map (set_price_at position t) (cart_items b))
    (cart_summary_display b) (cart_main_empty_state b)
    (cart_content_is_empty b) (cart_subtotal_value b) (cart_total_value b)
    (cart_product_count b) (cart_recommendations b).

(** The product ids that can be put between the quotes of
    [[data-product-id="..."]] as they are: a double quote would end the
    string, a backslash starts an escape, a line break makes the string
    invalid and NUL is replaced when the selector is read. *)
Fixpoint selector_safe (productId : string) : bool :=
  match productId with
  | EmptyString => true
  | String c rest =>
      let n := nat_of_ascii c in
      negb ((n =? 0) || (n =? 10) || (n =? 12) || (n =? 13)
            || (n =? 34) || (n =? 92))%nat
      && selector_safe rest
  end.

(** The last statements of [updateQuantity]: the row is looked up with the
    selector built from [productId], which [querySelector] refuses with a
    SyntaxError when it is not a valid selector, and its price cell is set
    to [t]. *)
Definition patch_row_price (productId : string) (t : Text) (w : World)
    : Completion :=
  if selector_safe productId then
    Normal (set_block (update_row_price productId t (block w)) w)
  else
    match css_engine w productId (block w) with
    | SelectorRefused =>
        Throw "SyntaxError: not a valid selector" w
    | NoPriceCell => Normal w
    | PriceCellOfChild position =>
        Normal (set_block (update_price_at position t (block w)) w)
    end.

(** [updateQuantity] from "Recalculate cart totals" on: [ps] are the
    products after the three assignments and [subTotal'] is the [subTotal]
    assigned. *)
Definition store_and_patch (productId : string)
    (ps : list (string * LineItem)) (subTotal' : num) (w : World)
    : Completion :=
  let currentCart := recalculate ps in
  if updateDataLayer_defined w then
    let w := updateDataLayer_replace_cart currentCart w in
    let w := updateCartTotals currentCart w in
    patch_row_price productId (formatPrice subTotal') w
  else Throw "TypeError: window.updateDataLayer is not a function" w.

(** [updateQuantity(productId, newQuantity, block)].  The module is strict
    code, so the assignment of [quantity] to a number throws. *)
Definition updateQuantity (productId : string) (newQuantity : QuantityArg)
    (w : World) : Completion :=
  let quantity := parseInt newQuantity in
  if num_lt quantity (num_of_Z 1) then Normal (removeFromCart productId w)
  else
    let currentCart := read_cart w in
    match lookup_product w (products currentCart) productId with
    | Own p =>
        store_and_patch productId
          (obj_update (products currentCart) productId (set_quantity quantity))
          (li_subTotal (set_quantity quantity p)) w
    | Inherit InhObject =>
        store_and_patch productId (products currentCart)
          (num_mul quantity (inherited_price (object_prototype w))) w
    | Inherit InhPrototype =>
        let '(proto, subTotal') :=
          assign_on_prototype quantity (object_prototype w) in
        store_and_patch productId (products currentCart) subTotal'
          (set_prototype proto w)
    | Inherit (InhNumber n) =>
        if num_truthy n
        then Throw "TypeError: cannot create property 'quantity' on a number" w
        else Normal w
    | Missing => Normal w
    end.

(** [items.filter((item) => item && (item.sku || item.id))] *)
Definition has_sku_or_id (item : Product num) : bool :=
  Js.opt_truthy (p_sku item) || Js.opt_truthy (p_id item).

Fixpoint filter_identified (items : list (option (Product num)))
    : list (Product num) :=
  match items with
  | [] => []
  | Some item :: items' =>
      if has_sku_or_id item then item :: filter_identified items'
      else filter_identified items'
  | None :: items' => filter_identified items'
  end.

(** The [try] block of [fetchAllProducts]. *)
Definition fetchAllProducts_try (fetch : string -> FetchOutcome num)
    (path : string) (isAuthor isLegacy : bool) : TryResult (list (Product num)) :=
  if negb (Js.truthy path) then Returned []
  else
    let url := (listing_baseUrl isAuthor isLegacy ++ "_path=" ++ path)%string in
    match fetch url with
    | NetworkFailure => Thrown "fetch failed"
    | ParseFailure => Thrown "invalid JSON"
    | Json json =>
        let items :=
          match productsContentFragmentModelList_items json with
          | Some items => items
          | None =>
              match productsModelList_items json with
              | Some items => items
              | None => []
              end
          end in
        Returned (filter_identified items)
    end.

(** [fetchAllProducts(path, isAuthor, isLegacy)]: the [catch] clause logs
    and returns the empty list. *)
Definition fetchAllProducts (fetch : string -> FetchOutcome num)
    (path : string) (isAuthor isLegacy : bool) : list (Product num) :=
  match fetchAllProducts_try fetch path isAuthor isLegacy with
  | Returned items => items
  | Thrown _ => []
  end.

(** [getProductImageUrl(item, isAuthor, isLegacy)]; [None] is [null] (or an
    [undefined] sub-field). *)
Definition getProductImageUrl (item : option (Product num))
    (isAuthor isLegacy : bool) : option string :=
  match item with
  | None => None
  | Some item =>
      if isLegacy then
        match p_image item with
        | Some image =>
            if Js.opt_truthy (_authorUrl image) || Js.opt_truthy (_publishUrl image)
            then (if isAuthor then _authorUrl image else _publishUrl image)
            else None
        | None => None
        end
      else
        let fromDam :=
          match p_damImageURL item with
          | Some damImageURL =>
              if Js.opt_truthy (_authorUrl damImageURL)
                 || Js.opt_truthy (_publishUrl damImageURL)
              then (if isAuthor then _authorUrl damImageURL
                    else _publishUrl damImageURL)
              else None
          | None => None
          end in
        match p_externalImageURL item with
        | Some externalImageURL =>
            if ext_truthy externalImageURL then
              let url :=
                match externalImageURL with
                | ExtString s => Some s
                | ExtObject plaintext => plaintext
                end in
              if Js.opt_truthy url then url else fromDam
            else fromDam
        | None => fromDam
        end
  end.

(** The category line of a card. *)
Definition card_category_text (category : option (list string)) : string :=
  let cleanedCategories :=
    match category with
    | Some (c :: cs) => Js.filter_Boolean (map category_value (c :: cs))
    | _ => []
    end in
  Js.capitalize_words
    (Js.toLowerCase (Js.replace_commas (Js.join ", " cleanedCategories))).

(** The [<picture>] of a card, if any. *)
Definition card_picture (imgUrl : option string) (name : option string)
    : option Picture :=
  match imgUrl with
  | Some imgUrl =>
      if Js.truthy imgUrl then
        Some (if Js.startsWith "http" imgUrl
              then DirectImg imgUrl (alt_text (Js.or_empty name)) "lazy"
              else OptimizedPicture imgUrl (alt_text (Js.or_empty name)) false
                     [("(min-width: 900px)", "600");
                      ("(min-width: 600px)", "400");
                      ("", "320")])
      else None
  | None => None
  end.

(** [buildRecommendationCard(item, isAuthor, isLegacy)] *)
Definition buildRecommendationCard (item : Product num)
    (isAuthor isLegacy : bool) : Card :=
  let imgUrl := getProductImageUrl (Some item) isAuthor isLegacy in
  let productId := Js.or_empty (Js.opt_or (p_sku item) (p_id item)) in
  mkCard "cart-rec-card"
    (if Js.truthy productId then Some productId else None)
    (card_picture imgUrl (p_name item))
    (card_category_text (p_category item))
    (display_name (Js.or_empty (p_name item))).

Definition is_slash_or_comma (c : ascii) : bool :=
  Ascii.eqb c "/" || Ascii.eqb c ",".

(** [set.has(x)] for a [Set] of strings given by its elements. *)
Definition set_has (set : list string) (x : string) : bool :=
  existsb (String.eqb x) set.

(** The elements of [cartCategories]. *)
Definition cartCategories (cartData : CartData) : list string :=
  flat_map
    (fun product =>
       if Js.truthy (li_category product) then
         Js.filter_Boolean
           (map (fun c => Js.toLowerCase (Js.trim c))
                (Js.split_runs is_slash_or_comma (li_category product)))
       else [])
    (obj_values (products cartData)).

(** The elements of [cartProductIds]. *)
Definition cartProductIds (cartData : CartData) : list string :=
  obj_keys (products cartData).

Definition normalizeProductCat (cat : string) : string :=
  Js.strip_namespace (Js.toLowerCase cat).

(** The callback given to [allProducts.filter]. *)
Definition is_recommended (cartData : CartData) (product : Product num) : bool :=
  let pid := Js.or_empty (Js.opt_or (p_sku product) (p_id product)) in
  if set_has (cartProductIds cartData) pid then false
  else
    let productCats :=
      Js.filter_Boolean
        (map normalizeProductCat
             (match p_category product with Some cs => cs | None => [] end)) in
    existsb (fun c => set_has (cartCategories cartData) c) productCats.

(** [buildRecommendations(allProducts, cartData, isAuthor, isLegacy)] *)
Definition buildRecommendations (allProducts : list (Product num))
    (cartData : CartData) (isAuthor isLegacy : bool) : option RecSection :=
  let recommendations := firstn 5 (filter (is_recommended cartData) allProducts) in
  if (List.length recommendations =? 0)%nat then None
  else Some (mkRecSection "cart-recommendations" "YOU MAY ALSO LIKE"
               (map (fun product => buildRecommendationCard product isAuthor isLegacy)
                    recommendations)).

Definition set_recommendations (recs : option (list RecSection)) (b : CartBlock)
    : CartBlock :=
  mkBlock (cart_items b) (cart_summary_display b) (cart_main_empty_state b)
    (cart_content_is_empty b) (cart_subtotal_value b) (cart_total_value b)
    (cart_product_count b) recs.

(** [if (recommendations) container.appendChild(recommendations)] *)
Definition append_recommendations (recommendations : option RecSection)
    (container : list RecSection) : list RecSection :=
  match recommendations with
  | Some section => container ++ [section]
  | None => container
  end.

(** The listener installed by [setupDataLayerListener], run on a
    [dataLayerUpdated] event whose detail carries [cart] (or no cart). *)
Definition onDataLayerUpdated (folderHref : string)
    (allProducts : list (Product num)) (isAuthor isLegacy : bool)
    (cart : option CartData) (w : World) : World :=
  match cart with
  | Some cart =>
      let w := renderCartItems cart w in
      let w := updateCartTotals cart w in
      if Js.truthy folderHref && (0 <? List.length allProducts)%nat then
        match cart_recommendations (block w) with
        | Some container =>
            let container := tl container in  (* existingRec.remove() *)
            let recommendations :=
              buildRecommendations allProducts cart isAuthor isLegacy in
            set_block (set_recommendations
                         (Some (append_recommendations recommendations container))
                         (block w)) w
        | None => w
        end
      else w
  | None => w
  end.

(** [decorate(block)], from the point where [folderHref] has been read from
    the block and normalised.  Returns the world together with the product
    list handed to the listener. *)
Definition decorate (folderHref : string) (fetch : string -> FetchOutcome num)
    (w : World) : World * list (Product num) :=
  let isAuthor := isAuthorEnvironment w in
  let isLegacyLuma3 := Js.truthy folderHref && Js.includes "/dam/luma3/" folderHref in
  let currentCart := read_cart w in
  let block0 :=
    mkBlock (Some []) (Some "") (Some false) (Some false)
      (Some (formatPrice (num_or (subTotal currentCart) (num_of_Z 0))))
      (Some (formatPrice (num_or (total currentCart) (num_of_Z 0))))
      None (Some []) in
  let w := renderCartItems currentCart (set_block block0 w) in
  if Js.truthy folderHref then
    let allProducts := fetchAllProducts fetch folderHref isAuthor isLegacyLuma3 in
    let recommendations :=
      buildRecommendations allProducts currentCart isAuthor isLegacyLuma3 in
    (set_block (set_recommendations
                  (option_map (append_recommendations recommendations)
                              (cart_recommendations (block w)))
                  (block w)) w,
     allProducts)
  else (w, []).

(** What [handleCheckout] does to the page: an alert, or a navigation by
    assignment to [window.location.href]. *)
Inductive CheckoutOutcome : Type :=
| Alert (message : string)
| NavigateTo (href : string).

(** [handleCheckout()], with [pathname] the value of
    [window.location.pathname].  The test [productCount === 0] is subsumed
    by [!productCount], 0 being falsy. *)
Definition handleCheckout (pathname : string) (w : World) : CheckoutOutcome :=
  match getDataLayerProperty_cart w with
  | None => Alert "Your cart is empty"
  | Some cartData =>
      if negb (num_truthy (productCount cartData)) then Alert "Your cart is empty"
      else
        let basePath := Js.substring_to (Js.lastIndexOf "/" pathname) pathname in
        NavigateTo (basePath ++ "/checkout")
  end.

End WithNumbers.

Arguments LineItem num : clear implicits.
Arguments CartData num : clear implicits.
Arguments Text num : clear implicits.
Arguments CartItemRow num : clear implicits.
Arguments ItemsChild num : clear implicits.
Arguments CartBlock num : clear implicits.
Arguments Event num : clear implicits.
Arguments Inherited num : clear implicits.
Arguments Lookup num : clear implicits.
Arguments World num : clear implicits.
Arguments Completion num : clear implicits.

End Cart.

(** * The product-detail block *)

Module ProductDetail.
Section WithNumbers.
Context {num : Type} {N : JsNumber num}.

(** The object written under the ["product"] key of the data layer. *)
Record ProductData : Type := mkProductData {
  pd_id          : string;
  pd_sku         : string;
  pd_name        : string;
  pd_price       : num;
  pd_category    : string;
  pd_description : string;
  pd_image       : string;
  pd_thumbnail   : string
}.

(** The [.pd-description] element is filled through [innerHTML] or through
    [textContent]. *)
Inductive DescriptionEl : Type :=
| InnerHTML (s : string)
| TextContent (s : string).

(** The tree built by [buildProductDetail]. *)
Record DetailView : Type := mkDetailView {
  pd_image_el       : option Picture;       (* child of .pd-image *)
  pd_category_el    : option string;        (* .pd-category *)
  pd_name_el        : string;               (* .pd-name *)
  pd_price_el       : option num;           (* .pd-price, "$" + price *)
  pd_description_el : option DescriptionEl  (* .pd-description *)
}.

(** Children of the block. *)
Inductive Node : Type :=
| ErrorMsg (text : string)
| Detail (view : DetailView)
| Recommendations (section : RecSection).

(** [merge] is [None] when [updateDataLayer] is called with one argument. *)
Inductive Event : Type :=
| UpdateDataLayer (product : ProductData) (merge : option bool)
| ConsoleWarn (msg : string).

Record World : Type := mkWorld {
  dataLayer_product           : option ProductData;
  updateDataLayer_is_function : bool;
  isAuthorEnvironment         : bool;
  block                       : list Node;
  trace                       : list Event
}.

Definition emit (e : Event) (w : World) : World :=
  mkWorld (dataLayer_product w) (updateDataLayer_is_function w)
          (isAuthorEnvironment w) (block w) (trace w ++ [e]).

Definition set_block (b : list Node) (w : World) : World :=
  mkWorld (dataLayer_product w) (updateDataLayer_is_function w)
          (isAuthorEnvironment w) b (trace w).

(** Modelled from the spec: the shared store is not part of the two blocks.
    [update(partial, merge)] called without the [merge] flag merges
    [partial] into the store; [productData] carries every field of the
    ["product"] entry, so the merged entry is [productData]. *)
Definition updateDataLayer_product (productData : ProductData) (w : World) : World :=
  emit (UpdateDataLayer productData None)
       (mkWorld (Some productData) (updateDataLayer_is_function w)
                (isAuthorEnvironment w) (block w) (trace w)).

(** [items.find((item) => (item.sku || item.id || "").toString() ===
    sku.toString())]; reading a field of a [null] entry throws. *)
Fixpoint find_by_sku (sku : string) (items : list (option (Product num)))
    : TryResult (option (Product num)) :=
  match items with
  | [] => Returned None
  | None :: _ => Thrown "TypeError: cannot read properties of null"
  | Some item :: items' =>
      if String.eqb (Js.or_empty (Js.opt_or (p_sku item) (p_id item))) sku
      then Returned (Some item)
      else find_by_sku sku items'
  end.

(** The [try] block of [fetchProductDetail]. *)
Definition fetchProductDetail_try (fetch : string -> FetchOutcome num)
    (path sku : string) (isAuthor isLegacy : bool)
    : TryResult (option (Product num)) :=
  if negb (Js.truthy path) || negb (Js.truthy sku) then Returned None
  else if isLegacy then
    let skuItem := ((if isAuthor then ";sku=" else "&sku=") ++ sku)%string in
    let baseUrl :=
      if isAuthor
      then "https://author-p165802-e1765367.adobeaemcloud.com/graphql/execute.json/luma3/getProductsByPathAndSKU;"
      else "https://275323-918sangriatortoise.adobeioruntime.net/api/v1/web/dx-excshell-1/lumaProductsGrapghQlByPathAndSku?environment=p165802-e1765367&" in
    let url := (baseUrl ++ "_path=" ++ path ++ skuItem)%string in
    match fetch url with
    | NetworkFailure => Thrown "fetch failed"
    | ParseFailure => Thrown "invalid JSON"
    | Json json =>
        let items :=
          match productsModelList_items json with
          | Some items => items
          | None => []
          end in
        Returned (match items with
                  | item :: _ => item
                  | [] => None
                  end)
    end
  else
    let url := (listing_baseUrl isAuthor false ++ "_path=" ++ path)%string in
    match fetch url with
    | NetworkFailure => Thrown "fetch failed"
    | ParseFailure => Thrown "invalid JSON"
    | Json json =>
        let items :=
          match productsContentFragmentModelList_items json with
          | Some items => items
          | None =>
              match productsModelList_items json with
              | Some items => items
              | None => []
              end
          end in
        find_by_sku sku items
    end.

(** [fetchProductDetail(path, sku, isAuthor, isLegacy)]: the [catch] clause
    logs and returns [null]. *)
Definition fetchProductDetail (fetch : string -> FetchOutcome num)
    (path sku : string) (isAuthor isLegacy : bool) : option (Product num) :=
  match fetchProductDetail_try fetch path sku isAuthor isLegacy with
  | Returned product => product
  | Thrown _ => None
  end.

(** [items.filter((item) => item && (item.sku || item.id))] *)
Definition has_sku_or_id (item : Product num) : bool :=
  Js.opt_truthy (p_sku item) || Js.opt_truthy (p_id item).

Fixpoint filter_identified (items : list (option (Product num)))
    : list (Product num) :=
  match items with
  | [] => []
  | Some item :: items' =>
      if has_sku_or_id item then item :: filter_identified items'
      else filter_identified items'
  | None :: items' => filter_identified items'
  end.

(** The [try] block of [fetchAllProducts]. *)
Definition fetchAllProducts_try (fetch : string -> FetchOutcome num)
    (path : string) (isAuthor isLegacy : bool) : TryResult (list (Product num)) :=
  if negb (Js.truthy path) then Returned []
  else
    let url := (listing_baseUrl isAuthor isLegacy ++ "_path=" ++ path)%string in
    match fetch url with
    | NetworkFailure => Thrown "fetch failed"
    | ParseFailure => Thrown "invalid JSON"
    | Json json =>
        let items :=
          match productsContentFragmentModelList_items json with
          | Some items => items
          | None =>
              match productsModelList_items json with
              | Some items => items
              | None => []
              end
          end in
        Returned (filter_identified items)
    end.

(** [fetchAllProducts(path, isAuthor, isLegacy)] *)
Definition fetchAllProducts (fetch : string -> FetchOutcome num)
    (path : string) (isAuthor isLegacy : bool) : list (Product num) :=
  match fetchAllProducts_try fetch path isAuthor isLegacy with
  | Returned items => items
  | Thrown _ => []
  end.

(** [getProductImageUrl(item, isAuthor, isLegacy)] *)
Definition getProductImageUrl (item : option (Product num))
    (isAuthor isLegacy : bool) : option string :=
  match item with
  | None => None
  | Some item =>
      if isLegacy then
        match p_image item with
        | Some image =>
            if Js.opt_truthy (_authorUrl image) || Js.opt_truthy (_publishUrl image)
            then (if isAuthor then _authorUrl image else _publishUrl image)
            else None
        | None => None
        end
      else
        let fromDam :=
          match p_damImageURL item with
          | Some damImageURL =>
              if Js.opt_truthy (_authorUrl damImageURL)
                 || Js.opt_truthy (_publishUrl damImageURL)
              then (if isAuthor then _authorUrl damImageURL
                    else _publishUrl damImageURL)
              else None
          | None => None
          end in
        match p_externalImageURL item with
        | Some externalImageURL =>
            if ext_truthy externalImageURL then
              let url :=
                match externalImageURL with
                | ExtString s => Some s
                | ExtObject plaintext => plaintext
                end in
              if Js.opt_truthy url then url else fromDam
            else fromDam
        | None => fromDam
        end
  end.

(** [formatCategoryDisplay(category)] *)
Definition formatCategoryDisplay (category : option (list string)) : string :=
  match category with
  | None | Some [] => ""
  | Some category =>
      let cleaned := Js.filter_Boolean (map category_value category) in
      Js.capitalize_words
        (Js.toLowerCase (Js.replace_commas (Js.join ", " cleaned)))
  end.

(** The [<picture>] of a card, if any. *)
Definition card_picture (imgUrl : option string) (name : option string)
    : option Picture :=
  match imgUrl with
  | Some imgUrl =>
      if Js.truthy imgUrl then
        Some (if Js.startsWith "http" imgUrl
              then DirectImg imgUrl (alt_text (Js.or_empty name)) "lazy"
              else OptimizedPicture imgUrl (alt_text (Js.or_empty name)) false
                     [("(min-width: 900px)", "600");
                      ("(min-width: 600px)", "400");
                      ("", "320")])
      else None
  | None => None
  end.

(** [buildRecommendationCard(item, isAuthor, isLegacy)] *)
Definition buildRecommendationCard (item : Product num)
    (isAuthor isLegacy : bool) : Card :=
  let imgUrl := getProductImageUrl (Some item) isAuthor isLegacy in
  let productId := Js.or_empty (Js.opt_or (p_sku item) (p_id item)) in
  let cleanedCategories :=
    match p_category item with
    | Some (c :: cs) => Js.filter_Boolean (map category_value (c :: cs))
    | _ => []
    end in
  mkCard "pd-rec-card"
    (if Js.truthy productId then Some productId else None)
    (card_picture imgUrl (p_name item))
    (Js.capitalize_words
       (Js.toLowerCase (Js.replace_commas (Js.join ", " cleanedCategories))))
    (display_name (Js.or_empty (p_name item))).

(** [description?.html || description?.markdown || description?.plaintext || ""] *)
Definition description_text (description : option Description) : string :=
  match description with
  | Some d => Js.or_empty (Js.opt_or (Js.opt_or (html d) (markdown d)) (plaintext d))
  | None => ""
  end.

(** The derived object [productData] of [buildProductDetail]. *)
Definition productData_of (product : Product num) (isAuthor isLegacy : bool)
    : ProductData :=
  let name := Js.or_empty (p_name product) in
  let imageUrl := getProductImageUrl (Some product) isAuthor isLegacy in
  let displayName := display_name name in
  mkProductData
    (Js.or_empty (Js.opt_or (p_id product) (p_sku product)))
    (Js.or_empty (p_sku product))
    (if Js.truthy displayName then displayName else name)
    (match p_price product with
     | Some price => num_or price (num_of_Z 0)
     | None => num_of_Z 0
     end)
    (formatCategoryDisplay (p_category product))
    (description_text (p_description product))
    (Js.or_empty imageUrl)
    (Js.or_empty imageUrl).

(** The tree returned by [buildProductDetail]. *)
Definition detail_view (product : Product num) (isAuthor isLegacy : bool)
    : DetailView :=
  let name := Js.or_empty (p_name product) in
  let imageUrl := getProductImageUrl (Some product) isAuthor isLegacy in
  let displayName := display_name name in
  let formattedCategory := formatCategoryDisplay (p_category product) in
  let descriptionText := description_text (p_description product) in
  mkDetailView
    (match imageUrl with
     | Some imageUrl =>
         if Js.truthy imageUrl then
           Some (if Js.startsWith "http" imageUrl
                 then DirectImg imageUrl (alt_text name) "eager"
                 else OptimizedPicture imageUrl (alt_text name) true
                        [("(min-width: 900px)", "800");
                         ("(min-width: 600px)", "600");
                         ("", "400")])
         else None
     | None => None
     end)
    (if Js.truthy formattedCategory then Some formattedCategory else None)
    (if Js.truthy displayName then displayName else name)
    (match p_price product with
     | Some price => if num_truthy price then Some price else None
     | None => None
     end)
    (if Js.truthy descriptionText then
       Some (match p_description product with
             | Some d =>
                 if Js.opt_truthy (html d) then InnerHTML (Js.or_empty (html d))
                 else if Js.opt_truthy (markdown d)
                      then TextContent (Js.or_empty (markdown d))
                      else TextContent
                             (if Js.opt_truthy (plaintext d)
                              then Js.or_empty (plaintext d) else descriptionText)
             | None => TextContent descriptionText
             end)
     else None).

(** [buildProductDetail(product, isAuthor, isLegacy)]: the data-layer write
    comes first, then the tree is built. *)
Definition buildProductDetail (product : Product num) (isAuthor isLegacy : bool)
    (w : World) : DetailView * World :=
  let productData := productData_of product isAuthor isLegacy in
  let w :=
    if updateDataLayer_is_function w
    then updateDataLayer_product productData w
    else emit (ConsoleWarn "window.updateDataLayer not available, product data not sent") w in
  (detail_view product isAuthor isLegacy, w).

(** [a === b] on two ids.  A missing id is [None] whether it is [null] or
    [undefined]; JavaScript tells the two apart, which matters only when
    neither product has a sku or an id, and the fetchers never return such
    a record. *)
Definition opt_string_eqb (a b : option string) : bool :=
  match a, b with
  | Some x, Some y => String.eqb x y
  | None, None => true
  | _, _ => false
  end.

Definition normalizeCat (cat : string) : string :=
  Js.strip_namespace (Js.toLowerCase cat).

(** The callback given to [allProducts.filter]. *)
Definition is_recommended (currentProduct product : Product num) : bool :=
  let currentNorm :=
    Js.filter_Boolean
      (map normalizeCat
           (match p_category currentProduct with Some cs => cs | None => [] end)) in
  if opt_string_eqb (Js.opt_or (p_sku product) (p_id product))
                    (Js.opt_or (p_sku currentProduct) (p_id currentProduct))
  then false
  else
    let productCategories :=
      Js.filter_Boolean
        (map normalizeCat
             (match p_category product with Some cs => cs | None => [] end)) in
    existsb (fun c => existsb (String.eqb c) productCategories) currentNorm.

(** [buildRecommendations(currentProduct, allProducts, isAuthor, isLegacy)] *)
Definition buildRecommendations (currentProduct : Product num)
    (allProducts : list (Product num)) (isAuthor isLegacy : bool)
    : option RecSection :=
  match p_category currentProduct with
  | None | Some [] => None
  | Some _ =>
      let recs := firstn 5 (filter (is_recommended currentProduct) allProducts) in
      if (List.length recs =? 0)%nat then None
      else Some (mkRecSection "pd-recommendations" "YOU MAY ALSO LIKE"
                   (map (fun product => buildRecommendationCard product isAuthor isLegacy)
                        recs))
  end.

(** [decorate(block)], from the point where [folderHref] has been read from
    the block and normalised; [sku] is the [productId] query parameter.  The
    two requests of [Promise.all] each get their own answer from the
    network: [fetchDetail] for the product lookup, [fetchList] for the
    folder listing. *)
Definition decorate (folderHref : string) (sku : option string)
    (fetchDetail fetchList : string -> FetchOutcome num) (w : World) : World :=
  let isAuthor := isAuthorEnvironment w in
  let isLegacyLuma3 := Js.truthy folderHref && Js.includes "/dam/luma3/" folderHref in
  if negb (Js.truthy folderHref) then
    set_block [ErrorMsg "Please configure the product folder path in the properties panel."] w
  else if negb (Js.opt_truthy sku) then
    set_block [ErrorMsg "Product not found. Missing product ID in URL."] w
  else
    let sku := Js.or_empty sku in
    let product :=
      fetchProductDetail fetchDetail folderHref sku isAuthor isLegacyLuma3 in
    let allProducts :=
      fetchAllProducts fetchList folderHref isAuthor isLegacyLuma3 in
    match product with
    | None => set_block [ErrorMsg "Product not found or failed to load."] w
    | Some product =>
        let '(productDetail, w) :=
          buildProductDetail product isAuthor isLegacyLuma3 w in
        let children := [Detail productDetail] in
        match buildRecommendations product allProducts isAuthor isLegacyLuma3 with
        | Some recommendations =>
            set_block (children ++ [Recommendations recommendations]) w
        | None => set_block children w
        end
    end.

(** The object handed to [window.addToCart] by the "Add to Cart" button. *)
Record CartPayload : Type := mkCartPayload {
  cp_id          : string;
  cp_name        : string;
  cp_image       : string;
  cp_thumbnail   : string;
  cp_category    : string;
  cp_description : string;
  cp_price       : num;
  cp_quantity    : num
}.

(** The argument of [window.addToCart] in the click handler of
    [buildProductDetail]. *)
Definition addToCart_payload (product : Product num) (isAuthor isLegacy : bool)
    : CartPayload :=
  let name := Js.or_empty (p_name product) in
  let imageUrl := getProductImageUrl (Some product) isAuthor isLegacy in
  let displayName := display_name name in
  mkCartPayload
    (Js.or_empty (Js.opt_or (p_id product) (p_sku product)))
    (if Js.truthy displayName then displayName else name)
    (Js.or_empty imageUrl)
    (Js.or_empty imageUrl)
    (formatCategoryDisplay (p_category product))
    (description_text (p_description product))
    (match p_price product with
     | Some price => num_or price (num_of_Z 0)
     | None => num_of_Z 0
     end)
    (num_of_Z 1).

End WithNumbers.

Arguments ProductData num : clear implicits.
Arguments CartPayload num : clear implicits.
Arguments DetailView num : clear implicits.
Arguments Node num : clear implicits.
Arguments Event num : clear implicits.
Arguments World num : clear implicits.

End ProductDetail.

(** * Specification-level notions *)

Section CartSpec.
Context {num : Type} {N : JsNumber num}.

(** [a == b] on numbers. *)
Definition js_equal (a b : num) : Prop := num_eqb a b = true.

(** A number that is not NaN: NaN is the one number that is not [==] to
    itself. *)
Definition is_number (a : num) : Prop := num_eqb a a = true.

(** The line-item invariant of the data model:
    [subTotal == quantity * price]. *)
Definition line_item_ok (p : Cart.LineItem num) : Prop :=
  js_equal (Cart.li_subTotal p)
           (num_mul (Cart.li_quantity p) (Cart.li_price p)).

(** The sum of [f] over the line items: the reduction from 0, in the order
    of the items. *)
Definition reduce_sum (f : Cart.LineItem num -> num)
    (items : list (Cart.LineItem num)) : num :=
  fold_left (fun sum p => num_add sum (f p)) items (num_of_Z 0).

(** The cart-level aggregates are the values of the reductions over the
    current line items (recomputed, not patched). *)
Definition aggregates_exact (c : Cart.CartData num) : Prop :=
  let items := obj_values (Cart.products c) in
  Cart.productCount c = reduce_sum Cart.li_quantity items /\
  Cart.subTotal c = reduce_sum Cart.li_subTotal items /\
  Cart.total c = Cart.subTotal c.

(** The cart-level aggregates are [==] to the reductions over the current
    line items. *)
Definition aggregates_equal (c : Cart.CartData num) : Prop :=
  let items := obj_values (Cart.products c) in
  js_equal (Cart.productCount c) (reduce_sum Cart.li_quantity items) /\
  js_equal (Cart.subTotal c) (reduce_sum Cart.li_subTotal items) /\
  js_equal (Cart.total c) (Cart.subTotal c).

(** The cart invariant: every line item is consistent and the aggregates
    are [==] to the reductions. *)
Definition cart_invariant (c : Cart.CartData num) : Prop :=
  Forall line_item_ok (obj_values (Cart.products c)) /\
  aggregates_equal c.

(** A session on the cart page: the user actions, in order.  [Remove] is a
    click on a row's remove button, [SetQuantity] a change of a row's
    quantity input. *)
Inductive Action : Type :=
| Remove (productId : string)
| SetQuantity (productId : string) (newQuantity : Cart.QuantityArg).

Definition act (a : Action) (w : Cart.World num) : Cart.Completion num :=
  match a with
  | Remove productId => Cart.Normal (Cart.removeFromCart productId w)
  | SetQuantity productId newQuantity =>
      Cart.updateQuantity productId newQuantity w
  end.

(** The handlers run one after the other; an uncaught exception ends the
    session. *)
Fixpoint session (actions : list Action) (w : Cart.World num)
    : Cart.Completion num :=
  match actions with
  | [] => Cart.Normal w
  | a :: actions' =>
      match act a w with
      | Cart.Normal w' => session actions' w'
      | Cart.Throw error w' => Cart.Throw error w'
      end
  end.

End CartSpec.

(** ** Sample data *)

Module Sample.

Definition itemA : Cart.LineItem exact :=
  Cart.mkLineItem "A" "Zoltar Tee, red" "https://cdn.example/a.png" "Shoes"
                  (XInt 2) (XInt 10) (XInt 20) (XInt 20).

Definition itemB : Cart.LineItem exact :=
  Cart.mkLineItem "B" "Cap" "" "Hats" (XInt 1) (XInt 5) (XInt 5) (XInt 5).

(** The cart [{A: qty 2 price 10, B: qty 1 price 5}]. *)
Definition cart : Cart.CartData exact :=
  Cart.mkCart (XInt 3) [("A", itemA); ("B", itemB)] (XInt 25) (XInt 25).

(** A cart block as [decorate] leaves it, before the first rendering. *)
Definition block : Cart.CartBlock exact :=
  Cart.mkBlock (Some []) (Some "") (Some false) (Some false)
               (Some (Cart.Price (XInt 25))) (Some (Cart.Price (XInt 25)))
               None (Some []).

(** A CSS engine that refuses every selector left to it. *)
Definition refusing (selector : string) (b : Cart.CartBlock exact)
    : Cart.SelectorOutcome :=
  Cart.SelectorRefused.

Definition world : Cart.World exact :=
  Cart.mkWorld (Some cart) true false Cart.standard_prototype refusing
               block [].

(** A product of the current schema, with an external image. *)
Definition tee : Product exact :=
  mkProduct (Some "id-1") (Some "SKU-1") (Some "Zoltar Tee, red") (Some (XInt 20))
            (Some ["demo123:Running Shoes"])
            (Some (mkDescription None None (Some "A tee.")))
            None (Some (ExtString "https://cdn.example/tee.png")) None.

(** A product without any image. *)
Definition plain : Product exact :=
  mkProduct (Some "id-2") None (Some ",Blue") None (Some ["demo123:Hats"])
            None None None None.

(** A product whose category carries no namespace. *)
Definition runner : Product exact :=
  mkProduct (Some "id-3") (Some "SKU-3") (Some "Runner") (Some (XInt 50))
            (Some ["Running Shoes"]) None None None None.

(** A record with neither sku nor id. *)
Definition anonymous : Product exact :=
  mkProduct None None (Some "Nameless") None None None None None None.

Definition listing : Envelope exact :=
  mkEnvelope (Some [Some tee; None; Some anonymous; Some plain]) None.

Definition detail_world : ProductDetail.World exact :=
  ProductDetail.mkWorld None true false [] [].

End Sample.

(** ** Category normalization, as worded and as amended *)

(** No character of [s] is a colon. *)
Fixpoint colon_free (s : string) : bool :=
  match s with
  | EmptyString => true
  | String c s' => negb (Ascii.eqb c ":") && colon_free s'
  end.

(** The normalization in the words of the specification: everything up to
    and including the first colon is stripped and the remainder is
    lower-cased. *)
Definition normalize_as_specified (cat : string) : string :=
  Js.toLowerCase
    (match String.index 0 ":" cat with
     | Some n => String.substring (S n) (String.length cat - S n) cat
     | None => cat
     end).

(** ** Image resolution and fetch outcomes, as worded *)

(** The author- or publish-specific sub-field of an image reference. *)
Definition env_url (isAuthor : bool) (ref : ImageRef) : option string :=
  if isAuthor then _authorUrl ref else _publishUrl ref.

(** The external-image URL: the string itself, or the [plaintext] of its
    wrapper. *)
Definition external_url (e : ExternalImage) : option string :=
  match e with
  | ExtString url => Some url
  | ExtObject plaintext => plaintext
  end.

(** Image resolution in the words of the specification. *)
Definition image_url_as_specified {num} (item : Product num)
    (isAuthor isLegacy : bool) : option string :=
  if isLegacy then
    match p_image item with
    | Some image => env_url isAuthor image
    | None => None
    end
  else
    let external :=
      match p_externalImageURL item with
      | Some e => external_url e
      | None => None
      end in
    if Js.opt_truthy external then external
    else match p_damImageURL item with
         | Some dam => env_url isAuthor dam
         | None => None
         end.

(** A fetch outcome that is a network or a parse failure. *)
Definition is_failure {num} (o : FetchOutcome num) : bool :=
  match o with
  | NetworkFailure | ParseFailure => true
  | Json _ => false
  end.

(** A record that has a sku or an id. *)
Definition identified {num} (item : Product num) : bool :=
  Js.opt_truthy (p_sku item) || Js.opt_truthy (p_id item).

(** The records of a listing, [null] entries left out. *)
Definition records {num} (items : list (option (Product num)))
    : list (Product num) :=
  flat_map (fun item => match item with Some p => [p] | None => [] end) items.

(** The [items] of an envelope that the listing fetchers read. *)
Definition listed_items {num} (json : Envelope num)
    : list (option (Product num)) :=
  match productsContentFragmentModelList_items json with
  | Some items => items
  | None =>
      match productsModelList_items json with
      | Some items => items
      | None => []
      end
  end.

(** The name written to the data layer in the words of the specification:
    the text before the first comma. *)
Definition text_before_first_comma (name : string) : string :=
  hd "" (Js.split "," name).

(** ** Recommendations, as worded *)

(** [first_matches P n l r]: [r] lists, in the order of [l], the first [n]
    elements of [l] that satisfy [P] - all of them when there are fewer. *)
Inductive first_matches {A : Type} (P : A -> Prop)
    : nat -> list A -> list A -> Prop :=
| fm_done : forall l, first_matches P 0 l []
| fm_end : forall n, first_matches P n [] []
| fm_take : forall n x l r,
    P x -> first_matches P n l r -> first_matches P (S n) (x :: l) (x :: r)
| fm_skip : forall n x l r,
    ~ P x -> first_matches P n l r -> first_matches P n (x :: l) r.

(** The sku of a product, or else its id, as a string. *)
Definition sku_or_id {num} (product : Product num) : string :=
  Js.or_empty (Js.opt_or (p_sku product) (p_id product)).

(** The non-empty normalized categories of a product, as the builders
    compute them. *)
Definition normalized_categories {num} (product : Product num) : list string :=
  Js.filter_Boolean
    (map Cart.normalizeProductCat
         (match p_category product with Some cs => cs | None => [] end)).

(** The normalized form of a category: the category in lower case, without
    everything up to and including its first colon when at least one
    character precedes that colon. *)
Definition normalize_as_amended (cat : string) : string :=
  let lower := Js.toLowerCase cat in
  match String.index 0 ":" lower with
  | Some (S n) =>
      String.substring (S (S n)) (String.length lower - S (S n)) lower
  | _ => lower
  end.

(** [c] is a normalized category of [product], and not the empty one. *)
Definition has_category {num} (product : Product num) (c : string) : Prop :=
  exists cat,
    In cat (match p_category product with Some cs => cs | None => [] end) /\
    c = normalize_as_amended cat /\ c <> "".

(** The delimiters of the category string of a line item. *)
Definition separator (c : ascii) : bool :=
  Ascii.eqb c "/" || Ascii.eqb c ",".

Fixpoint separator_free (s : string) : bool :=
  match s with
  | EmptyString => true
  | String c s' => negb (separator c) && separator_free s'
  end.

Fixpoint ends_with_separator (s : string) : bool :=
  match s with
  | EmptyString => false
  | String c s' =>
      match s' with
      | EmptyString => separator c
      | _ => ends_with_separator s'
      end
  end.

Definition starts_with_separator (s : string) : bool :=
  match s with
  | EmptyString => false
  | String c _ => separator c
  end.

(** [part] is one of the parts of the delimited string [s]: a stretch of
    [s] without delimiter that reaches, on either side, the end of [s] or a
    delimiter. *)
Definition delimited_part (s part : string) : Prop :=
  exists pre post,
    s = (pre ++ part ++ post)%string /\
    separator_free part = true /\
    (pre = "" \/ ends_with_separator pre = true) /\
    (post = "" \/ starts_with_separator post = true).

(** The target set of the cart: [c] is a part of the category string of
    some line item, trimmed and in lower case, and not empty. *)
Definition cart_category {num} (cartData : Cart.CartData num) (c : string)
    : Prop :=
  exists item part,
    In item (obj_values (Cart.products cartData)) /\
    delimited_part (Cart.li_category item) part /\
    c = Js.toLowerCase (Js.trim part) /\ c <> "".

(** A candidate for the cart: not in the cart, and with a normalized
    category in the target set of the cart. *)
Definition cart_candidate {num} (cartData : Cart.CartData num)
    (product : Product num) : Prop :=
  ~ In (sku_or_id product) (obj_keys (Cart.products cartData)) /\
  exists c, has_category product c /\ cart_category cartData c.

(** A candidate for the detail page: not the current product, and sharing a
    normalized category with it. *)
Definition detail_candidate {num} (current product : Product num) : Prop :=
  Js.opt_or (p_sku product) (p_id product)
    <> Js.opt_or (p_sku current) (p_id current) /\
  exists c, has_category product c /\ has_category current c.

(** The section a builder returns for the products [recs]: none at all when
    [recs] is empty. *)
Definition section_for (class : string) (card : list Card) : option RecSection :=
  match card with
  | [] => None
  | _ => Some (mkRecSection class "YOU MAY ALSO LIKE" card)
  end.

(** The recommendation sections currently in the cart block. *)
Definition cart_sections {num} (w : Cart.World num) : list RecSection :=
  match Cart.cart_recommendations (Cart.block w) with
  | Some sections => sections
  | None => []
  end.

(** ** Observations on completions and traces *)

(** NaN is absorbing for addition and multiplication, as it is for IEEE
    doubles. *)
Class NanAbsorbing (num : Type) {N : JsNumber num} : Prop := {
  num_add_nan_l : forall b : num, num_add num_nan b = num_nan;
  num_add_nan_r : forall a : num, num_add a num_nan = num_nan;
  num_mul_nan_l : forall b : num, num_mul num_nan b = num_nan
}.

#[export] Instance ExactNanAbsorbing : NanAbsorbing exact.
Proof.
  split; [reflexivity | intros []; reflexivity | reflexivity].
Qed.

(** The value of a decimal numeral read from the left, starting from
    [acc]. *)
Fixpoint decimal_value (d : Decimal.uint) (acc : Z) : Z :=
  match d with
  | Decimal.Nil => acc
  | Decimal.D0 d => decimal_value d (10 * acc)
  | Decimal.D1 d => decimal_value d (10 * acc + 1)
  | Decimal.D2 d => decimal_value d (10 * acc + 2)
  | Decimal.D3 d => decimal_value d (10 * acc + 3)
  | Decimal.D4 d => decimal_value d (10 * acc + 4)
  | Decimal.D5 d => decimal_value d (10 * acc + 5)
  | Decimal.D6 d => decimal_value d (10 * acc + 6)
  | Decimal.D7 d => decimal_value d (10 * acc + 7)
  | Decimal.D8 d => decimal_value d (10 * acc + 8)
  | Decimal.D9 d => decimal_value d (10 * acc + 9)
  end%Z.

(** No character of [s] is a slash. *)
Fixpoint slash_free (s : string) : bool :=
  match s with
  | EmptyString => true
  | String c s' => negb (Ascii.eqb c "/") && slash_free s'
  end.

(** No character of [s] is a comma. *)
Fixpoint comma_free (s : string) : bool :=
  match s with
  | EmptyString => true
  | String c s' => negb (Ascii.eqb c ",") && comma_free s'
  end.

(** A category value that passes unchanged through the display format of
    the detail page and the splitting done by the cart: not empty, trimmed,
    and without [":"], ["/"] or [","]. *)
Definition plain_value (v : string) : Prop :=
  v <> "" /\ Js.trim v = v /\
  colon_free v = true /\ slash_free v = true /\ comma_free v = true.

(** [cat] is [ns:v] for a non-empty namespace [ns] without colon. *)
Definition namespaced (cat v : string) : Prop :=
  exists ns, ns <> "" /\ colon_free ns = true /\
             cat = (ns ++ String ":" v)%string.

(** What one line item contributes to [cartCategories]. *)
Definition category_parts (category : string) : list string :=
  Js.filter_Boolean
    (map (fun c => Js.toLowerCase (Js.trim c))
         (Js.split_runs Cart.is_slash_or_comma category)).

(** The [src] of a picture. *)
Definition picture_src (picture : Picture) : string :=
  match picture with
  | DirectImg src _ _ => src
  | OptimizedPicture src _ _ _ => src
  end.

(** The text or markup put into the description element. *)
Definition description_content (el : ProductDetail.DescriptionEl) : string :=
  match el with
  | ProductDetail.InnerHTML s => s
  | ProductDetail.TextContent s => s
  end.

Section CartObservations.
Context {num : Type} {N : JsNumber num}.

(** The world a handler leaves behind, however it finished. *)
Definition completion_world (c : Cart.Completion num) : Cart.World num :=
  match c with
  | Cart.Normal w => w
  | Cart.Throw _ w => w
  end.

(** The store writes among some events: the cart written and the merge
    flag. *)
Fixpoint store_writes (events : list (Cart.Event num))
    : list (Cart.CartData num * bool) :=
  match events with
  | [] => []
  | Cart.UpdateDataLayer c merge :: events' => (c, merge) :: store_writes events'
  | _ :: events' => store_writes events'
  end.

(** The item rows among the children of [.cart-items], in order. *)
Definition item_rows (children : list (Cart.ItemsChild num))
    : list (Cart.CartItemRow num) :=
  flat_map (fun child => match child with
                         | Cart.ItemRow r => [r]
                         | _ => []
                         end) children.

(** How many empty-state panels, and how many header rows, there are. *)
Definition empty_states (children : list (Cart.ItemsChild num)) : nat :=
  List.length (filter (fun child => match child with
                                    | Cart.EmptyState => true
                                    | _ => false
                                    end) children).

Definition header_rows (children : list (Cart.ItemsChild num)) : nat :=
  List.length (filter (fun child => match child with
                                    | Cart.HeaderRow => true
                                    | _ => false
                                    end) children).

(** The block with the text of every row's price cell blanked: what is
    left to compare when only price cells may differ. *)
Definition blank_price (child : Cart.ItemsChild num) : Cart.ItemsChild num :=
  match child with
  | Cart.ItemRow r =>
      Cart.ItemRow (Cart.mkRow (Cart.row_product_id r) (Cart.row_image r)
                      (Cart.row_name r) (Cart.row_qty r)
                      (Cart.Count (num_of_Z 0)))
  | other => other
  end.

Definition without_row_prices (b : Cart.CartBlock num) : Cart.CartBlock num :=
  Cart.mkBlock (option_map (map blank_price) (Cart.cart_items b))
    (Cart.cart_summary_display b) (Cart.cart_main_empty_state b)
    (Cart.cart_content_is_empty b) (Cart.cart_subtotal_value b)
    (Cart.cart_total_value b) (Cart.cart_product_count b)
    (Cart.cart_recommendations b).

(** The children of [.cart-items] ([[]] when the container is missing). *)
Definition shown_children (w : Cart.World num) : list (Cart.ItemsChild num) :=
  match Cart.cart_items (Cart.block w) with
  | Some children => children
  | None => []
  end.

(** [w'] has the trace of [w] followed by [events]. *)
Definition trace_extends (w w' : Cart.World num) (events : list (Cart.Event num))
    : Prop :=
  Cart.trace w' = Cart.trace w ++ events.

End CartObservations.

(** ** The click handler of a recommendation card

    The handler is the same in both blocks.  It reads
    [window.location.pathname] and assigns [window.location.href]. *)

(** The alternatives of [langPattern], in their order. *)
Definition langCodes : list string :=
  ["en"; "fr"; "de"; "es"; "it"; "ja"; "zh"; "pt"; "nl"; "sv"; "da"; "no";
   "fi"].

(** [/\/(en|fr|...|fi)$/.test(s)] *)
Definition langPattern_test (s : string) : bool :=
  existsb (fun code => Js.endsWith (String "/" code) s) langCodes.

(** Group 1 of [s.match(/\/(en|fr|...|fi)\//)]: the leftmost match, and at
    one position the first alternative that matches. *)
Fixpoint pathMatch (s : string) : option string :=
  match find (fun code => String.prefix (String "/" (code ++ "/")) s)
             langCodes with
  | Some code => Some code
  | None =>
      match s with
      | EmptyString => None
      | String _ s' => pathMatch s'
      end
  end.

(** The characters [encodeURIComponent] leaves alone. *)
Definition is_unreserved (c : ascii) : bool :=
  Js.is_upper c || Js.is_lower c || Js.is_digit c ||
  existsb (Ascii.eqb c) ["-"; "_"; "."; "!"; "~"; "*"; "'"; "("; ")"]%char.

Definition hex_digit (n : nat) : ascii :=
  match String.get n "0123456789ABCDEF" with
  | Some c => c
  | None => "0"%char
  end.

(** [%XX] for the byte [n]. *)
Definition percent_byte (n : nat) : string :=
  String "%" (String (hex_digit (n / 16)) (String (hex_digit (n mod 16)) "")).

(** [encodeURIComponent(s)] for code units below 256: the UTF-8 bytes of
    every other character are percent-encoded. *)
Fixpoint encodeURIComponent (s : string) : string :=
  match s with
  | EmptyString => EmptyString
  | String c s' =>
      let n := nat_of_ascii c in
      ((if is_unreserved c then String c ""
        else if (n <? 128)%nat then percent_byte n
        else percent_byte (192 + n / 64) ++ percent_byte (128 + n mod 64))
       ++ encodeURIComponent s')%string
  end.

(** [basePath] at the end of the handler, on the page at [currentPath]. *)
Definition card_basePath (currentPath : string) : string :=
  let basePath :=
    Js.substring_to (Js.lastIndexOf "/" currentPath) currentPath in
  if negb (langPattern_test basePath) && negb (Js.includes "/en/" basePath)
  then
    match pathMatch currentPath with
    | Some langCode =>
        let langIndex :=
          String.index 0 (String "/" (langCode ++ "/")) currentPath in
        String.substring 0
          (match langIndex with
           | Some i => i + String.length langCode + 1
           | None => String.length langCode
           end)
          currentPath
    | None => (basePath ++ "/en")%string
    end
  else basePath.

(** The address of the product page below [basePath]. *)
Definition product_href (basePath : string) (isAuthor : bool)
    (productId : string) : string :=
  let productPath :=
    (if isAuthor then basePath ++ "/product.html"
     else basePath ++ "/product")%string in
  (productPath ++ "?productId=" ++ encodeURIComponent productId)%string.

(** The value assigned to [window.location.href] by a click on the card of
    [productId], on the page at [currentPath]. *)
Definition card_click_href (currentPath : string) (isAuthor : bool)
    (productId : string) : string :=
  product_href (card_basePath currentPath) isAuthor productId.

(** * Properties *)

(** ** Strings *)

Lemma append_empty_r (s : string) : (s ++ "")%string = s.
Proof. induction s as [|c s IH]; simpl; now rewrite ?IH. Qed.

Lemma append_assoc (a b c : string) :
  ((a ++ b) ++ c)%string = (a ++ (b ++ c))%string.
Proof. induction a as [|x a IH]; simpl; [reflexivity|now rewrite IH]. Qed.

Lemma rev_string_rev a acc acc' :
  Js.rev_string (Js.rev_string a acc) acc' = Js.rev_string acc (a ++ acc').
Proof.
  revert acc acc'. induction a as [|c a IH]; intros acc acc'; simpl;
    [reflexivity|]. now rewrite IH.
Qed.

Lemma rev_string_acc s acc :
  Js.rev_string s acc = (Js.rev_string s "" ++ acc)%string.
Proof.
  revert acc. induction s as [|c s IH]; intros acc; simpl; [reflexivity|].
  rewrite (IH (String c acc)), (IH (String c "")), append_assoc.
  reflexivity.
Qed.

Lemma prefix_nil s : String.prefix "" s = true.
Proof. now destruct s. Qed.

Lemma prefix_cons a r x s :
  String.prefix (String a r) (String x s)
  = if Ascii.eqb a x then String.prefix r s else false.
Proof.
  change (String.prefix (String a r) (String x s))
    with (if ascii_dec a x then String.prefix r s else false).
  destruct (ascii_dec a x) as [->|Hne].
  - now rewrite Ascii.eqb_refl.
  - apply Ascii.eqb_neq in Hne. now rewrite Hne.
Qed.

Lemma prefix_app a b : String.prefix a (a ++ b) = true.
Proof.
  induction a as [|c a IH]; simpl; [now destruct b|].
  destruct (ascii_dec c c); [exact IH|congruence].
Qed.

(** ** Printing and parsing integers *)

Lemma digits_from_numeral d acc seen :
  Js.digits_from (NilEmpty.string_of_uint d) acc seen
  = (decimal_value d acc,
     match d with Decimal.Nil => seen | _ => true end).
Proof.
  revert acc seen.
  induction d; intros acc seen; simpl; try reflexivity;
    rewrite IHd; rewrite ?Z.add_0_r; destruct d; reflexivity.
Qed.

Lemma decimal_value_acc d acc :
  Z.pos (Pos.of_uint_acc d acc) = decimal_value d (Z.pos acc).
Proof.
  revert acc.
  induction d; intros acc; cbn [Pos.of_uint_acc decimal_value];
    try reflexivity; rewrite IHd; f_equal; lia.
Qed.

Lemma decimal_value_of_uint d : Z.of_uint d = decimal_value d 0.
Proof.
  unfold Z.of_uint.
  induction d; cbn [Pos.of_uint decimal_value Z.of_N]; try reflexivity;
    try exact IHd; apply decimal_value_acc.
Qed.

Lemma numeral_first_char p :
  exists c rest,
    NilZero.string_of_uint (Pos.to_uint p) = String c rest /\
    NilEmpty.string_of_uint (Pos.to_uint p) = String c rest /\
    Js.is_digit c = true.
Proof.
  pose proof (DecimalPos.Unsigned.to_uint_nonnil p) as Hnil.
  unfold NilZero.string_of_uint.
  destruct (Pos.to_uint p); [congruence| | | | | | | | | |];
    simpl; eexists; eexists; repeat split.
Qed.

Lemma parseInt10_digits c rest :
  Js.is_digit c = true ->
  Js.parseInt10 (String c rest)
  = match Js.digits_from (String c rest) 0 false with
    | (z, true) => Some z
    | (_, false) => None
    end.
Proof.
  intros Hc.
  assert (Hsp : Js.is_space c = false).
  { destruct c as [[] [] [] [] [] [] [] []]; vm_compute in Hc |- *;
      congruence. }
  assert (Hm : Ascii.eqb c "-" = false /\ Ascii.eqb c "+" = false).
  { destruct c as [[] [] [] [] [] [] [] []]; vm_compute in Hc |- *;
      split; congruence. }
  unfold Js.parseInt10. cbn [Js.trimStart]. rewrite Hsp.
  destruct Hm as [Hminus Hplus].
  destruct c as [[] [] [] [] [] [] [] []];
    try discriminate Hminus; try discriminate Hplus;
    destruct (Js.digits_from _ 0 false) as [z []];
    rewrite ?Z.mul_1_l; reflexivity.
Qed.

(** Printing an integer and parsing it back gives the integer. *)
Lemma parseInt10_string_of_Z z : Js.parseInt10 (Js.string_of_Z z) = Some z.
Proof.
  unfold Js.string_of_Z, integer_to_string.
  destruct z as [|p|p]; [reflexivity| |].
  - simpl. destruct (numeral_first_char p) as (c & rest & H0 & He & Hc).
    rewrite H0, (parseInt10_digits _ _ Hc), <- He, digits_from_numeral.
    rewrite <- decimal_value_of_uint.
    pose proof (DecimalPos.Unsigned.to_uint_nonnil p) as Hnil.
    pose proof (DecimalZ.of_to (Z.pos p)) as Hz. simpl in Hz.
    destruct (Pos.to_uint p); [congruence| | | | | | | | | |]; now rewrite Hz.
  - simpl. destruct (numeral_first_char p) as (c & rest & H0 & He & Hc).
    rewrite H0. unfold Js.parseInt10. cbn [Js.trimStart].
    change (Js.is_space "-") with false. cbv iota.
    rewrite <- He, digits_from_numeral, <- decimal_value_of_uint.
    pose proof (DecimalPos.Unsigned.to_uint_nonnil p) as Hnil.
    pose proof (DecimalZ.of_to (Z.neg p)) as Hz. simpl in Hz.
    destruct (Pos.to_uint p); [congruence| | | | | | | | | |];
      f_equal; lia.
Qed.

(** ** The cart handlers *)

Section CartProperties.
Context {num : Type} {N : JsNumber num}.

Lemma Forall_values_delete (P : Cart.LineItem num -> Prop) ps k :
  Forall P (obj_values ps) -> Forall P (obj_values (obj_delete ps k)).
Proof.
  unfold obj_values, obj_delete.
  induction ps as [|[k' v] ps IH]; simpl; intros H; [constructor|].
  inversion H; subst.
  destruct (String.eqb k' k); simpl; auto.
Qed.

Lemma Forall_values_update (P : Cart.LineItem num -> Prop) ps k f p :
  obj_get ps k = Some p -> P (f p) ->
  Forall P (obj_values ps) -> Forall P (obj_values (obj_update ps k f)).
Proof.
  unfold obj_values.
  induction ps as [|[k' v] ps IH]; simpl; intros Hget Hf H; [constructor|].
  inversion H; subst.
  destruct (String.eqb k' k); simpl; constructor; auto.
  congruence.
Qed.

Lemma obj_keys_update {A} (ps : list (string * A)) k f :
  obj_keys (obj_update ps k f) = obj_keys ps.
Proof.
  unfold obj_keys.
  induction ps as [|[k' v] ps IH]; simpl; [reflexivity|].
  destruct (String.eqb k' k); simpl; congruence.
Qed.

Lemma obj_get_update_same {A} (ps : list (string * A)) k f v :
  obj_get ps k = Some v -> obj_get (obj_update ps k f) k = Some (f v).
Proof.
  induction ps as [|[k' v'] ps IH]; simpl; [discriminate|].
  destruct (String.eqb k' k) eqn:E; simpl; rewrite E; [congruence|auto].
Qed.

Lemma obj_get_delete_same {A} (ps : list (string * A)) k :
  obj_get (obj_delete ps k) k = None.
Proof.
  unfold obj_delete.
  induction ps as [|[k' v'] ps IH]; simpl; [reflexivity|].
  destruct (String.eqb k' k) eqn:E; simpl; [|rewrite E]; auto.
Qed.

(** [delete] of a name that is not an own property changes nothing. *)
Lemma obj_delete_absent {A} (ps : list (string * A)) k :
  obj_get ps k = None -> obj_delete ps k = ps.
Proof.
  unfold obj_delete.
  induction ps as [|[k' v'] ps IH]; simpl; [reflexivity|].
  destruct (String.eqb k' k); simpl; [discriminate|].
  intros H. now rewrite IH.
Qed.

(** The "Recalculate totals" block makes the aggregates the values of the
    reductions, whatever the line items are. *)
Lemma recalculate_aggregates ps : aggregates_exact (Cart.recalculate ps).
Proof. unfold aggregates_exact, Cart.recalculate; simpl. auto. Qed.

(** Recomputed aggregates are [==] to the reductions as soon as they are
    numbers. *)
Lemma aggregates_exact_equal (c : Cart.CartData num) :
  aggregates_exact c ->
  is_number (Cart.productCount c) -> is_number (Cart.subTotal c) ->
  aggregates_equal c.
Proof.
  intros (Hcount & Hsub & Htotal) Hn1 Hn2.
  unfold aggregates_equal, js_equal. cbv zeta.
  rewrite <- Hcount, <- Hsub, Htotal. auto.
Qed.

Lemma set_quantity_ok quantity p :
  is_number (num_mul quantity (Cart.li_price p)) ->
  line_item_ok (Cart.set_quantity quantity p).
Proof. intros H. exact H. Qed.

Lemma lookup_product_own (w : Cart.World num) ps productId p :
  obj_get ps productId = Some p ->
  Cart.lookup_product w ps productId = Cart.Own p.
Proof. intros H. unfold Cart.lookup_product. now rewrite H. Qed.

Lemma lookup_product_missing (w : Cart.World num) ps productId :
  obj_get ps productId = None ->
  obj_get (Cart.object_prototype w) productId = None ->
  Cart.lookup_product w ps productId = Cart.Missing.
Proof. intros H1 H2. unfold Cart.lookup_product. now rewrite H1, H2. Qed.

Lemma lookup_product_inherited (w : Cart.World num) ps productId v :
  obj_get ps productId = None ->
  obj_get (Cart.object_prototype w) productId = Some v ->
  Cart.lookup_product w ps productId = Cart.Inherit v.
Proof. intros H1 H2. unfold Cart.lookup_product. now rewrite H1, H2. Qed.

Lemma dataLayer_cart_renderCartItems c (w : Cart.World num) :
  Cart.dataLayer_cart (Cart.renderCartItems c w) = Cart.dataLayer_cart w.
Proof.
  unfold Cart.renderCartItems; simpl.
  destruct (Cart.cart_items (Cart.block w)); reflexivity.
Qed.

Lemma read_cart_stored (w : Cart.World num) c :
  Cart.dataLayer_cart w = Some c -> Cart.read_cart w = c.
Proof.
  intros H. unfold Cart.read_cart, Cart.getDataLayerProperty_cart.
  now rewrite H.
Qed.

(** What [removeFromCart] leaves in the store when the guard passes. *)
Lemma removeFromCart_writes productId (w : Cart.World num) :
  Cart.updateDataLayer_defined w = true ->
  Cart.lookup_truthy
    (Cart.lookup_product w (Cart.products (Cart.read_cart w)) productId) = true ->
  Cart.dataLayer_cart (Cart.removeFromCart productId w) =
    Some (Cart.recalculate (obj_delete (Cart.products (Cart.read_cart w)) productId)).
Proof.
  intros Hdef Hguard. unfold Cart.removeFromCart.
  rewrite Hguard, Hdef.
  change (Cart.dataLayer_cart (Cart.updateCartTotals ?c ?x))
    with (Cart.dataLayer_cart x).
  rewrite dataLayer_cart_renderCartItems. reflexivity.
Qed.

(** What [removeFromCart] leaves in the store when it finds the product. *)
Lemma removeFromCart_store productId (w : Cart.World num) p :
  Cart.updateDataLayer_defined w = true ->
  obj_get (Cart.products (Cart.read_cart w)) productId = Some p ->
  Cart.dataLayer_cart (Cart.removeFromCart productId w) =
    Some (Cart.recalculate (obj_delete (Cart.products (Cart.read_cart w)) productId)).
Proof.
  intros Hdef Hget. apply removeFromCart_writes; [exact Hdef|].
  now rewrite (lookup_product_own _ _ _ _ Hget).
Qed.

(** A product id that is neither in the cart nor the name of a property of
    [Object.prototype] makes [removeFromCart] return at once. *)
Lemma removeFromCart_missing productId (w : Cart.World num) :
  obj_get (Cart.products (Cart.read_cart w)) productId = None ->
  obj_get (Cart.object_prototype w) productId = None ->
  Cart.removeFromCart productId w = w.
Proof.
  intros H1 H2. unfold Cart.removeFromCart.
  now rewrite (lookup_product_missing _ _ _ H1 H2).
Qed.

Lemma blank_set_row_price productId t (rows : list (Cart.ItemsChild num)) :
  map blank_price (Cart.set_row_price productId t rows) = map blank_price rows.
Proof.
  induction rows as [|[| |r] rows IH]; simpl;
    [reflexivity|now rewrite IH|now rewrite IH|].
  destruct (String.eqb (Cart.row_product_id r) productId); simpl;
    [reflexivity|now rewrite IH].
Qed.

Lemma blank_set_price_at position t (rows : list (Cart.ItemsChild num)) :
  map blank_price (Cart.set_price_at position t rows) = map blank_price rows.
Proof.
  revert position.
  induction rows as [|[| |r] rows IH]; intros [|position]; simpl;
    now rewrite ?IH.
Qed.

(** The last statements of [updateQuantity] touch nothing but the text of
    price cells of item rows. *)
Lemma patch_row_price_world productId t (w : Cart.World num) :
  exists b,
    completion_world (Cart.patch_row_price productId t w) = Cart.set_block b w /\
    without_row_prices b = without_row_prices (Cart.block w).
Proof.
  unfold Cart.patch_row_price.
  destruct (Cart.selector_safe productId).
  { eexists. split; [reflexivity|].
    unfold without_row_prices, Cart.update_row_price. cbn.
    destruct (Cart.cart_items (Cart.block w)); cbn;
      now rewrite ?blank_set_row_price. }
  destruct (Cart.css_engine w productId (Cart.block w)) as [| |position].
  - exists (Cart.block w). split; [destruct w; reflexivity|reflexivity].
  - exists (Cart.block w). split; [destruct w; reflexivity|reflexivity].
  - eexists. split; [reflexivity|].
    unfold without_row_prices, Cart.update_price_at. cbn.
    destruct (Cart.cart_items (Cart.block w)); cbn;
      now rewrite ?blank_set_price_at.
Qed.

Lemma patch_row_price_safe productId t (w : Cart.World num) :
  Cart.selector_safe productId = true ->
  Cart.patch_row_price productId t w
  = Cart.Normal (Cart.set_block
                   (Cart.update_row_price productId t (Cart.block w)) w).
Proof. intros H. unfold Cart.patch_row_price. now rewrite H. Qed.

(** [updateQuantity] from the recalculation on, where the data layer's
    update function is installed: the recomputed cart is written to the
    store and shown in the totals, whatever happens to the row afterwards. *)
Lemma store_and_patch_world productId ps subTotal' (w : Cart.World num) :
  Cart.updateDataLayer_defined w = true ->
  let w2 := Cart.updateCartTotals (Cart.recalculate ps)
              (Cart.updateDataLayer_replace_cart (Cart.recalculate ps) w) in
  exists b,
    completion_world (Cart.store_and_patch productId ps subTotal' w)
    = Cart.set_block b w2 /\
    without_row_prices b = without_row_prices (Cart.block w2).
Proof.
  intros Hdef. cbv zeta. unfold Cart.store_and_patch. rewrite Hdef.
  apply patch_row_price_world.
Qed.

Lemma store_and_patch_safe productId ps subTotal' (w : Cart.World num) :
  Cart.updateDataLayer_defined w = true ->
  Cart.selector_safe productId = true ->
  Cart.store_and_patch productId ps subTotal' w
  = Cart.Normal
      (Cart.set_block
         (Cart.update_row_price productId (Cart.formatPrice subTotal')
            (Cart.updateCartTotals_dom (Cart.block w) (Cart.recalculate ps)))
         (Cart.updateCartTotals (Cart.recalculate ps)
            (Cart.updateDataLayer_replace_cart (Cart.recalculate ps) w))).
Proof.
  intros Hdef Hsafe. unfold Cart.store_and_patch. rewrite Hdef.
  now rewrite (patch_row_price_safe _ _ _ Hsafe).
Qed.

(** The world [updateQuantity] ends in when it takes the update branch for
    a product of the cart: the store and the totals hold the recomputed
    cart, and the rest of the block is as before up to the text of price
    cells of item rows. *)
Lemma updateQuantity_world productId newQuantity (w : Cart.World num) p :
  num_lt (Cart.parseInt newQuantity) (num_of_Z 1) = false ->
  Cart.updateDataLayer_defined w = true ->
  obj_get (Cart.products (Cart.read_cart w)) productId = Some p ->
  let quantity := Cart.parseInt newQuantity in
  let c' := Cart.recalculate
              (obj_update (Cart.products (Cart.read_cart w)) productId
                          (Cart.set_quantity quantity)) in
  let w2 := Cart.updateCartTotals c' (Cart.updateDataLayer_replace_cart c' w) in
  (exists b,
      completion_world (Cart.updateQuantity productId newQuantity w)
      = Cart.set_block b w2 /\
      without_row_prices b = without_row_prices (Cart.block w2)) /\
  (Cart.selector_safe productId = true ->
   Cart.updateQuantity productId newQuantity w
   = Cart.Normal
       (Cart.set_block
          (Cart.update_row_price productId
             (Cart.formatPrice (Cart.li_subTotal (Cart.set_quantity quantity p)))
             (Cart.block w2)) w2)).
Proof.
  intros Hlt Hdef Hget. cbv zeta. unfold Cart.updateQuantity.
  rewrite Hlt, (lookup_product_own _ _ _ _ Hget).
  split; [now apply store_and_patch_world|].
  intros Hsafe. now rewrite (store_and_patch_safe _ _ _ _ Hdef Hsafe).
Qed.

(** What [updateQuantity] does when the parsed quantity is not below 1 and
    the product is in the cart.  The handler may end in the SyntaxError of
    [querySelector], after the store has been written. *)
Lemma updateQuantity_store productId newQuantity (w : Cart.World num) p :
  num_lt (Cart.parseInt newQuantity) (num_of_Z 1) = false ->
  Cart.updateDataLayer_defined w = true ->
  obj_get (Cart.products (Cart.read_cart w)) productId = Some p ->
  let c :=
    Cart.recalculate
      (obj_update (Cart.products (Cart.read_cart w)) productId
                  (Cart.set_quantity (Cart.parseInt newQuantity))) in
  let w' := completion_world (Cart.updateQuantity productId newQuantity w) in
  Cart.dataLayer_cart w' = Some c /\
  Cart.trace w' =
    Cart.trace w ++ [Cart.UpdateDataLayer c false; Cart.UpdateCartTotals c] /\
  Cart.updateDataLayer_defined w' = Cart.updateDataLayer_defined w /\
  Cart.object_prototype w' = Cart.object_prototype w /\
  (Cart.selector_safe productId = true ->
   Cart.updateQuantity productId newQuantity w = Cart.Normal w').
Proof.
  intros Hlt Hdef Hget c w'. subst c w'.
  destruct (updateQuantity_world _ _ _ _ Hlt Hdef Hget)
    as [(b & Hb & _) Hsafe].
  rewrite Hb.
  split; [reflexivity|]. split; [simpl; now rewrite <- app_assoc|].
  split; [reflexivity|]. split; [reflexivity|].
  intros H. rewrite <- Hb. rewrite (Hsafe H). reflexivity.
Qed.

Lemma parseInt_nan newQuantity :
  Js.parseInt10 (Cart.arg_to_string newQuantity) = None ->
  Cart.parseInt newQuantity = num_nan (num:=num).
Proof. intros H. unfold Cart.parseInt. rewrite H. reflexivity. Qed.

Lemma parseInt_int newQuantity z :
  Js.parseInt10 (Cart.arg_to_string newQuantity) = Some z ->
  Cart.parseInt newQuantity = num_of_Z (num:=num) z.
Proof. intros H. unfold Cart.parseInt. rewrite H. reflexivity. Qed.

(** A number that holds a safe integer is printed with all its digits and
    parsed back to that integer. *)
Lemma parseInt10_safe_integer z :
  safe_integer z ->
  Js.parseInt10 (Cart.arg_to_string (num:=num) (Cart.QInt z)) = Some z.
Proof.
  intros Hz. unfold Cart.arg_to_string.
  rewrite (num_to_string_int z Hz). apply parseInt10_string_of_Z.
Qed.

Lemma updateDataLayer_defined_removeFromCart productId (w : Cart.World num) :
  Cart.updateDataLayer_defined (Cart.removeFromCart productId w)
  = Cart.updateDataLayer_defined w.
Proof.
  unfold Cart.removeFromCart.
  destruct (Cart.lookup_truthy _); [|reflexivity].
  unfold Cart.updateCartTotals, Cart.renderCartItems.
  destruct (Cart.updateDataLayer_defined w) eqn:Hdef; cbn;
    destruct (Cart.cart_items (Cart.block w)); cbn; now rewrite ?Hdef.
Qed.

(** C1, as amended.  In a page where the data layer's update function is
    installed, take a cart whose line items satisfy
    [subTotal == quantity * price], a product that is in the cart, and a
    quantity that parses to an integer [q].  After [removeFromCart] the
    store holds the cart without that product.  After [updateQuantity]
    (however it finishes) it holds the cart without that product when
    [q < 1], and when [q >= 1] the cart in which that line has quantity
    [q] and [subTotal = total = q * price] and is otherwise unchanged; the
    handler finishes normally when the product id is safe in a selector.
    In both cases every remaining line item satisfies
    [subTotal == quantity * price] provided [q * price] is a number, the
    aggregates are the values of the reductions over the current line
    items, and they are [==] to them when these values are numbers. *)
Theorem cart_invariant_after_mutation
    (productId : string) (newQuantity : Cart.QuantityArg) (q : Z)
    (w : Cart.World num) (p : Cart.LineItem num) :
  Cart.updateDataLayer_defined w = true ->
  obj_get (Cart.products (Cart.read_cart w)) productId = Some p ->
  Forall line_item_ok (obj_values (Cart.products (Cart.read_cart w))) ->
  Js.parseInt10 (Cart.arg_to_string newQuantity) = Some q ->
  (exists c',
      Cart.dataLayer_cart (Cart.removeFromCart productId w) = Some c' /\
      Cart.products c' = obj_delete (Cart.products (Cart.read_cart w)) productId /\
      Forall line_item_ok (obj_values (Cart.products c')) /\
      aggregates_exact c' /\
      (is_number (Cart.productCount c') -> is_number (Cart.subTotal c') ->
       cart_invariant c')) /\
  (exists c',
      Cart.dataLayer_cart
        (completion_world (Cart.updateQuantity productId newQuantity w))
      = Some c' /\
      ((q < 1)%Z ->
       Cart.products c'
       = obj_delete (Cart.products (Cart.read_cart w)) productId) /\
      ((1 <= q)%Z ->
       obj_get (Cart.products c') productId
       = Some (Cart.mkLineItem (Cart.li_id p) (Cart.li_name p) (Cart.li_image p)
                 (Cart.li_category p) (num_of_Z q) (Cart.li_price p)
                 (num_mul (num_of_Z q) (Cart.li_price p))
                 (num_mul (num_of_Z q) (Cart.li_price p))) /\
       (forall k, k <> productId ->
          obj_get (Cart.products c') k
          = obj_get (Cart.products (Cart.read_cart w)) k) /\
       obj_keys (Cart.products c')
       = obj_keys (Cart.products (Cart.read_cart w))) /\
      (is_number (num_mul (num_of_Z q) (Cart.li_price p)) ->
       Forall line_item_ok (obj_values (Cart.products c'))) /\
      aggregates_exact c' /\
      (is_number (num_mul (num_of_Z q) (Cart.li_price p)) ->
       is_number (Cart.productCount c') -> is_number (Cart.subTotal c') ->
       cart_invariant c') /\
      (Cart.selector_safe productId = true ->
       exists w',
         Cart.updateQuantity productId newQuantity w = Cart.Normal w')).
Proof.
  intros Hdef Hget Hok Hq.
  assert (Hrem : exists c',
             Cart.dataLayer_cart (Cart.removeFromCart productId w) = Some c' /\
             Cart.products c' =
               obj_delete (Cart.products (Cart.read_cart w)) productId /\
             Forall line_item_ok (obj_values (Cart.products c')) /\
             aggregates_exact c' /\
             (is_number (Cart.productCount c') -> is_number (Cart.subTotal c') ->
              cart_invariant c')).
  { eexists. split; [apply (removeFromCart_store _ _ _ Hdef Hget)|].
    assert (Hitems : Forall line_item_ok
              (obj_values (obj_delete (Cart.products (Cart.read_cart w))
                                      productId)))
      by apply Forall_values_delete, Hok.
    split; [reflexivity|]. split; [exact Hitems|].
    split; [apply recalculate_aggregates|].
    intros Hn1 Hn2. split; [exact Hitems|].
    apply aggregates_exact_equal; [apply recalculate_aggregates| |]; assumption. }
  split; [exact Hrem|].
  destruct (Z.ltb_spec q 1) as [Hsmall|Hbig].
  - destruct Hrem as (c' & Hc' & Hps & Hitems & Hagg & Hinv).
    assert (Hrun : Cart.updateQuantity productId newQuantity w
                   = Cart.Normal (Cart.removeFromCart productId w)).
    { unfold Cart.updateQuantity.
      rewrite (parseInt_int _ _ Hq), num_lt_int_one.
      destruct (Z.ltb_spec q 1); [reflexivity|lia]. }
    exists c'. rewrite Hrun. cbn [completion_world].
    split; [exact Hc'|]. split; [intros _; exact Hps|].
    split; [intros; lia|]. split; [intros _; exact Hitems|].
    split; [exact Hagg|]. split; [intros _; exact Hinv|].
    intros _. eexists. reflexivity.
  - assert (Hlt : num_lt (Cart.parseInt newQuantity) (num_of_Z 1) = false).
    { rewrite (parseInt_int _ _ Hq), num_lt_int_one.
      destruct (Z.ltb_spec q 1); [lia|reflexivity]. }
    destruct (updateQuantity_store _ _ _ _ Hlt Hdef Hget)
      as (Hs & _ & _ & _ & Hnormal).
    rewrite (parseInt_int _ _ Hq) in Hs.
    eexists. split; [exact Hs|]. cbn [Cart.products Cart.recalculate].
    assert (Hitems : is_number (num_mul (num_of_Z q) (Cart.li_price p)) ->
              Forall line_item_ok
                (obj_values (obj_update (Cart.products (Cart.read_cart w))
                               productId (Cart.set_quantity (num_of_Z q))))).
    { intros Hn. apply (Forall_values_update _ _ _ _ p Hget); [|exact Hok].
      apply set_quantity_ok, Hn. }
    split; [intros; lia|].
    split.
    { intros _.
      split; [exact (obj_get_update_same _ _ (Cart.set_quantity (num_of_Z q))
                       _ Hget)|].
      split; [|apply obj_keys_update].
      intros k Hk. clear - Hk.
      induction (Cart.products (Cart.read_cart w)) as [|[k' v] ps IH]; simpl;
        [reflexivity|].
      destruct (String.eqb k' productId) eqn:E; simpl.
      - apply String.eqb_eq in E. subst k'.
        destruct (String.eqb productId k) eqn:E2; [|reflexivity].
        apply String.eqb_eq in E2. congruence.
      - destruct (String.eqb k' k); [reflexivity|exact IH]. }
    split; [exact Hitems|].
    split; [apply (recalculate_aggregates
                     (obj_update (Cart.products (Cart.read_cart w)) productId
                                 (Cart.set_quantity (num_of_Z q))))|].
    split.
    { intros Hn Hn1 Hn2. split; [apply Hitems, Hn|].
      apply aggregates_exact_equal;
        [apply (recalculate_aggregates
                  (obj_update (Cart.products (Cart.read_cart w)) productId
                              (Cart.set_quantity (num_of_Z q))))| |];
        assumption. }
    intros Hsafe. eexists. apply Hnormal, Hsafe.
Qed.

(** A quantity that parses to an integer below 1 is handed to
    [removeFromCart]. *)
Lemma updateQuantity_below_one productId newQuantity z (w : Cart.World num) :
  Js.parseInt10 (Cart.arg_to_string newQuantity) = Some z ->
  (z < 1)%Z ->
  Cart.updateQuantity productId newQuantity w =
    Cart.Normal (Cart.removeFromCart productId w).
Proof.
  intros Hz Hlt. unfold Cart.updateQuantity.
  rewrite (parseInt_int _ _ Hz), num_lt_int_one.
  destruct (Z.ltb_spec z 1); [reflexivity|lia].
Qed.

(** C3. [updateQuantity(productId, 0)] and [updateQuantity(productId, -1)]
    finish normally in exactly the world [removeFromCart(productId)]
    produces: same store, same store writes, same DOM. *)
Theorem updateQuantity_zero_or_negative_is_remove
    (productId : string) (w : Cart.World num) :
  Cart.updateQuantity productId (Cart.QInt 0) w =
    Cart.Normal (Cart.removeFromCart productId w) /\
  Cart.updateQuantity productId (Cart.QInt (-1)) w =
    Cart.Normal (Cart.removeFromCart productId w).
Proof.
  assert (H0 : safe_integer 0) by (unfold safe_integer; simpl; lia).
  assert (H1 : safe_integer (-1)) by (unfold safe_integer; simpl; lia).
  split.
  - apply (updateQuantity_below_one _ (Cart.QInt 0) 0);
      [apply (parseInt10_safe_integer _ H0)|lia].
  - apply (updateQuantity_below_one _ (Cart.QInt (-1)) (-1));
      [apply (parseInt10_safe_integer _ H1)|lia].
Qed.

(** C5. For a product that is in the cart and a [newQuantity] that
    [parseInt] maps to NaN (with the data layer's update function
    installed): [NaN < 1] is false, and [updateQuantity], however it
    finishes, removes nothing (the keys of [products] are unchanged); the
    cart it writes to the store with [merge = false] has NaN as the
    quantity of that line item.  The handler finishes normally when the
    product id is safe in a selector. *)
Theorem updateQuantity_non_numeric_writes_nan
    (productId : string) (newQuantity : Cart.QuantityArg)
    (w : Cart.World num) (p : Cart.LineItem num) :
  Cart.updateDataLayer_defined w = true ->
  obj_get (Cart.products (Cart.read_cart w)) productId = Some p ->
  Js.parseInt10 (Cart.arg_to_string newQuantity) = None ->
  num_lt (Cart.parseInt newQuantity) (num_of_Z 1) = false /\
  let w' := completion_world (Cart.updateQuantity productId newQuantity w) in
  (exists c' p',
    Cart.dataLayer_cart w' = Some c' /\
    In (Cart.UpdateDataLayer c' false) (Cart.trace w') /\
    obj_keys (Cart.products c') = obj_keys (Cart.products (Cart.read_cart w)) /\
    obj_get (Cart.products c') productId = Some p' /\
    Cart.li_quantity p' = num_nan) /\
  (Cart.selector_safe productId = true ->
   Cart.updateQuantity productId newQuantity w = Cart.Normal w').
Proof.
  intros Hdef Hget Hnan.
  assert (Hlt : num_lt (Cart.parseInt newQuantity) (num_of_Z 1) = false).
  { rewrite (parseInt_nan _ Hnan). apply num_lt_nan_l. }
  split; [exact Hlt|].
  destruct (updateQuantity_store _ _ _ _ Hlt Hdef Hget)
    as (Hs & Ht & _ & _ & Hnormal).
  cbv zeta. split; [|exact Hnormal].
  eexists. exists (Cart.set_quantity num_nan p).
  split; [exact Hs|].
  split.
  { rewrite Ht. apply in_or_app. right. left. reflexivity. }
  cbn [Cart.products Cart.recalculate].
  split; [apply obj_keys_update|].
  rewrite (parseInt_nan _ Hnan).
  split; [apply (obj_get_update_same _ _ _ _ Hget)|reflexivity].
Qed.

(** A quantity of at least 1 for a product id that is neither in the cart
    nor the name of a property of [Object.prototype] makes [updateQuantity]
    return at once. *)
Lemma updateQuantity_missing productId newQuantity (w : Cart.World num) :
  num_lt (Cart.parseInt newQuantity) (num_of_Z 1) = false ->
  obj_get (Cart.products (Cart.read_cart w)) productId = None ->
  obj_get (Cart.object_prototype w) productId = None ->
  Cart.updateQuantity productId newQuantity w = Cart.Normal w.
Proof.
  intros Hlt H1 H2. unfold Cart.updateQuantity.
  now rewrite Hlt, (lookup_product_missing _ _ _ H1 H2).
Qed.

End CartProperties.

(** ** The cart handlers on the sample cart *)

Example sample_cart_totals :
  Cart.recalculate (Cart.products Sample.cart) = Sample.cart.
Proof. reflexivity. Qed.

(** C1, counterexample.  The sample cart satisfies the invariant.  After
    [updateQuantity("B", "abc")] the store holds a cart in which line [B]
    has quantity NaN, so that [subTotal == quantity * price] is false for
    it: the invariant as claimed does not hold after this mutation. *)
Lemma cart_invariant_nan_counterexample :
  let w' := completion_world
              (Cart.updateQuantity "B" (Cart.QString "abc") Sample.world) in
  cart_invariant (Cart.read_cart Sample.world) /\
  exists c' p',
    Cart.dataLayer_cart w' = Some c' /\
    c' <> Cart.read_cart Sample.world /\
    obj_get (Cart.products c') "B" = Some p' /\
    num_eqb (Cart.li_subTotal p')
            (num_mul (Cart.li_quantity p') (Cart.li_price p')) = false /\
    ~ cart_invariant c'.
Proof.
  split.
  { split; [repeat constructor|repeat split]. }
  eexists. eexists. split; [reflexivity|].
  split; [discriminate|]. split; [reflexivity|]. split; [reflexivity|].
  intros [Hitems _]. inversion Hitems as [|? ? _ Hrest]; subst.
  inversion Hrest as [|? ? HB _]; subst. discriminate HB.
Qed.

Lemma cart_invariant_after_mutation_witness :
  (exists c',
      Cart.dataLayer_cart (Cart.removeFromCart "B" Sample.world) = Some c' /\
      Cart.products c' = [("A", Sample.itemA)] /\
      cart_invariant c') /\
  (exists c',
      Cart.dataLayer_cart
        (completion_world
           (Cart.updateQuantity "B" (Cart.QString "3") Sample.world))
      = Some c' /\
      obj_get (Cart.products c') "B"
      = Some (Cart.mkLineItem "B" "Cap" "" "Hats"
                (XInt 3) (XInt 5) (XInt 15) (XInt 15)) /\
      cart_invariant c').
Proof.
  assert (H3 : Forall line_item_ok
                 (obj_values (Cart.products (Cart.read_cart Sample.world)))).
  { repeat constructor. }
  destruct (cart_invariant_after_mutation "B" (Cart.QString "3") 3 Sample.world
              Sample.itemB eq_refl eq_refl H3 eq_refl)
    as [(c1 & Hc1 & Hp1 & _ & _ & Hinv1)
        (c2 & Hc2 & _ & Hline & _ & _ & Hinv2 & _)].
  split.
  - exists c1. split; [exact Hc1|]. split; [exact Hp1|].
    injection Hc1 as <-. apply Hinv1; reflexivity.
  - exists c2. split; [exact Hc2|].
    split; [apply Hline; lia|].
    injection Hc2 as <-. apply Hinv2; reflexivity.
Defined.

(** C4, the failing input.  ["constructor"] is not a product of the sample
    cart, but [products["constructor"]] is the function inherited from
    [Object.prototype], so the guard of [removeFromCart] passes: the cart
    (unchanged, [delete] finds nothing) is written to the store, the
    removal is logged and the list and the totals are rendered again. *)
Lemma removeFromCart_inherited_name_writes :
  obj_get (Cart.products (Cart.read_cart Sample.world)) "constructor" = None /\
  Cart.trace (Cart.removeFromCart "constructor" Sample.world)
  = [Cart.UpdateDataLayer Sample.cart false;
     Cart.ConsoleLog "Removed product constructor from cart. New cart:";
     Cart.RenderCartItems Sample.cart;
     Cart.UpdateCartTotals Sample.cart] /\
  Cart.removeFromCart "constructor" Sample.world <> Sample.world.
Proof.
  split; [reflexivity|]. split; [reflexivity|].
  intros H. apply (f_equal (fun w => List.length (Cart.trace w))) in H.
  discriminate H.
Qed.

Lemma updateQuantity_non_numeric_writes_nan_witness :
  Js.parseInt10 (Cart.arg_to_string (num:=exact) (Cart.QString "abc")) = None /\
  (exists c' p',
    Cart.dataLayer_cart
      (completion_world
         (Cart.updateQuantity "B" (Cart.QString "abc") Sample.world))
    = Some c' /\
    obj_keys (Cart.products c') =
      obj_keys (Cart.products (Cart.read_cart Sample.world)) /\
    obj_get (Cart.products c') "B" = Some p' /\
    Cart.li_quantity p' = XNaN) /\
  Cart.updateQuantity "B" (Cart.QString "abc") Sample.world
  = Cart.Normal
      (completion_world
         (Cart.updateQuantity "B" (Cart.QString "abc") Sample.world)).
Proof.
  split; [reflexivity|].
  destruct (updateQuantity_non_numeric_writes_nan "B" (Cart.QString "abc")
              Sample.world Sample.itemB eq_refl eq_refl eq_refl)
    as (_ & (c' & p' & Hs & _ & Hk & Hg & Hq) & Hnormal).
  split; [|apply Hnormal; reflexivity].
  exists c', p'. auto.
Defined.

(** C9, the failing input.  ["constructor"] is not a product of the sample
    cart, but the guard of [updateQuantity] passes on the inherited
    function: the three assignments go to that function, and the cart is
    recomputed, written to the store with [merge = false] and shown in the
    totals. *)
Lemma updateQuantity_inherited_name_writes :
  obj_get (Cart.products (Cart.read_cart Sample.world)) "constructor" = None /\
  Js.parseInt10 (Cart.arg_to_string (num:=exact) (Cart.QString "2")) = Some 2%Z /\
  exists w',
    Cart.updateQuantity "constructor" (Cart.QString "2") Sample.world
    = Cart.Normal w' /\
    Cart.trace w'
    = [Cart.UpdateDataLayer Sample.cart false;
       Cart.UpdateCartTotals Sample.cart] /\
    w' <> Sample.world.
Proof.
  split; [reflexivity|]. split; [reflexivity|].
  eexists. split; [reflexivity|]. split; [reflexivity|].
  intros H. apply (f_equal (fun w => List.length (Cart.trace w))) in H.
  discriminate H.
Qed.

(** ** Categories *)

Lemma lower_char_colon c : Ascii.eqb (Js.lower_char c) ":" = Ascii.eqb c ":".
Proof.
  destruct c as [[] [] [] [] [] [] [] []]; vm_compute; reflexivity.
Qed.

Lemma toLowerCase_app a b :
  Js.toLowerCase (a ++ b) = (Js.toLowerCase a ++ Js.toLowerCase b)%string.
Proof.
  unfold Js.toLowerCase.
  induction a as [|c a IH]; simpl; [reflexivity|]. now rewrite IH.
Qed.

Lemma colon_free_toLowerCase s : colon_free (Js.toLowerCase s) = colon_free s.
Proof.
  unfold Js.toLowerCase.
  induction s as [|c s IH]; simpl; [reflexivity|].
  now rewrite lower_char_colon, IH.
Qed.

Lemma after_colon_app ns rest :
  colon_free ns = true ->
  Js.after_colon (ns ++ String ":" rest) = Some rest.
Proof.
  induction ns as [|c ns IH]; simpl; [reflexivity|].
  destruct (Ascii.eqb c ":"); simpl; [discriminate|exact IH].
Qed.

Lemma after_colon_free s : colon_free s = true -> Js.after_colon s = None.
Proof.
  induction s as [|c s IH]; simpl; [reflexivity|].
  destruct (Ascii.eqb c ":"); simpl; [discriminate|exact IH].
Qed.

Lemma strip_namespace_prefixed ns rest :
  ns <> "" -> colon_free ns = true ->
  Js.strip_namespace (ns ++ String ":" rest) = rest.
Proof.
  destruct ns as [|c ns]; [congruence|]. intros _. simpl.
  destruct (Ascii.eqb c ":"); simpl; [discriminate|].
  intros H. now rewrite (after_colon_app _ _ H).
Qed.

Lemma strip_namespace_free s : colon_free s = true -> Js.strip_namespace s = s.
Proof.
  destruct s as [|c s]; [reflexivity|]. simpl.
  destruct (Ascii.eqb c ":"); simpl; [discriminate|].
  intros H. now rewrite (after_colon_free _ H).
Qed.

(** C8, as worded, fails on a category that starts with a colon: the
    pattern [/^[^:]+:/] needs at least one character before the colon, so
    [":Shoes"] is only lower-cased. *)
Lemma normalize_leading_colon_counterexample :
  Cart.normalizeProductCat ":Shoes" = ":shoes" /\
  normalize_as_specified ":Shoes" = "shoes" /\
  Cart.normalizeProductCat ":Shoes" <> normalize_as_specified ":Shoes".
Proof.
  split; [reflexivity|]. split; [reflexivity|].
  vm_compute. discriminate.
Qed.

(** C8, amended.  Normalization (the same function in both blocks)
    lower-cases the category and strips the namespace only when the first
    colon comes after at least one other character: for a non-empty
    colon-free namespace [ns], [ns:rest] becomes the lower-cased [rest]; a
    category that starts with a colon, or has no colon, is only lower-cased.
    ["demo123:Running Shoes"] normalizes to ["running shoes"], and the
    display formatting of that category gives ["Running Shoes"]. *)
Theorem normalize_category_amended (ns rest free : string) :
  ns <> "" -> colon_free ns = true -> colon_free free = true ->
  Cart.normalizeProductCat (ns ++ String ":" rest) = Js.toLowerCase rest /\
  ProductDetail.normalizeCat (ns ++ String ":" rest) = Js.toLowerCase rest /\
  Cart.normalizeProductCat (String ":" rest) = Js.toLowerCase (String ":" rest) /\
  ProductDetail.normalizeCat (String ":" rest) = Js.toLowerCase (String ":" rest) /\
  Cart.normalizeProductCat free = Js.toLowerCase free /\
  ProductDetail.normalizeCat free = Js.toLowerCase free /\
  Cart.normalizeProductCat "demo123:Running Shoes" = "running shoes" /\
  ProductDetail.normalizeCat "demo123:Running Shoes" = "running shoes" /\
  ProductDetail.formatCategoryDisplay (Some ["demo123:Running Shoes"])
    = "Running Shoes".
Proof.
  intros Hne Hns Hfree.
  assert (Hpre : Js.strip_namespace (Js.toLowerCase (ns ++ String ":" rest))
                 = Js.toLowerCase rest).
  { rewrite toLowerCase_app.
    change (Js.toLowerCase (String ":" rest))
      with (String ":" (Js.toLowerCase rest)).
    apply strip_namespace_prefixed.
    - destruct ns; [congruence|discriminate].
    - now rewrite colon_free_toLowerCase. }
  assert (Hfr : Js.strip_namespace (Js.toLowerCase free) = Js.toLowerCase free).
  { apply strip_namespace_free. now rewrite colon_free_toLowerCase. }
  unfold Cart.normalizeProductCat, ProductDetail.normalizeCat.
  repeat split; auto.
Qed.

Lemma normalize_category_amended_witness :
  "demo123"%string <> ""%string /\
  colon_free "demo123" = true /\
  colon_free "Hats" = true /\
  Cart.normalizeProductCat "demo123:Running Shoes" = "running shoes" /\
  Cart.normalizeProductCat "Hats" = "hats".
Proof.
  pose proof (normalize_category_amended "demo123" "Running Shoes" "Hats") as H.
  assert (H1 : "demo123"%string <> ""%string) by discriminate.
  specialize (H H1 eq_refl eq_refl).
  destruct H as (Ha & _ & _ & _ & Hb & _).
  exact (conj H1 (conj eq_refl (conj eq_refl (conj Ha Hb)))).
Defined.

(** ** Image URL resolution *)

Section CatalogProperties.
Context {num : Type} {N : JsNumber num}.

Lemma getProductImageUrl_same (item : option (Product num)) isAuthor isLegacy :
  ProductDetail.getProductImageUrl item isAuthor isLegacy =
  Cart.getProductImageUrl item isAuthor isLegacy.
Proof. reflexivity. Qed.

Lemma image_ref_cases (isAuthor : bool) (ref : ImageRef) :
  let code :=
    if Js.opt_truthy (_authorUrl ref) || Js.opt_truthy (_publishUrl ref)
    then (if isAuthor then _authorUrl ref else _publishUrl ref)
    else None in
  code = env_url isAuthor ref \/
  (code = None /\ Js.opt_truthy (env_url isAuthor ref) = false).
Proof.
  unfold env_url. simpl.
  destruct (Js.opt_truthy (_authorUrl ref)) eqn:Ha;
    destruct (Js.opt_truthy (_publishUrl ref)) eqn:Hp; simpl; auto.
  right. destruct isAuthor; auto.
Qed.

Lemma card_picture_none url name :
  Js.opt_truthy url = false -> Cart.card_picture url name = None.
Proof.
  destruct url as [u|]; simpl; [|reflexivity].
  intros H. now rewrite H.
Qed.

(** C6. Image URL resolution, identical in both blocks.  Let [specified]
    be the URL the specification names: under the legacy schema the author
    or publish sub-field of [image] ([null] when [image] is absent), under
    the current schema the external URL (the string, or the [plaintext] of
    its wrapper) when there is one, else the author or publish sub-field of
    the DAM image, else [null].  The result is [specified]; when
    [specified] holds no URL (it is missing or empty) the result holds none
    either, and may then be [null].  A [null] item gives [null].  Whenever
    the result holds no URL, the recommendation cards and the detail view
    contain no image element. *)
Theorem image_url_resolution (item : Product num) (isAuthor isLegacy : bool) :
  let url := Cart.getProductImageUrl (Some item) isAuthor isLegacy in
  let specified := image_url_as_specified item isAuthor isLegacy in
  ProductDetail.getProductImageUrl (Some item) isAuthor isLegacy = url /\
  (url = specified \/ (url = None /\ Js.opt_truthy specified = false)) /\
  Cart.getProductImageUrl (num:=num) None isAuthor isLegacy = None /\
  ProductDetail.getProductImageUrl (num:=num) None isAuthor isLegacy = None /\
  (Js.opt_truthy url = false ->
   card_media (Cart.buildRecommendationCard item isAuthor isLegacy) = None /\
   card_media (ProductDetail.buildRecommendationCard item isAuthor isLegacy) = None /\
   ProductDetail.pd_image_el (ProductDetail.detail_view item isAuthor isLegacy) = None).
Proof.
  cbv zeta. split; [reflexivity|]. split.
  - unfold Cart.getProductImageUrl, image_url_as_specified.
    destruct isLegacy.
    + destruct (p_image item) as [image|]; [apply image_ref_cases|auto].
    + assert (Hdam :
        let fromDam :=
          match p_damImageURL item with
          | Some dam =>
              if Js.opt_truthy (_authorUrl dam) || Js.opt_truthy (_publishUrl dam)
              then (if isAuthor then _authorUrl dam else _publishUrl dam)
              else None
          | None => None
          end in
        let specified :=
          match p_damImageURL item with
          | Some dam => env_url isAuthor dam
          | None => None
          end in
        fromDam = specified \/
        (fromDam = None /\ Js.opt_truthy specified = false)).
      { cbv zeta. destruct (p_damImageURL item) as [dam|];
          [apply image_ref_cases|auto]. }
      cbv zeta in Hdam.
      destruct (p_externalImageURL item) as [[s|pt]|]; simpl; [| |exact Hdam].
      * destruct (Js.truthy s); [auto|exact Hdam].
      * destruct (Js.opt_truthy pt); [auto|exact Hdam].
  - split; [reflexivity|]. split; [reflexivity|].
    intros Hurl.
    unfold Cart.buildRecommendationCard, ProductDetail.buildRecommendationCard,
      ProductDetail.detail_view; cbn [card_media ProductDetail.pd_image_el].
    change (@ProductDetail.getProductImageUrl num)
      with (@Cart.getProductImageUrl num).
    change (ProductDetail.card_picture) with (Cart.card_picture).
    rewrite (card_picture_none _ _ Hurl).
    destruct (Cart.getProductImageUrl (Some item) isAuthor isLegacy) as [u|];
      [|auto].
    simpl in Hurl. rewrite Hurl. auto.
Qed.

End CatalogProperties.

Lemma image_url_resolution_witness :
  Js.opt_truthy (Cart.getProductImageUrl (Some Sample.plain) false false) = false /\
  card_media (Cart.buildRecommendationCard Sample.plain false false) = None /\
  card_media (ProductDetail.buildRecommendationCard Sample.plain false false) = None /\
  ProductDetail.pd_image_el (ProductDetail.detail_view Sample.plain false false) = None.
Proof.
  split; [reflexivity|].
  apply (image_url_resolution Sample.plain false false). reflexivity.
Defined.

(** ** Remote fetch *)

Section FetchProperties.
Context {num : Type} {N : JsNumber num}.

Lemma cart_filter_identified (items : list (option (Product num))) :
  Cart.filter_identified items = filter identified (records items).
Proof.
  induction items as [|[item|] items IH]; simpl; [reflexivity| |exact IH].
  unfold Cart.has_sku_or_id, identified at 1.
  destruct (Js.opt_truthy (p_sku item) || Js.opt_truthy (p_id item));
    now rewrite IH.
Qed.

Lemma detail_filter_identified (items : list (option (Product num))) :
  ProductDetail.filter_identified items = Cart.filter_identified items.
Proof.
  induction items as [|[item|] items IH]; simpl; [reflexivity| |exact IH].
  rewrite IH. reflexivity.
Qed.

Lemma detail_fetchAllProducts_same (fetch : string -> FetchOutcome num)
    path isAuthor isLegacy :
  ProductDetail.fetchAllProducts fetch path isAuthor isLegacy =
  Cart.fetchAllProducts fetch path isAuthor isLegacy.
Proof.
  unfold ProductDetail.fetchAllProducts, Cart.fetchAllProducts,
    ProductDetail.fetchAllProducts_try, Cart.fetchAllProducts_try.
  destruct (negb (Js.truthy path)); [reflexivity|].
  destruct (fetch _); reflexivity.
Qed.

(** A listing that is fetched and parsed gives the identified records of
    its items, in order. *)
Lemma fetchAllProducts_parsed (fetch : string -> FetchOutcome num)
    path isAuthor isLegacy json :
  Js.truthy path = true ->
  fetch (listing_baseUrl isAuthor isLegacy ++ "_path=" ++ path)%string = Json json ->
  Cart.fetchAllProducts fetch path isAuthor isLegacy =
    filter identified (records (listed_items json)).
Proof.
  intros Hpath Hfetch.
  unfold Cart.fetchAllProducts, Cart.fetchAllProducts_try.
  rewrite Hpath, Hfetch. simpl. apply cart_filter_identified.
Qed.

Lemma fetchAllProducts_identified (fetch : string -> FetchOutcome num)
    path isAuthor isLegacy :
  Forall (fun item => identified item = true)
         (Cart.fetchAllProducts fetch path isAuthor isLegacy).
Proof.
  unfold Cart.fetchAllProducts, Cart.fetchAllProducts_try.
  destruct (negb (Js.truthy path)); [constructor|].
  destruct (fetch _); try constructor.
  rewrite cart_filter_identified. apply Forall_forall.
  intros item Hin. apply filter_In in Hin. tauto.
Qed.

(** C7. When every request fails (the network request or the JSON parse),
    the single-product fetch returns [null] and both folder-listing fetches
    return the empty list; the exception stays inside the [try] block.  For
    any behaviour of the network every record a listing fetch returns has a
    sku or an id, and a listing that is fetched and parsed gives exactly
    the records of its items that have one, in order. *)
Theorem fetch_failures_absorbed
    (failing fetch : string -> FetchOutcome num) (path sku : string)
    (isAuthor isLegacy : bool) :
  (forall url, is_failure (failing url) = true) ->
  ProductDetail.fetchProductDetail failing path sku isAuthor isLegacy = None /\
  ProductDetail.fetchAllProducts failing path isAuthor isLegacy = [] /\
  Cart.fetchAllProducts failing path isAuthor isLegacy = [] /\
  Forall (fun item => identified item = true)
         (ProductDetail.fetchAllProducts fetch path isAuthor isLegacy) /\
  Forall (fun item => identified item = true)
         (Cart.fetchAllProducts fetch path isAuthor isLegacy) /\
  (forall json,
      Js.truthy path = true ->
      fetch (listing_baseUrl isAuthor isLegacy ++ "_path=" ++ path)%string
        = Json json ->
      ProductDetail.fetchAllProducts fetch path isAuthor isLegacy
        = filter identified (records (listed_items json)) /\
      Cart.fetchAllProducts fetch path isAuthor isLegacy
        = filter identified (records (listed_items json))).
Proof.
  intros Hfail.
  assert (Hall : Cart.fetchAllProducts failing path isAuthor isLegacy = []).
  { unfold Cart.fetchAllProducts, Cart.fetchAllProducts_try.
    destruct (negb (Js.truthy path)); [reflexivity|].
    match goal with |- context [failing ?u] =>
      specialize (Hfail u); destruct (failing u) end;
      simpl in Hfail; try discriminate; reflexivity. }
  split.
  { unfold ProductDetail.fetchProductDetail, ProductDetail.fetchProductDetail_try.
    destruct (negb (Js.truthy path) || negb (Js.truthy sku)); [reflexivity|].
    destruct isLegacy;
      match goal with |- context [failing ?u] =>
        pose proof (Hfail u) as Hu; destruct (failing u) end;
      simpl in Hu; try discriminate; reflexivity. }
  rewrite !detail_fetchAllProducts_same.
  split; [exact Hall|]. split; [exact Hall|].
  split; [apply fetchAllProducts_identified|].
  split; [apply fetchAllProducts_identified|].
  intros json Hpath Hfetch.
  rewrite detail_fetchAllProducts_same.
  split; apply (fetchAllProducts_parsed _ _ _ _ _ Hpath Hfetch).
Qed.

End FetchProperties.

Lemma fetch_failures_absorbed_witness :
  ProductDetail.fetchProductDetail (num:=exact) (fun _ => NetworkFailure)
    "/content/dam/luma" "SKU-1" false false = None /\
  Cart.fetchAllProducts (num:=exact) (fun _ => NetworkFailure)
    "/content/dam/luma" false false = [] /\
  Cart.fetchAllProducts (fun _ => Json Sample.listing) "/content/dam/luma"
    false false = [Sample.tee; Sample.plain].
Proof.
  pose proof (fetch_failures_absorbed (num:=exact)
                (fun _ => NetworkFailure) (fun _ => Json Sample.listing)
                "/content/dam/luma" "SKU-1" false false (fun _ => eq_refl))
    as (H1 & _ & H3 & _ & _ & H6).
  split; [exact H1|]. split; [exact H3|].
  exact (proj2 (H6 Sample.listing eq_refl eq_refl)).
Defined.

(** ** The product written to the data layer *)

Section DetailProperties.
Context {num : Type} {N : JsNumber num}.

Lemma display_name_trim name :
  display_name name = Js.trim (text_before_first_comma name).
Proof.
  unfold display_name. destruct name; reflexivity.
Qed.

(** C10, amended.  [buildProductDetail] derives [productData] from the
    product: [id] is the product's id, or its sku when the id is missing
    or empty, or [""]; [name] is the trimmed text before the first comma of
    the raw name, or the raw name itself when that text is empty; [price]
    is the product's price, or 0 when it is missing or falsy; [image] and
    [thumbnail] are the resolved image URL, or [""] when there is none.
    Where the data layer's update function is installed it makes exactly
    one store write, the call [updateDataLayer({ product: productData })]
    without a merge flag, after which the store holds [productData] under
    ["product"]; where it is not installed it writes nothing and only logs
    a warning. *)
Theorem product_written_to_data_layer
    (product : Product num) (isAuthor isLegacy : bool)
    (w : ProductDetail.World num) :
  let name := Js.or_empty (p_name product) in
  let url := ProductDetail.getProductImageUrl (Some product) isAuthor isLegacy in
  let w' := snd (ProductDetail.buildProductDetail product isAuthor isLegacy w) in
  exists productData,
    (ProductDetail.updateDataLayer_is_function w = true ->
     ProductDetail.trace w' =
       ProductDetail.trace w ++ [ProductDetail.UpdateDataLayer productData None] /\
     ProductDetail.dataLayer_product w' = Some productData) /\
    (ProductDetail.updateDataLayer_is_function w = false ->
     ProductDetail.trace w' =
       ProductDetail.trace w ++
       [ProductDetail.ConsoleWarn
          "window.updateDataLayer not available, product data not sent"] /\
     ProductDetail.dataLayer_product w' = ProductDetail.dataLayer_product w) /\
    ProductDetail.pd_id productData =
      (if Js.opt_truthy (p_id product) then Js.or_empty (p_id product)
       else Js.or_empty (p_sku product)) /\
    ProductDetail.pd_name productData =
      (if Js.truthy (Js.trim (text_before_first_comma name))
       then Js.trim (text_before_first_comma name) else name) /\
    ProductDetail.pd_price productData =
      match p_price product with
      | Some price => if num_truthy price then price else num_of_Z 0
      | None => num_of_Z 0
      end /\
    ProductDetail.pd_image productData = Js.or_empty url /\
    ProductDetail.pd_thumbnail productData = Js.or_empty url.
Proof.
  cbv zeta.
  exists (ProductDetail.productData_of product isAuthor isLegacy).
  unfold ProductDetail.buildProductDetail.
  split; [intros Hfn; rewrite Hfn; split; reflexivity|].
  split; [intros Hfn; rewrite Hfn; split; reflexivity|].
  unfold ProductDetail.productData_of; simpl.
  rewrite <- display_name_trim.
  repeat split.
  unfold Js.opt_or. destruct (Js.opt_truthy (p_id product)); reflexivity.
Qed.

End DetailProperties.

(** C10, as worded, fails twice.  On the name: when nothing precedes the
    first comma, the raw name is written, not the (empty) text before the
    comma.  On "whenever": in a page without the data layer's update
    function the view is built and nothing is written. *)
Lemma product_name_counterexample :
  ProductDetail.trace
    (snd (ProductDetail.buildProductDetail Sample.plain false false
            Sample.detail_world))
  = [ProductDetail.UpdateDataLayer
       (ProductDetail.productData_of Sample.plain false false) None] /\
  ProductDetail.pd_name (ProductDetail.productData_of Sample.plain false false)
  = ",Blue" /\
  text_before_first_comma ",Blue" = "" /\
  ProductDetail.pd_name (ProductDetail.productData_of Sample.plain false false)
  <> text_before_first_comma (Js.or_empty (p_name Sample.plain)) /\
  let offline := ProductDetail.mkWorld (num:=exact) None false false [] [] in
  fst (ProductDetail.buildProductDetail Sample.tee false false offline)
  = ProductDetail.detail_view Sample.tee false false /\
  ProductDetail.dataLayer_product
    (snd (ProductDetail.buildProductDetail Sample.tee false false offline))
  = None /\
  ProductDetail.trace
    (snd (ProductDetail.buildProductDetail Sample.tee false false offline))
  = [ProductDetail.ConsoleWarn
       "window.updateDataLayer not available, product data not sent"].
Proof.
  repeat split. vm_compute. discriminate.
Qed.

Lemma product_written_to_data_layer_witness :
  ProductDetail.updateDataLayer_is_function Sample.detail_world = true /\
  exists productData,
    ProductDetail.dataLayer_product
      (snd (ProductDetail.buildProductDetail Sample.tee false false
              Sample.detail_world)) = Some productData /\
    ProductDetail.pd_id productData = "id-1" /\
    ProductDetail.pd_name productData = "Zoltar Tee" /\
    ProductDetail.pd_price productData = XInt 20 /\
    ProductDetail.pd_image productData = "https://cdn.example/tee.png".
Proof.
  split; [reflexivity|].
  destruct (product_written_to_data_layer Sample.tee false false
              Sample.detail_world)
    as (productData & Hon & _ & Hid & Hname & Hprice & Himage & _).
  exists productData.
  exact (conj (proj2 (Hon eq_refl))
              (conj Hid (conj Hname (conj Hprice Himage)))).
Defined.

(** ** Recommendations *)

Section RecommendationProperties.
Context {num : Type} {N : JsNumber num}.

Lemma first_matches_zero {A} (P : A -> Prop) l r :
  first_matches P 0 l r -> r = [].
Proof.
  intros H. remember 0 as z eqn:Hz.
  induction H; try reflexivity; try discriminate. auto.
Qed.

(** [first_matches] determines its result. *)
Lemma first_matches_deterministic {A} (P : A -> Prop) n l r1 r2 :
  first_matches P n l r1 -> first_matches P n l r2 -> r1 = r2.
Proof.
  intros H1. revert r2.
  induction H1 as [l|n|n x l r Hx H1 IH|n x l r Hx H1 IH]; intros r2 H2.
  - symmetry. exact (first_matches_zero _ _ _ H2).
  - inversion H2; reflexivity.
  - inversion H2; subst; [f_equal; auto|contradiction].
  - inversion H2; subst; auto; try contradiction.
    exact (first_matches_zero _ _ _ H1).
Qed.

Lemma first_matches_firstn_filter {A} (P : A -> Prop) (f : A -> bool) :
  (forall x, f x = true <-> P x) ->
  forall l n, first_matches P n l (firstn n (filter f l)).
Proof.
  intros Hf. induction l as [|x l IH]; intros n.
  - rewrite firstn_nil. constructor.
  - simpl. destruct (f x) eqn:Hx.
    + destruct n as [|n]; simpl; [constructor|].
      apply fm_take; [now apply Hf|apply IH].
    + apply fm_skip; [|apply IH].
      intros HP. apply Hf in HP. congruence.
Qed.

Lemma filter_none {A} (f : A -> bool) l :
  (forall x, In x l -> f x = false) -> filter f l = [].
Proof.
  induction l as [|x l IH]; simpl; intros H; [reflexivity|].
  rewrite (H x (or_introl eq_refl)). auto.
Qed.

Lemma set_has_In set x : Cart.set_has set x = true <-> In x set.
Proof.
  unfold Cart.set_has. rewrite existsb_exists. split.
  - intros (y & Hin & Heq). apply String.eqb_eq in Heq. now subst.
  - intros Hin. exists x. split; [exact Hin|apply String.eqb_refl].
Qed.

Lemma cart_is_recommended_overlap (cartData : Cart.CartData num) product :
  Cart.is_recommended cartData product = true
  <-> ~ In (sku_or_id product) (obj_keys (Cart.products cartData)) /\
      exists c, In c (normalized_categories product) /\
                In c (Cart.cartCategories cartData).
Proof.
  unfold Cart.is_recommended, Cart.cartProductIds.
  fold (sku_or_id product). fold (normalized_categories product).
  destruct (Cart.set_has (obj_keys (Cart.products cartData)) (sku_or_id product))
    eqn:Hid.
  - apply set_has_In in Hid. split; [discriminate|tauto].
  - rewrite existsb_exists. split.
    + intros (c & Hc & Hset). split.
      * intros Hin. apply set_has_In in Hin. congruence.
      * exists c. split; [exact Hc|now apply set_has_In].
    + intros (_ & c & Hc & Hset). exists c.
      split; [exact Hc|now apply set_has_In].
Qed.

Lemma index_colon_cons c s :
  String.index 0 ":" (String c s)
  = if Ascii.eqb c ":" then Some 0 else option_map S (String.index 0 ":" s).
Proof.
  cbn [String.index]. rewrite prefix_cons, prefix_nil, Ascii.eqb_sym.
  destruct (Ascii.eqb c ":"); [reflexivity|].
  destruct (String.index 0 ":" s); reflexivity.
Qed.

Lemma substring_full s : String.substring 0 (String.length s) s = s.
Proof. induction s as [|c s IH]; simpl; [reflexivity|now rewrite IH]. Qed.

Lemma after_colon_index s :
  Js.after_colon s
  = match String.index 0 ":" s with
    | Some n => Some (String.substring (S n) (String.length s - S n) s)
    | None => None
    end.
Proof.
  induction s as [|c s IH]; [reflexivity|].
  rewrite index_colon_cons. cbn [Js.after_colon].
  destruct (Ascii.eqb c ":").
  - cbn [String.substring String.length]. simpl Nat.sub.
    now rewrite Nat.sub_0_r, substring_full.
  - rewrite IH. destruct (String.index 0 ":" s); reflexivity.
Qed.

(** The normalization of both builders is the amended one. *)
Lemma normalizeProductCat_as_amended cat :
  Cart.normalizeProductCat cat = normalize_as_amended cat.
Proof.
  unfold Cart.normalizeProductCat, normalize_as_amended. cbv zeta.
  generalize (Js.toLowerCase cat) as s. intros [|c s]; [reflexivity|].
  unfold Js.strip_namespace. rewrite index_colon_cons.
  destruct (Ascii.eqb c ":"); [reflexivity|].
  rewrite after_colon_index.
  destruct (String.index 0 ":" s); reflexivity.
Qed.

Lemma normalized_categories_has_category (product : Product num) c :
  In c (normalized_categories product) <-> has_category product c.
Proof.
  unfold normalized_categories, has_category, Js.filter_Boolean.
  rewrite filter_In, in_map_iff. split.
  - intros ((cat & E & Hin) & Ht). exists cat.
    rewrite <- normalizeProductCat_as_amended.
    split; [exact Hin|]. split; [now symmetry|].
    intros ->. discriminate.
  - intros (cat & Hin & E & Hne). split.
    + exists cat. rewrite normalizeProductCat_as_amended. now split.
    + destruct c; [congruence|reflexivity].
Qed.

(** The pieces of [split(/[/,]+/)], other than the empty one: the piece that
    continues the characters read so far, or a later one. *)
Lemma split_runs_parts part :
  part <> "" ->
  forall s cur b, (b = true -> cur = "") ->
  In part (Js.split_runs_from separator s cur b)
  <-> (exists p post,
         part = (Js.rev_string cur "" ++ p)%string /\
         s = (p ++ post)%string /\ separator_free p = true /\
         (post = "" \/ starts_with_separator post = true))
      \/ (exists pre post,
         s = (pre ++ part ++ post)%string /\ separator_free part = true /\
         ends_with_separator pre = true /\
         (post = "" \/ starts_with_separator post = true)).
Proof.
  intros Hne. induction s as [|c s IH]; intros cur b Hb.
  - cbn [Js.split_runs_from In]. split.
    + intros [E|[]]. left. exists "", "". rewrite append_empty_r. auto.
    + intros [(p & post & Ep & Es & _)|(pre & post & Es & _ & He & _)].
      * destruct p; [|discriminate]. left.
        now rewrite Ep, append_empty_r.
      * destruct pre; discriminate.
  - cbn [Js.split_runs_from]. destruct (separator c) eqn:Hc.
    + pose proof (IH "" true (fun _ => eq_refl)) as Hrest.
      cbn [Js.rev_string append] in Hrest.
      split.
      * intros Hin.
        assert (Hcases : part = Js.rev_string cur ""
                         \/ In part (Js.split_runs_from separator s "" true)).
        { destruct b; [now right|]. destruct Hin as [E|Hin]; auto. }
        destruct Hcases as [E|Hin'].
        -- left. exists "", (String c s). rewrite append_empty_r.
           cbn [starts_with_separator]. auto.
        -- apply Hrest in Hin'.
           destruct Hin' as [(p & post & Ep & Es & Hf & Hp)
                            |(pre & post & Es & Hf & He & Hp)].
           ++ right. exists (String c ""), post. subst p.
              cbn [append ends_with_separator]. rewrite <- Es. auto.
           ++ right. exists (String c pre), post.
              cbn [append]. rewrite <- Es.
              split; [reflexivity|]. split; [exact Hf|]. split; [|exact Hp].
              destruct pre; [discriminate|exact He].
      * intros [(p & post & Ep & Es & Hf & Hp)|(pre & post & Es & Hf & He & Hp)].
        -- destruct p as [|a p].
           ++ rewrite append_empty_r in Ep. destruct b.
              ** rewrite (Hb eq_refl) in Ep. contradiction.
              ** left. now symmetry.
           ++ cbn [append] in Es. injection Es as Ea Es. subst a.
              cbn [separator_free] in Hf. rewrite Hc in Hf. discriminate.
        -- assert (Hin : In part (Js.split_runs_from separator s "" true)).
           { destruct pre as [|a pre]; [discriminate|].
             cbn [append] in Es. injection Es as Ea Es. subst a.
             apply Hrest. destruct pre as [|a' pre].
             - left. exists part, post. auto.
             - right. exists (String a' pre), post. auto. }
           destruct b; [exact Hin|right; exact Hin].
    + pose proof (IH (String c cur) false ltac:(discriminate)) as Hrest.
      cbn [Js.rev_string] in Hrest.
      rewrite (rev_string_acc cur (String c "")) in Hrest.
      split.
      * intros Hin. apply Hrest in Hin.
        destruct Hin as [(p & post & Ep & Es & Hf & Hp)
                        |(pre & post & Es & Hf & He & Hp)].
        -- left. exists (String c p), post.
           rewrite Ep, append_assoc. cbn [append separator_free].
           rewrite Es, Hc, Hf. auto.
        -- right. exists (String c pre), post.
           cbn [append]. rewrite <- Es.
           split; [reflexivity|]. split; [exact Hf|]. split; [|exact Hp].
           destruct pre; [discriminate|exact He].
      * intros [(p & post & Ep & Es & Hf & Hp)|(pre & post & Es & Hf & He & Hp)];
          apply Hrest.
        -- destruct p as [|a p].
           ++ cbn [append] in Es. subst post.
              destruct Hp as [Hp|Hp]; [discriminate|].
              cbn [starts_with_separator] in Hp. congruence.
           ++ cbn [append] in Es. injection Es as Ea Es. subst a.
              cbn [separator_free] in Hf. rewrite Hc in Hf.
              left. exists p, post. rewrite append_assoc. auto.
        -- destruct pre as [|a pre]; [discriminate|].
           cbn [append] in Es. injection Es as Ea Es. subst a.
           destruct pre as [|a' pre].
           ++ cbn [ends_with_separator] in He. congruence.
           ++ right. exists (String a' pre), post. auto.
Qed.

(** The non-empty pieces of [split(/[/,]+/)] are the parts of the string. *)
Lemma split_runs_delimited s part :
  part <> "" ->
  In part (Js.split_runs Cart.is_slash_or_comma s) <-> delimited_part s part.
Proof.
  intros Hne. change Cart.is_slash_or_comma with separator.
  unfold Js.split_runs, delimited_part.
  rewrite (split_runs_parts part Hne s "" false) by discriminate.
  cbn [Js.rev_string append]. split.
  - intros [(p & post & Ep & Es & Hf & Hp)|(pre & post & Es & Hf & He & Hp)].
    + subst p. exists "", post. auto.
    + exists pre, post. auto.
  - intros (pre & post & Es & Hf & [Hpre|He] & Hp).
    + subst pre. left. exists part, post. auto.
    + right. exists pre, post. auto.
Qed.

(** The elements of [cartCategories] are the target set of the cart. *)
Lemma cartCategories_cart_category (cartData : Cart.CartData num) c :
  In c (Cart.cartCategories cartData) <-> cart_category cartData c.
Proof.
  unfold Cart.cartCategories, cart_category. rewrite in_flat_map. split.
  - intros (item & Hitem & Hin).
    destruct (Js.truthy (Cart.li_category item)); [|destruct Hin].
    unfold Js.filter_Boolean in Hin. apply filter_In in Hin.
    destruct Hin as (Hin & Ht). apply in_map_iff in Hin.
    destruct Hin as (part & E & Hin).
    assert (Hc : c <> "") by (intros ->; discriminate).
    assert (Hp : part <> "").
    { intros ->. apply Hc. rewrite <- E. reflexivity. }
    exists item, part. split; [exact Hitem|].
    split; [now apply split_runs_delimited|]. split; [now symmetry|exact Hc].
  - intros (item & part & Hitem & Hd & E & Hc). exists item.
    split; [exact Hitem|].
    assert (Hp : part <> "").
    { intros ->. apply Hc. rewrite E. reflexivity. }
    apply split_runs_delimited in Hd; [|exact Hp].
    destruct (Js.truthy (Cart.li_category item)) eqn:Ht.
    + apply filter_In. split.
      * apply in_map_iff. exists part. split; [now symmetry|exact Hd].
      * destruct c; [congruence|reflexivity].
    + destruct (Cart.li_category item); [|discriminate].
      destruct Hd as [E'|[]]. apply Hp. symmetry. exact E'.
Qed.

Lemma cart_is_recommended_spec (cartData : Cart.CartData num) product :
  Cart.is_recommended cartData product = true <-> cart_candidate cartData product.
Proof.
  rewrite cart_is_recommended_overlap. unfold cart_candidate.
  split; intros (Hid & c & Hp & Hc); (split; [exact Hid|]); exists c.
  - split; [now apply normalized_categories_has_category
           |now apply cartCategories_cart_category].
  - split; [now apply normalized_categories_has_category
           |now apply cartCategories_cart_category].
Qed.

Lemma opt_string_eqb_eq a b : ProductDetail.opt_string_eqb a b = true <-> a = b.
Proof.
  destruct a as [x|], b as [y|]; simpl; split; try congruence; try reflexivity.
  - intros H. apply String.eqb_eq in H. now subst.
  - intros H. inversion H. apply String.eqb_refl.
Qed.

Lemma detail_is_recommended_overlap (current product : Product num) :
  ProductDetail.is_recommended current product = true
  <-> Js.opt_or (p_sku product) (p_id product)
        <> Js.opt_or (p_sku current) (p_id current) /\
      exists c, In c (normalized_categories product) /\
                In c (normalized_categories current).
Proof.
  unfold ProductDetail.is_recommended.
  change ProductDetail.normalizeCat with Cart.normalizeProductCat.
  fold (normalized_categories product). fold (normalized_categories current).
  destruct (ProductDetail.opt_string_eqb _ _) eqn:Heq.
  - apply opt_string_eqb_eq in Heq. split; [discriminate|tauto].
  - assert (Hne : Js.opt_or (p_sku product) (p_id product)
                  <> Js.opt_or (p_sku current) (p_id current)).
    { intros E. apply opt_string_eqb_eq in E. congruence. }
    rewrite existsb_exists. split.
    + intros (c & Hc & Hin). apply existsb_exists in Hin.
      destruct Hin as (c' & Hc' & E). apply String.eqb_eq in E. subst c'.
      split; [exact Hne|]. exists c. tauto.
    + intros (_ & c & Hp & Hc). exists c. split; [exact Hc|].
      apply existsb_exists. exists c. split; [exact Hp|apply String.eqb_refl].
Qed.

Lemma detail_is_recommended_spec (current product : Product num) :
  ProductDetail.is_recommended current product = true
  <-> detail_candidate current product.
Proof.
  rewrite detail_is_recommended_overlap. unfold detail_candidate.
  split; intros (Hid & c & Hp & Hc); (split; [exact Hid|]); exists c;
    split; now apply normalized_categories_has_category.
Qed.

Lemma length_zero_match {A B} (l : list A) (x y : B) :
  (if (List.length l =? 0)%nat then x else y)
  = match l with [] => x | _ => y end.
Proof. destruct l; reflexivity. Qed.

(** The cart builder returns the section of the first five candidates. *)
Lemma cart_buildRecommendations_spec allProducts (cartData : Cart.CartData num)
    isAuthor isLegacy :
  exists recs,
    first_matches (cart_candidate cartData) 5 allProducts recs /\
    Cart.buildRecommendations allProducts cartData isAuthor isLegacy =
      section_for "cart-recommendations"
        (map (fun p => Cart.buildRecommendationCard p isAuthor isLegacy) recs).
Proof.
  exists (firstn 5 (filter (Cart.is_recommended cartData) allProducts)).
  split.
  - apply first_matches_firstn_filter. apply cart_is_recommended_spec.
  - unfold Cart.buildRecommendations. rewrite length_zero_match.
    destruct (firstn 5 _); reflexivity.
Qed.

(** The product-detail builder returns the section of the first five
    candidates. *)
Lemma detail_buildRecommendations_spec (current : Product num) allProducts
    isAuthor isLegacy :
  exists recs,
    first_matches (detail_candidate current) 5 allProducts recs /\
    ProductDetail.buildRecommendations current allProducts isAuthor isLegacy =
      section_for "pd-recommendations"
        (map (fun p => ProductDetail.buildRecommendationCard p isAuthor isLegacy)
             recs).
Proof.
  exists (firstn 5 (filter (ProductDetail.is_recommended current) allProducts)).
  split.
  - apply first_matches_firstn_filter. apply detail_is_recommended_spec.
  - unfold ProductDetail.buildRecommendations.
    assert (Hnone : normalized_categories current = [] ->
                    filter (ProductDetail.is_recommended current) allProducts = []).
    { intros Hc. apply filter_none. intros p _.
      destruct (ProductDetail.is_recommended current p) eqn:E; [|reflexivity].
      apply detail_is_recommended_overlap in E.
      destruct E as (_ & c & _ & Hin). rewrite Hc in Hin. destruct Hin. }
    destruct (p_category current) as [[|c cs]|] eqn:Hcat.
    + rewrite Hnone; [reflexivity|].
      unfold normalized_categories. now rewrite Hcat.
    + rewrite length_zero_match. destruct (firstn 5 _); reflexivity.
    + rewrite Hnone; [reflexivity|].
      unfold normalized_categories. now rewrite Hcat.
Qed.

Lemma cart_buildRecommendations_none allProducts (cartData : Cart.CartData num)
    isAuthor isLegacy :
  (forall p, In p allProducts -> ~ cart_candidate cartData p) ->
  Cart.buildRecommendations allProducts cartData isAuthor isLegacy = None.
Proof.
  intros Hno. unfold Cart.buildRecommendations.
  rewrite filter_none; [reflexivity|].
  intros p Hin. destruct (Cart.is_recommended cartData p) eqn:E; [|reflexivity].
  apply cart_is_recommended_spec in E. now apply Hno in E.
Qed.

Lemma detail_buildRecommendations_none (current : Product num) allProducts
    isAuthor isLegacy :
  (forall p, In p allProducts -> ~ detail_candidate current p) ->
  ProductDetail.buildRecommendations current allProducts isAuthor isLegacy = None.
Proof.
  intros Hno. unfold ProductDetail.buildRecommendations.
  rewrite filter_none.
  - destruct (p_category current) as [[|c cs]|]; reflexivity.
  - intros p Hin.
    destruct (ProductDetail.is_recommended current p) eqn:E; [|reflexivity].
    apply detail_is_recommended_spec in E. now apply Hno in E.
Qed.

Lemma cart_recommendations_renderCartItems c (w : Cart.World num) :
  Cart.cart_recommendations (Cart.block (Cart.renderCartItems c w))
  = Cart.cart_recommendations (Cart.block w).
Proof.
  unfold Cart.renderCartItems, Cart.renderCartItems_dom; simpl.
  destruct (Cart.cart_items (Cart.block w)); reflexivity.
Qed.

Lemma cart_recommendations_handlers c (w : Cart.World num) :
  Cart.cart_recommendations
    (Cart.block (Cart.updateCartTotals c (Cart.renderCartItems c w)))
  = Cart.cart_recommendations (Cart.block w).
Proof.
  change (Cart.block (Cart.updateCartTotals ?c ?x))
    with (Cart.updateCartTotals_dom (Cart.block x) c).
  cbn [Cart.updateCartTotals_dom Cart.cart_recommendations].
  apply cart_recommendations_renderCartItems.
Qed.

Lemma first_matches_length {A} (P : A -> Prop) n l r :
  first_matches P n l r -> List.length r <= n.
Proof. induction 1; simpl; lia. Qed.

(** C2. Both recommendation builders return the section whose cards are
    built, in order, from [recs], the first at most five products of the
    candidate list that are candidates: for the cart, products whose
    sku-or-id is not a key of the cart's [products] and one of whose
    normalized categories ([has_category]) is in the target set of the cart
    ([cart_category]: the parts of the line items' category strings between
    slashes and commas, trimmed, in lower case and not empty); for the
    detail page, products whose sku-or-id differs from the current
    product's and that share a normalized category with it.  The candidates
    are defined without reference to the builders.  When [recs] is empty the builder
    returns [null].  When no product is a candidate the callers append
    nothing: the listener leaves no section in the cart block that was not
    there, [decorate] of the cart leaves the block without any section, and
    [decorate] of the detail page leaves the block without a
    recommendations node. *)
Theorem recommendations_first_five_candidates
    (allProducts : list (Product num)) (cartData : Cart.CartData num)
    (current : Product num) (isAuthor isLegacy : bool) :
  (exists recs,
      first_matches (cart_candidate cartData) 5 allProducts recs /\
      List.length recs <= 5 /\
      Cart.buildRecommendations allProducts cartData isAuthor isLegacy =
        section_for "cart-recommendations"
          (map (fun p => Cart.buildRecommendationCard p isAuthor isLegacy) recs)) /\
  (exists recs,
      first_matches (detail_candidate current) 5 allProducts recs /\
      List.length recs <= 5 /\
      ProductDetail.buildRecommendations current allProducts isAuthor isLegacy =
        section_for "pd-recommendations"
          (map (fun p => ProductDetail.buildRecommendationCard p isAuthor isLegacy)
               recs)) /\
  ((forall p, In p allProducts -> ~ cart_candidate cartData p) ->
   Cart.buildRecommendations allProducts cartData isAuthor isLegacy = None /\
   forall folderHref w section,
     In section
        (cart_sections (Cart.onDataLayerUpdated folderHref allProducts isAuthor
                          isLegacy (Some cartData) w)) ->
     In section (cart_sections w)) /\
  ((forall p, In p allProducts -> ~ detail_candidate current p) ->
   ProductDetail.buildRecommendations current allProducts isAuthor isLegacy
     = None) /\
  (forall folderHref fetch (w : Cart.World num),
      (forall a l p, In p (Cart.fetchAllProducts fetch folderHref a l) ->
                     ~ cart_candidate (Cart.read_cart w) p) ->
      cart_sections (fst (Cart.decorate folderHref fetch w)) = []) /\
  (forall folderHref sku fetchDetail fetchList
          (w : ProductDetail.World num) section,
      (forall a l cur p,
          ProductDetail.fetchProductDetail fetchDetail folderHref
            (Js.or_empty sku) a l = Some cur ->
          In p (ProductDetail.fetchAllProducts fetchList folderHref a l) ->
          ~ detail_candidate cur p) ->
      ~ In (ProductDetail.Recommendations section)
           (ProductDetail.block
              (ProductDetail.decorate folderHref sku fetchDetail fetchList w))).
Proof.
  split.
  { destruct (cart_buildRecommendations_spec allProducts cartData isAuthor isLegacy)
      as (recs & Hfm & Hb).
    exists recs. split; [exact Hfm|]. split; [|exact Hb].
    exact (first_matches_length _ _ _ _ Hfm). }
  split.
  { destruct (detail_buildRecommendations_spec current allProducts isAuthor isLegacy)
      as (recs & Hfm & Hb).
    exists recs. split; [exact Hfm|]. split; [|exact Hb].
    exact (first_matches_length _ _ _ _ Hfm). }
  split.
  { intros Hno.
    pose proof (cart_buildRecommendations_none _ _ isAuthor isLegacy Hno) as Hnone.
    split; [exact Hnone|].
    intros folderHref w section. unfold Cart.onDataLayerUpdated.
    destruct (Js.truthy folderHref && (0 <? List.length allProducts)%nat).
    - rewrite cart_recommendations_handlers.
      destruct (Cart.cart_recommendations (Cart.block w)) as [container|] eqn:Hc.
      + rewrite Hnone. unfold cart_sections. rewrite Hc. cbn.
        destruct container; simpl; auto.
      + unfold cart_sections.
        rewrite cart_recommendations_handlers, Hc. auto.
    - unfold cart_sections. rewrite cart_recommendations_handlers. auto. }
  split.
  { apply detail_buildRecommendations_none. }
  split.
  { intros folderHref fetch w Hno. unfold Cart.decorate.
    destruct (Js.truthy folderHref); unfold cart_sections; cbn [fst].
    - rewrite cart_buildRecommendations_none by apply Hno. reflexivity.
    - reflexivity. }
  intros folderHref sku fetchDetail fetchList w section Hno.
  unfold ProductDetail.decorate.
  destruct (negb (Js.truthy folderHref)).
  { simpl. intros [H|[]]. discriminate. }
  destruct (negb (Js.opt_truthy sku)).
  { simpl. intros [H|[]]. discriminate. }
  destruct (ProductDetail.fetchProductDetail _ _ _ _ _) as [cur|] eqn:Hcur.
  - rewrite detail_buildRecommendations_none by (intros p; apply (Hno _ _ _ _ Hcur)).
    unfold ProductDetail.buildProductDetail.
    destruct (ProductDetail.updateDataLayer_is_function w); simpl;
      intros [H|[]]; discriminate.
  - simpl. intros [H|[]]. discriminate.
Qed.

End RecommendationProperties.

(** The builders on the sample data: [plain] shares the category ["hats"]
    with the cart and is recommended, [tee] shares none. *)
Example sample_cart_recommendations :
  Cart.buildRecommendations [Sample.tee; Sample.plain] Sample.cart false false
  = Some (mkRecSection "cart-recommendations" "YOU MAY ALSO LIKE"
            [Cart.buildRecommendationCard Sample.plain false false]).
Proof. reflexivity. Qed.

Lemma recommendations_first_five_candidates_witness :
  (cart_candidate Sample.cart Sample.plain /\
   Cart.buildRecommendations [Sample.tee; Sample.plain] Sample.cart false false
   = Some (mkRecSection "cart-recommendations" "YOU MAY ALSO LIKE"
             [Cart.buildRecommendationCard Sample.plain false false])) /\
  (detail_candidate Sample.tee Sample.runner /\
   ProductDetail.buildRecommendations Sample.tee
     [Sample.tee; Sample.plain; Sample.runner] false false
   = Some (mkRecSection "pd-recommendations" "YOU MAY ALSO LIKE"
             [ProductDetail.buildRecommendationCard Sample.runner false false])) /\
  ((forall p, In p [Sample.tee] -> ~ cart_candidate Sample.cart p) /\
   Cart.buildRecommendations [Sample.tee] Sample.cart false false = None).
Proof.
  assert (Hplain : cart_candidate Sample.cart Sample.plain).
  { split.
    - intros [E|[E|[]]]; discriminate.
    - exists "hats". split.
      + exists "demo123:Hats". split; [now left|]. split; [reflexivity|discriminate].
      + exists Sample.itemB, "Hats". split; [right; now left|]. split.
        * exists "", "". auto.
        * split; [reflexivity|discriminate]. }
  assert (Hrunner : detail_candidate Sample.tee Sample.runner).
  { split; [discriminate|]. exists "running shoes". split.
    - exists "Running Shoes". split; [now left|]. split; [reflexivity|discriminate].
    - exists "demo123:Running Shoes". split; [now left|].
      split; [reflexivity|discriminate]. }
  assert (Htee : ~ cart_candidate Sample.cart Sample.tee).
  { intros Hc. apply cart_is_recommended_spec in Hc. vm_compute in Hc.
    discriminate. }
  assert (Hself : ~ detail_candidate Sample.tee Sample.tee).
  { intros (Hne & _). now apply Hne. }
  assert (Hother : ~ detail_candidate Sample.tee Sample.plain).
  { intros Hc. apply detail_is_recommended_spec in Hc. vm_compute in Hc.
    discriminate. }
  assert (H : forall p, In p [Sample.tee] -> ~ cart_candidate Sample.cart p).
  { intros p [<-|[]]. exact Htee. }
  split; [split; [exact Hplain|]|split; [split; [exact Hrunner|]|split; [exact H|]]].
  - destruct (recommendations_first_five_candidates [Sample.tee; Sample.plain]
                Sample.cart Sample.tee false false)
      as ((recs & Hfm & _ & Hb) & _).
    rewrite Hb.
    rewrite (first_matches_deterministic _ _ _ _ [Sample.plain] Hfm).
    + reflexivity.
    + apply fm_skip; [exact Htee|]. apply fm_take; [exact Hplain|]. constructor.
  - destruct (recommendations_first_five_candidates
                [Sample.tee; Sample.plain; Sample.runner]
                Sample.cart Sample.tee false false)
      as (_ & (recs & Hfm & _ & Hb) & _).
    rewrite Hb.
    rewrite (first_matches_deterministic _ _ _ _ [Sample.runner] Hfm).
    + reflexivity.
    + apply fm_skip; [exact Hself|]. apply fm_skip; [exact Hother|].
      apply fm_take; [exact Hrunner|]. constructor.
  - destruct (recommendations_first_five_candidates [Sample.tee] Sample.cart
                Sample.tee false false) as (_ & _ & Hcart & _).
    exact (proj1 (Hcart H)).
Defined.

(** ** More on the cart handlers *)

Section CartHandlerFacts.
Context {num : Type} {N : JsNumber num}.

Lemma obj_get_delete_other {A} (ps : list (string * A)) k k' :
  k' <> k -> obj_get (obj_delete ps k) k' = obj_get ps k'.
Proof.
  intros Hne. unfold obj_delete.
  induction ps as [|[k0 v] ps IH]; simpl; [reflexivity|].
  destruct (String.eqb k0 k) eqn:E0; simpl.
  - apply String.eqb_eq in E0. subst k0.
    destruct (String.eqb k k') eqn:E1; [|exact IH].
    apply String.eqb_eq in E1. congruence.
  - destruct (String.eqb k0 k'); [reflexivity|exact IH].
Qed.

Lemma obj_keys_delete {A} (ps : list (string * A)) k :
  obj_keys (obj_delete ps k)
  = filter (fun k' => negb (String.eqb k' k)) (obj_keys ps).
Proof.
  unfold obj_keys, obj_delete.
  induction ps as [|[k0 v] ps IH]; simpl; [reflexivity|].
  destruct (String.eqb k0 k); simpl; now rewrite IH.
Qed.

Lemma obj_get_update_other {A} (ps : list (string * A)) k k' f :
  k' <> k -> obj_get (obj_update ps k f) k' = obj_get ps k'.
Proof.
  intros Hne.
  induction ps as [|[k0 v] ps IH]; simpl; [reflexivity|].
  destruct (String.eqb k0 k) eqn:E0; simpl.
  - apply String.eqb_eq in E0. subst k0.
    destruct (String.eqb k k') eqn:E1; [|reflexivity].
    apply String.eqb_eq in E1. congruence.
  - destruct (String.eqb k0 k'); [reflexivity|exact IH].
Qed.

Lemma obj_delete_update {A} (ps : list (string * A)) k f :
  obj_delete (obj_update ps k f) k = obj_delete ps k.
Proof.
  unfold obj_delete.
  induction ps as [|[k0 v] ps IH]; simpl; [reflexivity|].
  destruct (String.eqb k0 k) eqn:E0; simpl; rewrite E0; simpl;
    [reflexivity|now rewrite IH].
Qed.

(** X1. [removeFromCart] removes exactly the product it is given: in the
    store's cart afterwards that id has no line item, every other id has
    the line item it had, and the remaining ids keep their order. *)
Theorem removeFromCart_removes_only_that_product
    (productId : string) (w : Cart.World num) (p : Cart.LineItem num) :
  Cart.updateDataLayer_defined w = true ->
  obj_get (Cart.products (Cart.read_cart w)) productId = Some p ->
  let before := Cart.products (Cart.read_cart w) in
  let after := Cart.products (Cart.read_cart (Cart.removeFromCart productId w)) in
  obj_get after productId = None /\
  (forall k, k <> productId -> obj_get after k = obj_get before k) /\
  obj_keys after
    = filter (fun k => negb (String.eqb k productId)) (obj_keys before).
Proof.
  intros Hdef Hget. cbv zeta.
  rewrite (read_cart_stored _ _ (removeFromCart_store _ _ _ Hdef Hget)).
  cbn [Cart.products Cart.recalculate].
  split; [apply obj_get_delete_same|].
  split; [intros k Hk; now apply obj_get_delete_other|apply obj_keys_delete].
Qed.

(** X2. [updateQuantity] with a quantity that parses to an integer
    [q >= 1] changes one line item only, however the handler finishes: in
    the cart the store holds afterwards that item has quantity [q] and
    [subTotal = total = q * price] and keeps its id, name, image, category
    and price; every other id keeps its line item, and the order of the ids
    is unchanged.  The handler finishes normally when the product id is
    safe in a selector. *)
Theorem updateQuantity_changes_only_that_line
    (productId : string) (newQuantity : Cart.QuantityArg) (q : Z)
    (w : Cart.World num) (p : Cart.LineItem num) :
  Cart.updateDataLayer_defined w = true ->
  obj_get (Cart.products (Cart.read_cart w)) productId = Some p ->
  Js.parseInt10 (Cart.arg_to_string newQuantity) = Some q ->
  (1 <= q)%Z ->
  let w' := completion_world (Cart.updateQuantity productId newQuantity w) in
  let before := Cart.products (Cart.read_cart w) in
  let after := Cart.products (Cart.read_cart w') in
  obj_get after productId =
    Some (Cart.mkLineItem (Cart.li_id p) (Cart.li_name p) (Cart.li_image p)
            (Cart.li_category p) (num_of_Z q) (Cart.li_price p)
            (num_mul (num_of_Z q) (Cart.li_price p))
            (num_mul (num_of_Z q) (Cart.li_price p))) /\
  (forall k, k <> productId -> obj_get after k = obj_get before k) /\
  obj_keys after = obj_keys before /\
  (Cart.selector_safe productId = true ->
   Cart.updateQuantity productId newQuantity w = Cart.Normal w').
Proof.
  intros Hdef Hget Hq Hge.
  assert (Hlt : num_lt (Cart.parseInt newQuantity) (num_of_Z 1) = false).
  { rewrite (parseInt_int _ _ Hq), num_lt_int_one.
    destruct (Z.ltb_spec q 1); [lia|reflexivity]. }
  destruct (updateQuantity_store _ _ _ _ Hlt Hdef Hget)
    as (Hs & _ & _ & _ & Hnormal).
  cbv zeta.
  rewrite (read_cart_stored _ _ Hs), (parseInt_int _ _ Hq).
  cbn [Cart.products Cart.recalculate].
  split; [exact (obj_get_update_same _ _ (Cart.set_quantity (num_of_Z q)) _ Hget)|].
  split; [intros k Hk; now apply obj_get_update_other|].
  split; [apply obj_keys_update|exact Hnormal].
Qed.

Lemma object_prototype_removeFromCart productId (w : Cart.World num) :
  Cart.object_prototype (Cart.removeFromCart productId w)
  = Cart.object_prototype w.
Proof.
  unfold Cart.removeFromCart.
  destruct (Cart.lookup_truthy _); [|reflexivity].
  unfold Cart.updateCartTotals, Cart.renderCartItems.
  destruct (Cart.updateDataLayer_defined w); cbn;
    destruct (Cart.cart_items (Cart.block w)); reflexivity.
Qed.

(** What [removeFromCart] leaves in the store, in every case. *)
Lemma removeFromCart_dataLayer productId (w : Cart.World num) :
  Cart.dataLayer_cart (Cart.removeFromCart productId w) =
    if Cart.lookup_truthy
         (Cart.lookup_product w (Cart.products (Cart.read_cart w)) productId)
       && Cart.updateDataLayer_defined w
    then Some (Cart.recalculate
                 (obj_delete (Cart.products (Cart.read_cart w)) productId))
    else Cart.dataLayer_cart w.
Proof.
  unfold Cart.removeFromCart.
  destruct (Cart.lookup_truthy _); [|reflexivity].
  change (Cart.dataLayer_cart (Cart.updateCartTotals ?c ?x))
    with (Cart.dataLayer_cart x).
  rewrite dataLayer_cart_renderCartItems.
  destruct (Cart.updateDataLayer_defined w); reflexivity.
Qed.

(** X3. With the data layer's update function installed, and for a product
    id that is not the name of a property of [Object.prototype],
    [removeFromCart] is idempotent on the whole world: a second removal of
    the same id writes nothing, logs nothing and renders nothing. *)
Theorem removeFromCart_idempotent (productId : string) (w : Cart.World num) :
  Cart.updateDataLayer_defined w = true ->
  obj_get (Cart.object_prototype w) productId = None ->
  Cart.removeFromCart productId (Cart.removeFromCart productId w)
  = Cart.removeFromCart productId w.
Proof.
  intros Hdef Hproto.
  destruct (obj_get (Cart.products (Cart.read_cart w)) productId) as [p|] eqn:Hget.
  - apply removeFromCart_missing.
    + rewrite (read_cart_stored _ _ (removeFromCart_store _ _ _ Hdef Hget)).
      apply obj_get_delete_same.
    + now rewrite object_prototype_removeFromCart.
  - now rewrite !(removeFromCart_missing _ _ Hget Hproto).
Qed.

(** X4. Changing the quantity of a product and then removing it leaves the
    same cart in the store as removing it at once, however the quantity
    change finished. *)
Theorem remove_after_updateQuantity
    (productId : string) (newQuantity : Cart.QuantityArg)
    (w : Cart.World num) (p : Cart.LineItem num) :
  Cart.updateDataLayer_defined w = true ->
  obj_get (Cart.products (Cart.read_cart w)) productId = Some p ->
  let w1 := completion_world (Cart.updateQuantity productId newQuantity w) in
  Cart.dataLayer_cart (Cart.removeFromCart productId w1)
  = Cart.dataLayer_cart (Cart.removeFromCart productId w).
Proof.
  intros Hdef Hget. cbv zeta.
  destruct (num_lt (Cart.parseInt newQuantity) (num_of_Z 1)) eqn:Hlt.
  - unfold Cart.updateQuantity. rewrite Hlt. cbn [completion_world].
    pose proof (removeFromCart_store _ _ _ Hdef Hget) as Hs.
    rewrite (removeFromCart_dataLayer productId
               (Cart.removeFromCart productId w)).
    rewrite (read_cart_stored _ _ Hs). cbn [Cart.products Cart.recalculate].
    rewrite (obj_delete_absent _ _ (obj_get_delete_same _ productId)).
    now destruct (_ && _).
  - destruct (updateQuantity_store _ _ _ _ Hlt Hdef Hget)
      as (Hs & _ & Hd & _ & _).
    set (w1 := completion_world (Cart.updateQuantity productId newQuantity w))
      in *.
    assert (Hdef1 : Cart.updateDataLayer_defined w1 = true) by congruence.
    assert (Hget1 : obj_get (Cart.products (Cart.read_cart w1)) productId
                    = Some (Cart.set_quantity (Cart.parseInt newQuantity) p)).
    { rewrite (read_cart_stored _ _ Hs). cbn [Cart.products Cart.recalculate].
      apply (obj_get_update_same _ _ _ _ Hget). }
    rewrite (removeFromCart_store _ _ _ Hdef1 Hget1),
            (removeFromCart_store _ _ _ Hdef Hget).
    rewrite (read_cart_stored _ _ Hs). cbn [Cart.products Cart.recalculate].
    now rewrite obj_delete_update.
Qed.

Lemma trace_extends_trans (w w1 w2 : Cart.World num) e1 e2 :
  trace_extends w w1 e1 -> trace_extends w1 w2 e2 ->
  trace_extends w w2 (e1 ++ e2).
Proof.
  unfold trace_extends. intros H1 H2. now rewrite H2, H1, app_assoc.
Qed.

Lemma store_writes_app (e1 e2 : list (Cart.Event num)) :
  store_writes (e1 ++ e2) = store_writes e1 ++ store_writes e2.
Proof.
  induction e1 as [|[] e1 IH]; simpl; now rewrite ?IH.
Qed.

Lemma renderCartItems_trace c (w : Cart.World num) :
  exists events,
    trace_extends w (Cart.renderCartItems c w) events /\
    store_writes events = [].
Proof.
  unfold Cart.renderCartItems, trace_extends. cbn.
  destruct (Cart.cart_items (Cart.block w)); cbn.
  - exists [Cart.RenderCartItems c]. auto.
  - exists [Cart.RenderCartItems c;
            Cart.ConsoleError "Cart items container (.cart-items) not found in DOM"].
    split; [now rewrite <- app_assoc|reflexivity].
Qed.

(** The events of one [removeFromCart]. *)
Lemma removeFromCart_trace productId (w : Cart.World num) :
  exists events,
    trace_extends w (Cart.removeFromCart productId w) events /\
    (store_writes events = [] /\
     Cart.dataLayer_cart (Cart.removeFromCart productId w) = Cart.dataLayer_cart w
     \/
     exists c, store_writes events = [(c, false)] /\
               Cart.dataLayer_cart (Cart.removeFromCart productId w) = Some c).
Proof.
  pose proof (removeFromCart_dataLayer productId w) as Hstore.
  unfold Cart.removeFromCart in *.
  destruct (Cart.lookup_truthy _).
  - set (c := Cart.recalculate _) in *.
    destruct (Cart.updateDataLayer_defined w) eqn:Hdef.
    + destruct (renderCartItems_trace c
                  (Cart.emit (Cart.ConsoleLog
                     ("Removed product " ++ productId ++ " from cart. New cart:"))
                     (Cart.updateDataLayer_replace_cart c w)))
        as (ev & Hev & Hw).
      eexists. split.
      * eapply trace_extends_trans; [|reflexivity].
        eapply trace_extends_trans; [|exact Hev].
        unfold trace_extends. cbn. rewrite <- app_assoc. reflexivity.
      * right. exists c. split; [|exact Hstore].
        rewrite !store_writes_app, Hw. reflexivity.
    + destruct (renderCartItems_trace c
                  (Cart.emit (Cart.ConsoleError "updateDataLayer not available") w))
        as (ev & Hev & Hw).
      eexists. split.
      * eapply trace_extends_trans; [|reflexivity].
        eapply trace_extends_trans; [|exact Hev].
        unfold trace_extends. cbn. reflexivity.
      * left. split; [|exact Hstore].
        rewrite !store_writes_app, Hw. reflexivity.
  - exists []. split; [unfold trace_extends; now rewrite app_nil_r|auto].
Qed.

(** [updateQuantity] from the recalculation on: without the update
    function nothing happens before the TypeError; with it the recomputed
    cart is written once and shown in the totals. *)
Lemma store_and_patch_effect productId ps subTotal' (w : Cart.World num) :
  let w' := completion_world (Cart.store_and_patch productId ps subTotal' w) in
  (Cart.dataLayer_cart w' = Cart.dataLayer_cart w /\ Cart.trace w' = Cart.trace w)
  \/
  (Cart.dataLayer_cart w' = Some (Cart.recalculate ps) /\
   Cart.trace w'
   = Cart.trace w ++ [Cart.UpdateDataLayer (Cart.recalculate ps) false;
                      Cart.UpdateCartTotals (Cart.recalculate ps)]).
Proof.
  cbv zeta. destruct (Cart.updateDataLayer_defined w) eqn:Hdef.
  - right. destruct (store_and_patch_world productId ps subTotal' w Hdef)
      as (b & -> & _).
    split; [reflexivity|]. simpl. now rewrite <- app_assoc.
  - left. unfold Cart.store_and_patch. rewrite Hdef. auto.
Qed.

(** What one [updateQuantity] that does not delegate to [removeFromCart]
    does to the store and the trace: nothing, or one write of a cart with
    the keys it had. *)
Lemma updateQuantity_effect productId newQuantity (w : Cart.World num) :
  num_lt (Cart.parseInt newQuantity) (num_of_Z 1) = false ->
  let w' := completion_world (Cart.updateQuantity productId newQuantity w) in
  (Cart.dataLayer_cart w' = Cart.dataLayer_cart w /\ Cart.trace w' = Cart.trace w)
  \/
  exists c,
    obj_keys (Cart.products c) = obj_keys (Cart.products (Cart.read_cart w)) /\
    Cart.dataLayer_cart w' = Some c /\
    Cart.trace w'
    = Cart.trace w ++ [Cart.UpdateDataLayer c false; Cart.UpdateCartTotals c] /\
    aggregates_exact c.
Proof.
  intros Hlt. cbv zeta. unfold Cart.updateQuantity. rewrite Hlt.
  destruct (Cart.lookup_product _ _ _) as [p|[| |n]|].
  - destruct (store_and_patch_effect productId
                (obj_update (Cart.products (Cart.read_cart w)) productId
                   (Cart.set_quantity (Cart.parseInt newQuantity)))
                (Cart.li_subTotal
                   (Cart.set_quantity (Cart.parseInt newQuantity) p)) w)
      as [H|[H1 H2]]; [left; exact H|].
    right. eexists. split; [|split; [exact H1|split; [exact H2|]]].
    + apply obj_keys_update.
    + apply recalculate_aggregates.
  - destruct (store_and_patch_effect productId
                (Cart.products (Cart.read_cart w))
                (num_mul (Cart.parseInt newQuantity)
                   (Cart.inherited_price (Cart.object_prototype w))) w)
      as [H|[H1 H2]]; [left; exact H|].
    right. eexists. split; [|split; [exact H1|split; [exact H2|]]].
    + reflexivity.
    + apply recalculate_aggregates.
  - destruct (Cart.assign_on_prototype _ _) as [proto subTotal'].
    destruct (store_and_patch_effect productId
                (Cart.products (Cart.read_cart w)) subTotal'
                (Cart.set_prototype proto w))
      as [H|[H1 H2]]; [left; exact H|].
    right. eexists. split; [|split; [exact H1|split; [exact H2|]]].
    + reflexivity.
    + apply recalculate_aggregates.
  - left. destruct (num_truthy n); auto.
  - left. auto.
Qed.

(** X5. Whatever the environment, one user action extends the trace by
    events that contain at most one store write; a write always passes
    [merge = false], and the cart it writes is the cart the store holds
    afterwards.  Without a write the store's cart is untouched. *)
Theorem handlers_write_store_at_most_once (a : Action) (w : Cart.World num) :
  let w' := completion_world (act a w) in
  exists events,
    trace_extends w w' events /\
    (store_writes events = [] /\ Cart.dataLayer_cart w' = Cart.dataLayer_cart w
     \/
     exists c, store_writes events = [(c, false)] /\
               Cart.dataLayer_cart w' = Some c).
Proof.
  cbv zeta. destruct a as [productId|productId newQuantity]; simpl.
  - apply removeFromCart_trace.
  - destruct (num_lt (Cart.parseInt newQuantity) (num_of_Z 1)) eqn:Hlt.
    + unfold Cart.updateQuantity. rewrite Hlt. apply removeFromCart_trace.
    + destruct (updateQuantity_effect productId newQuantity w Hlt)
        as [[Hs Ht]|(c & _ & Hs & Ht & _)].
      * exists []. split; [unfold trace_extends; now rewrite app_nil_r|auto].
      * eexists. split; [exact Ht|]. right. exists c. auto.
Qed.

Lemma keys_after_act (a : Action) (w : Cart.World num) :
  incl (obj_keys (Cart.products (Cart.read_cart (completion_world (act a w)))))
       (obj_keys (Cart.products (Cart.read_cart w))).
Proof.
  assert (Hremove : forall productId,
             incl (obj_keys (Cart.products
                               (Cart.read_cart (Cart.removeFromCart productId w))))
                  (obj_keys (Cart.products (Cart.read_cart w)))).
  { intros productId.
    unfold Cart.read_cart at 1, Cart.getDataLayerProperty_cart.
    rewrite removeFromCart_dataLayer.
    destruct (_ && _); [|apply incl_refl].
    cbn [Cart.products Cart.recalculate]. rewrite obj_keys_delete.
    apply incl_filter. }
  destruct a as [productId|productId newQuantity]; simpl; [apply Hremove|].
  destruct (num_lt (Cart.parseInt newQuantity) (num_of_Z 1)) eqn:Hlt.
  - unfold Cart.updateQuantity. rewrite Hlt. apply Hremove.
  - destruct (updateQuantity_effect productId newQuantity w Hlt)
      as [[Hs _]|(c & Hk & Hs & _ & _)].
    + unfold Cart.read_cart, Cart.getDataLayerProperty_cart. rewrite Hs.
      apply incl_refl.
    + rewrite (read_cart_stored _ _ Hs), Hk. apply incl_refl.
Qed.

(** X6. The handlers never add a product: after any session, in any
    environment and however it ends, every id in the store's cart was in
    the cart the session started from. *)
Theorem session_never_adds_products (actions : list Action) (w : Cart.World num) :
  incl (obj_keys (Cart.products
                    (Cart.read_cart (completion_world (session actions w)))))
       (obj_keys (Cart.products (Cart.read_cart w))).
Proof.
  revert w. induction actions as [|a actions IH]; intros w; simpl.
  - apply incl_refl.
  - pose proof (keys_after_act a w) as Hact.
    destruct (act a w) as [w'|error w']; simpl in *.
    + eapply incl_tran; [apply IH|exact Hact].
    + exact Hact.
Qed.

End CartHandlerFacts.

Lemma removeFromCart_removes_only_that_product_witness :
  obj_get (Cart.products (Cart.read_cart (Cart.removeFromCart "A" Sample.world)))
          "A" = None /\
  obj_keys (Cart.products (Cart.read_cart (Cart.removeFromCart "A" Sample.world)))
  = ["B"].
Proof.
  destruct (removeFromCart_removes_only_that_product "A" Sample.world
              Sample.itemA eq_refl eq_refl) as (Hgone & _ & Hkeys).
  exact (conj Hgone Hkeys).
Defined.

Lemma updateQuantity_changes_only_that_line_witness :
  let w' := completion_world
              (Cart.updateQuantity "B" (Cart.QString "3") Sample.world) in
  Cart.updateQuantity "B" (Cart.QString "3") Sample.world = Cart.Normal w' /\
  obj_keys (Cart.products (Cart.read_cart w')) = ["A"; "B"] /\
  obj_get (Cart.products (Cart.read_cart w')) "A" = Some Sample.itemA.
Proof.
  destruct (updateQuantity_changes_only_that_line "B" (Cart.QString "3") 3
              Sample.world Sample.itemB eq_refl eq_refl eq_refl)
    as (_ & Hothers & Hkeys & Hnormal); [lia|].
  split; [apply Hnormal; reflexivity|]. split; [exact Hkeys|].
  rewrite Hothers; [reflexivity|discriminate].
Defined.

Lemma removeFromCart_idempotent_witness :
  Cart.removeFromCart "A" (Cart.removeFromCart "A" Sample.world)
  = Cart.removeFromCart "A" Sample.world.
Proof. exact (removeFromCart_idempotent "A" Sample.world eq_refl eq_refl). Defined.

Lemma remove_after_updateQuantity_witness :
  Cart.dataLayer_cart
    (Cart.removeFromCart "A"
       (completion_world
          (Cart.updateQuantity "A" (Cart.QString "7") Sample.world)))
  = Cart.dataLayer_cart (Cart.removeFromCart "A" Sample.world).
Proof.
  exact (remove_after_updateQuantity "A" (Cart.QString "7") Sample.world
           Sample.itemA eq_refl eq_refl).
Defined.

(** ** Integer quantities *)

(** X7. A number that holds a safe integer is parsed to itself, so
    [updateQuantity] with any such integer below 1 - not only 0 and -1 -
    does exactly what [removeFromCart] does. *)
Theorem updateQuantity_integer_below_one
    {num : Type} {N : JsNumber num}
    (productId : string) (z : Z) (w : Cart.World num) :
  safe_integer z ->
  (z < 1)%Z ->
  Cart.parseInt (Cart.QInt z) = num_of_Z (num:=num) z /\
  Cart.updateQuantity productId (Cart.QInt z) w
  = Cart.Normal (Cart.removeFromCart productId w).
Proof.
  intros Hsafe Hz. split.
  - apply parseInt_int. apply (parseInt10_safe_integer _ Hsafe).
  - apply (updateQuantity_below_one _ (Cart.QInt z) z); [|exact Hz].
    apply (parseInt10_safe_integer _ Hsafe).
Qed.

Lemma updateQuantity_integer_below_one_witness :
  Cart.updateQuantity "A" (Cart.QInt (-7)) Sample.world
  = Cart.Normal (Cart.removeFromCart "A" Sample.world).
Proof.
  apply (updateQuantity_integer_below_one "A" (-7) Sample.world).
  - unfold safe_integer. simpl. lia.
  - lia.
Defined.

(** ** Not-a-number quantities and the checkout *)

Section NanFacts.
Context {num : Type} {N : JsNumber num} {A : NanAbsorbing num}.

Lemma fold_sum_nan (f : Cart.LineItem num -> num) items :
  fold_left (fun sum p => num_add sum (f p)) items num_nan = num_nan.
Proof.
  induction items as [|p items IH]; simpl; [reflexivity|].
  now rewrite num_add_nan_l.
Qed.

Lemma fold_sum_nan_item (f : Cart.LineItem num -> num) items p :
  In p items -> f p = num_nan ->
  forall acc, fold_left (fun sum p => num_add sum (f p)) items acc = num_nan.
Proof.
  intros Hin Hp.
  induction items as [|p0 items IH]; [destruct Hin|].
  intros acc. simpl. destruct Hin as [->|Hin].
  - rewrite Hp, num_add_nan_r. apply fold_sum_nan.
  - apply IH, Hin.
Qed.

Lemma In_values_update {B} (ps : list (string * B)) k f p :
  obj_get ps k = Some p -> In (f p) (obj_values (obj_update ps k f)).
Proof.
  unfold obj_values.
  induction ps as [|[k0 v] ps IH]; simpl; [discriminate|].
  destruct (String.eqb k0 k); simpl.
  - intros [= ->]. now left.
  - intros H. right. apply IH, H.
Qed.

(** X8. A quantity that does not parse (the cleared input gives [""]) does
    more than corrupt one line, however the handler finishes: the cart
    written to the store has NaN as [productCount], [subTotal] and [total],
    the totals display falls back to [formatPrice(0)], and [handleCheckout]
    refuses with "Your cart is empty" although the cart still holds its
    products. *)
Theorem non_numeric_quantity_poisons_cart
    (productId : string) (newQuantity : Cart.QuantityArg) (pathname : string)
    (w : Cart.World num) (p : Cart.LineItem num) :
  Cart.updateDataLayer_defined w = true ->
  obj_get (Cart.products (Cart.read_cart w)) productId = Some p ->
  Js.parseInt10 (Cart.arg_to_string newQuantity) = None ->
  let w' := completion_world (Cart.updateQuantity productId newQuantity w) in
  exists c',
    Cart.dataLayer_cart w' = Some c' /\
    Cart.productCount c' = num_nan /\
    Cart.subTotal c' = num_nan /\
    Cart.total c' = num_nan /\
    obj_keys (Cart.products c') = obj_keys (Cart.products (Cart.read_cart w)) /\
    Cart.cart_subtotal_value (Cart.block w')
    = option_map (fun _ => Cart.formatPrice (num_of_Z 0))
                 (Cart.cart_subtotal_value (Cart.block w)) /\
    Cart.cart_total_value (Cart.block w')
    = option_map (fun _ => Cart.formatPrice (num_of_Z 0))
                 (Cart.cart_total_value (Cart.block w)) /\
    Cart.handleCheckout pathname w' = Cart.Alert "Your cart is empty".
Proof.
  intros Hdef Hget Hnan.
  assert (Hlt : num_lt (Cart.parseInt newQuantity) (num_of_Z 1) = false).
  { rewrite (parseInt_nan _ Hnan). apply num_lt_nan_l. }
  destruct (updateQuantity_world _ _ _ _ Hlt Hdef Hget) as [(b & Hw & Hb) _].
  cbv zeta. rewrite Hw. clear Hw. rewrite (parseInt_nan _ Hnan) in *.
  set (ps := obj_update (Cart.products (Cart.read_cart w)) productId
                        (Cart.set_quantity num_nan)) in *.
  assert (Hin : In (Cart.set_quantity num_nan p) (obj_values ps))
    by apply (In_values_update _ _ _ _ Hget).
  assert (Hcount : Cart.sum_quantity (obj_values ps) = num_nan).
  { apply (fold_sum_nan_item _ _ _ Hin). reflexivity. }
  assert (Hsub : Cart.sum_subTotal (obj_values ps) = num_nan).
  { apply (fold_sum_nan_item _ _ _ Hin). apply num_mul_nan_l. }
  exists (Cart.recalculate ps).
  split; [reflexivity|].
  cbn [Cart.recalculate Cart.productCount Cart.subTotal Cart.total Cart.products].
  split; [exact Hcount|]. split; [exact Hsub|]. split; [exact Hsub|].
  split; [apply obj_keys_update|].
  assert (Hcells :
            Cart.cart_subtotal_value b
            = Cart.cart_subtotal_value
                (Cart.updateCartTotals_dom (Cart.block w) (Cart.recalculate ps))
            /\
            Cart.cart_total_value b
            = Cart.cart_total_value
                (Cart.updateCartTotals_dom (Cart.block w) (Cart.recalculate ps))).
  { split.
    - exact (f_equal (fun x => Cart.cart_subtotal_value x) Hb).
    - exact (f_equal (fun x => Cart.cart_total_value x) Hb). }
  destruct Hcells as [Hc1 Hc2].
  cbn [Cart.block Cart.set_block]. rewrite Hc1, Hc2.
  cbn. rewrite Hsub, Hcount. unfold num_or. rewrite num_truthy_nan.
  repeat split;
    try (destruct (Cart.cart_subtotal_value (Cart.block w)); reflexivity);
    try (destruct (Cart.cart_total_value (Cart.block w)); reflexivity).
Qed.

End NanFacts.

Lemma non_numeric_quantity_poisons_cart_witness :
  let w' := completion_world
              (Cart.updateQuantity "B" (Cart.QString "") Sample.world) in
  exists c',
    Cart.dataLayer_cart w' = Some c' /\
    Cart.productCount c' = XNaN /\
    obj_keys (Cart.products c') = ["A"; "B"] /\
    Cart.handleCheckout "/us/en/cart" w' = Cart.Alert "Your cart is empty".
Proof.
  destruct (non_numeric_quantity_poisons_cart "B" (Cart.QString "")
              "/us/en/cart" Sample.world Sample.itemB eq_refl eq_refl eq_refl)
    as (c' & Hs & Hc & _ & _ & Hk & _ & _ & Ha).
  exists c'. exact (conj Hs (conj Hc (conj Hk Ha))).
Defined.

Section CheckoutFacts.
Context {num : Type} {N : JsNumber num}.

Lemma lastIndexOf_slash_free leaf i last :
  slash_free leaf = true -> Js.lastIndexOf_from "/" leaf i last = last.
Proof.
  revert i last. induction leaf as [|c leaf IH]; intros i last; simpl;
    [reflexivity|].
  destruct (Ascii.eqb c "/"); simpl; [discriminate|]. apply IH.
Qed.

Lemma lastIndexOf_dir dir leaf i last :
  slash_free leaf = true ->
  Js.lastIndexOf_from "/" (dir ++ String "/" leaf) i last
  = Some (i + String.length dir).
Proof.
  intros Hleaf. revert i last.
  induction dir as [|c dir IH]; intros i last; simpl.
  - rewrite (lastIndexOf_slash_free _ _ _ Hleaf). f_equal. lia.
  - rewrite IH. f_equal. lia.
Qed.

Lemma substring_prefix a b :
  String.substring 0 (String.length a) (a ++ b) = a.
Proof.
  induction a as [|c a IH]; simpl; [now destruct b|now rewrite IH].
Qed.

(** X9. Removing the only product of the cart blocks the checkout: the
    store then holds a cart with [productCount = 0], and [handleCheckout]
    answers with the alert instead of navigating. *)
Theorem removing_last_product_blocks_checkout
    (productId pathname : string) (w : Cart.World num) (p : Cart.LineItem num) :
  Cart.updateDataLayer_defined w = true ->
  Cart.products (Cart.read_cart w) = [(productId, p)] ->
  Cart.handleCheckout pathname (Cart.removeFromCart productId w)
  = Cart.Alert "Your cart is empty".
Proof.
  intros Hdef Hps.
  assert (Hget : obj_get (Cart.products (Cart.read_cart w)) productId = Some p).
  { rewrite Hps. simpl. now rewrite String.eqb_refl. }
  unfold Cart.handleCheckout, Cart.getDataLayerProperty_cart.
  rewrite (removeFromCart_store _ _ _ Hdef Hget), Hps.
  unfold obj_delete. simpl. rewrite String.eqb_refl. simpl.
  unfold Cart.sum_quantity. simpl. now rewrite num_truthy_int.
Qed.

(** X10. With products in the cart ([productCount] truthy),
    [handleCheckout] navigates to the sibling [checkout] of the current
    page: for the path [dir/leaf] it assigns [dir/checkout]. *)
Theorem checkout_navigates_to_sibling
    (dir leaf : string) (w : Cart.World num) (c : Cart.CartData num) :
  Cart.dataLayer_cart w = Some c ->
  num_truthy (Cart.productCount c) = true ->
  slash_free leaf = true ->
  Cart.handleCheckout (dir ++ String "/" leaf) w
  = Cart.NavigateTo (dir ++ "/checkout").
Proof.
  intros Hc Hcount Hleaf.
  unfold Cart.handleCheckout, Cart.getDataLayerProperty_cart.
  rewrite Hc, Hcount. simpl.
  unfold Js.lastIndexOf, Js.substring_to.
  rewrite (lastIndexOf_dir _ _ _ _ Hleaf). simpl.
  now rewrite substring_prefix.
Qed.

End CheckoutFacts.

Lemma removing_last_product_blocks_checkout_witness :
  Cart.handleCheckout "/us/en/cart"
    (Cart.removeFromCart "B"
       (Cart.mkWorld (Some (Cart.recalculate [("B", Sample.itemB)])) true false
                     Cart.standard_prototype Sample.refusing Sample.block []))
  = Cart.Alert "Your cart is empty".
Proof.
  exact (removing_last_product_blocks_checkout "B" "/us/en/cart"
           (Cart.mkWorld (Some (Cart.recalculate [("B", Sample.itemB)])) true
                         false Cart.standard_prototype Sample.refusing
                         Sample.block [])
           Sample.itemB eq_refl eq_refl).
Defined.

Lemma checkout_navigates_to_sibling_witness :
  Cart.handleCheckout "/us/en/cart" Sample.world
  = Cart.NavigateTo "/us/en/checkout".
Proof.
  exact (checkout_navigates_to_sibling "/us/en" "cart" Sample.world Sample.cart
           eq_refl eq_refl eq_refl).
Defined.

(** ** Rendering *)

Section RenderingFacts.
Context {num : Type} {N : JsNumber num}.

Lemma item_rows_map (f : Cart.LineItem num -> Cart.CartItemRow num) items :
  item_rows (map (fun p => Cart.ItemRow (f p)) items) = map f items.
Proof. induction items as [|p items IH]; simpl; now rewrite ?IH. Qed.

Lemma no_markers_in_rows (f : Cart.LineItem num -> Cart.CartItemRow num) items :
  empty_states (map (fun p => Cart.ItemRow (f p)) items) = 0 /\
  header_rows (map (fun p => Cart.ItemRow (f p)) items) = 0.
Proof.
  unfold empty_states, header_rows.
  induction items as [|p items [IH1 IH2]]; simpl; auto.
Qed.

(** X11. What [renderCartItems] puts into an existing [.cart-items]
    container: for an empty cart exactly one empty-state panel, no header
    and no row; otherwise exactly one header and one row per line item, in
    the order of the line items, each carrying its line item's id.  The
    three markers follow: the summary is hidden and both empty-state
    classes are set exactly when the cart is empty. *)
Theorem rendered_list_structure
    (isAuthor : bool) (b : Cart.CartBlock num) (cartData : Cart.CartData num)
    (old : list (Cart.ItemsChild num)) :
  Cart.cart_items b = Some old ->
  let items := obj_values (Cart.products cartData) in
  let isEmpty := (List.length items =? 0)%nat in
  let b' := Cart.renderCartItems_dom isAuthor b cartData in
  exists children,
    Cart.cart_items b' = Some children /\
    item_rows children = map (fun p => Cart.buildCartItem p isAuthor) items /\
    map Cart.row_product_id (item_rows children) = map Cart.li_id items /\
    empty_states children = (if isEmpty then 1 else 0) /\
    header_rows children = (if isEmpty then 0 else 1) /\
    List.length children = (if isEmpty then 1 else S (List.length items)) /\
    Cart.cart_summary_display b'
      = option_map (fun _ => if isEmpty then "none" else "block")
                   (Cart.cart_summary_display b) /\
    Cart.cart_main_empty_state b'
      = option_map (fun _ => isEmpty) (Cart.cart_main_empty_state b) /\
    Cart.cart_content_is_empty b'
      = option_map (fun _ => isEmpty) (Cart.cart_content_is_empty b).
Proof.
  intros Hold. cbv zeta. unfold Cart.renderCartItems_dom. rewrite Hold.
  cbn [Cart.cart_items Cart.cart_summary_display Cart.cart_main_empty_state
       Cart.cart_content_is_empty].
  eexists. split; [reflexivity|].
  destruct (obj_values (Cart.products cartData)) as [|p items] eqn:Hitems.
  - simpl. repeat split;
      try (destruct (Cart.cart_summary_display b); reflexivity);
      try (destruct (Cart.cart_main_empty_state b); reflexivity);
      try (destruct (Cart.cart_content_is_empty b); reflexivity).
  - cbn [List.length Nat.eqb].
    pose proof (no_markers_in_rows (fun p => Cart.buildCartItem p isAuthor)
                  (p :: items)) as [He Hh].
    pose proof (item_rows_map (fun p => Cart.buildCartItem p isAuthor)
                  (p :: items)) as Hrows.
    change (item_rows (Cart.HeaderRow :: ?l)) with (item_rows l).
    rewrite Hrows.
    split; [reflexivity|].
    split; [now rewrite map_map|].
    split; [exact He|].
    split; [unfold header_rows in *; cbn [filter List.length] in *; now rewrite Hh|].
    split; [cbn [List.length]; now rewrite length_map|].
    repeat split;
      try (destruct (Cart.cart_summary_display b); reflexivity);
      try (destruct (Cart.cart_main_empty_state b); reflexivity);
      try (destruct (Cart.cart_content_is_empty b); reflexivity).
Qed.

(** X12. Rendering overwrites: whatever was rendered before, the block
    after [renderCartItems] depends only on the cart rendered last. *)
Theorem render_overwrites
    (isAuthor : bool) (b : Cart.CartBlock num) (c1 c2 : Cart.CartData num) :
  Cart.renderCartItems_dom isAuthor (Cart.renderCartItems_dom isAuthor b c1) c2
  = Cart.renderCartItems_dom isAuthor b c2.
Proof.
  unfold Cart.renderCartItems_dom.
  destruct (Cart.cart_items b) eqn:Hitems; cbn; [|now rewrite Hitems].
  destruct (Cart.cart_summary_display b), (Cart.cart_main_empty_state b),
    (Cart.cart_content_is_empty b); reflexivity.
Qed.

End RenderingFacts.

Lemma rendered_list_structure_witness :
  exists children,
    Cart.cart_items (Cart.renderCartItems_dom false Sample.block Sample.cart)
    = Some children /\
    map Cart.row_product_id (item_rows children) = ["A"; "B"] /\
    header_rows children = 1 /\
    empty_states children = 0.
Proof.
  destruct (rendered_list_structure false Sample.block Sample.cart [] eq_refl)
    as (children & Hc & _ & Hids & He & Hh & _).
  exists children. exact (conj Hc (conj Hids (conj Hh He))).
Defined.

Section ViewFacts.
Context {num : Type} {N : JsNumber num}.

(** The block [removeFromCart] leaves when it finds the product: a rendering
    of the recomputed cart, then its totals. *)
Lemma removeFromCart_block productId (w : Cart.World num) p :
  obj_get (Cart.products (Cart.read_cart w)) productId = Some p ->
  let c' := Cart.recalculate
              (obj_delete (Cart.products (Cart.read_cart w)) productId) in
  Cart.block (Cart.removeFromCart productId w)
  = Cart.updateCartTotals_dom
      (Cart.renderCartItems_dom (Cart.isAuthorEnvironment w) (Cart.block w) c') c'.
Proof.
  intros Hget. cbv zeta. unfold Cart.removeFromCart.
  rewrite (lookup_product_own _ _ _ _ Hget). cbn [Cart.lookup_truthy].
  unfold Cart.updateCartTotals, Cart.renderCartItems, Cart.renderCartItems_dom.
  destruct (Cart.updateDataLayer_defined w); cbn;
    destruct (Cart.cart_items (Cart.block w)) eqn:Hitems; cbn;
    rewrite ?Hitems; reflexivity.
Qed.

Lemma rendered_rows isAuthor (b : Cart.CartBlock num) c old :
  Cart.cart_items b = Some old ->
  Cart.cart_items (Cart.renderCartItems_dom isAuthor b c)
  = Some (if (List.length (obj_values (Cart.products c)) =? 0)%nat
          then [Cart.EmptyState]
          else Cart.HeaderRow
               :: map (fun p => Cart.ItemRow (Cart.buildCartItem p isAuthor))
                      (obj_values (Cart.products c))).
Proof.
  intros Hold. unfold Cart.renderCartItems_dom. now rewrite Hold.
Qed.

Lemma item_rows_rendered isAuthor (items : list (Cart.LineItem num)) :
  item_rows (if (List.length items =? 0)%nat
             then [Cart.EmptyState]
             else Cart.HeaderRow
                  :: map (fun p => Cart.ItemRow (Cart.buildCartItem p isAuthor))
                         items)
  = map (fun p => Cart.buildCartItem p isAuthor) items.
Proof.
  destruct items as [|p items]; [reflexivity|].
  cbn [List.length Nat.eqb].
  change (item_rows (Cart.HeaderRow :: ?l)) with (item_rows l).
  induction (p :: items) as [|q l IH]; simpl; now rewrite ?IH.
Qed.

(** X13. After a removal the view agrees with the store: the rows shown
    are the rows of the line items of the cart that was written, and the
    subtotal and total cells show that cart's [subTotal] and [total] (0 when
    falsy). *)
Theorem removal_view_matches_store
    (productId : string) (w : Cart.World num) (p : Cart.LineItem num)
    (old : list (Cart.ItemsChild num)) :
  Cart.updateDataLayer_defined w = true ->
  obj_get (Cart.products (Cart.read_cart w)) productId = Some p ->
  Cart.cart_items (Cart.block w) = Some old ->
  let w' := Cart.removeFromCart productId w in
  let stored := Cart.read_cart w' in
  item_rows (shown_children w')
  = map (fun q => Cart.buildCartItem q (Cart.isAuthorEnvironment w))
        (obj_values (Cart.products stored)) /\
  Cart.cart_subtotal_value (Cart.block w')
  = option_map (fun _ => Cart.formatPrice (num_or (Cart.subTotal stored) (num_of_Z 0)))
               (Cart.cart_subtotal_value (Cart.block w)) /\
  Cart.cart_total_value (Cart.block w')
  = option_map (fun _ => Cart.formatPrice (num_or (Cart.total stored) (num_of_Z 0)))
               (Cart.cart_total_value (Cart.block w)).
Proof.
  intros Hdef Hget Hold. cbv zeta.
  rewrite (read_cart_stored _ _ (removeFromCart_store _ _ _ Hdef Hget)).
  unfold shown_children. rewrite (removeFromCart_block _ _ _ Hget).
  cbn [Cart.updateCartTotals_dom Cart.cart_items Cart.cart_subtotal_value
       Cart.cart_total_value].
  rewrite (rendered_rows _ _ _ _ Hold), item_rows_rendered.
  split; [reflexivity|].
  unfold Cart.renderCartItems_dom. rewrite Hold.
  cbn [Cart.cart_subtotal_value Cart.cart_total_value].
  split; [destruct (Cart.cart_subtotal_value (Cart.block w))
         |destruct (Cart.cart_total_value (Cart.block w))]; reflexivity.
Qed.

(** X14. Where [window.updateDataLayer] is missing, [removeFromCart] only
    logs an error for the store but still re-renders: the view shows the
    cart without the product while the store keeps it. *)
Theorem removal_without_update_function_diverges
    (productId : string) (w : Cart.World num) (p : Cart.LineItem num)
    (old : list (Cart.ItemsChild num)) :
  Cart.updateDataLayer_defined w = false ->
  obj_get (Cart.products (Cart.read_cart w)) productId = Some p ->
  Cart.cart_items (Cart.block w) = Some old ->
  let w' := Cart.removeFromCart productId w in
  Cart.dataLayer_cart w' = Cart.dataLayer_cart w /\
  obj_get (Cart.products (Cart.read_cart w')) productId = Some p /\
  item_rows (shown_children w')
  = map (fun q => Cart.buildCartItem q (Cart.isAuthorEnvironment w))
        (obj_values (obj_delete (Cart.products (Cart.read_cart w)) productId)) /\
  In (Cart.ConsoleError "updateDataLayer not available") (Cart.trace w').
Proof.
  intros Hdef Hget Hold. cbv zeta.
  assert (Hstore : Cart.dataLayer_cart (Cart.removeFromCart productId w)
                   = Cart.dataLayer_cart w).
  { rewrite removeFromCart_dataLayer, Hdef, Bool.andb_false_r. reflexivity. }
  split; [exact Hstore|]. split.
  { unfold Cart.read_cart, Cart.getDataLayerProperty_cart in *.
    now rewrite Hstore. }
  split.
  { unfold shown_children. rewrite (removeFromCart_block _ _ _ Hget).
    cbn [Cart.updateCartTotals_dom Cart.cart_items].
    now rewrite (rendered_rows _ _ _ _ Hold), item_rows_rendered. }
  unfold Cart.removeFromCart.
  rewrite (lookup_product_own _ _ _ _ Hget), Hdef. cbn [Cart.lookup_truthy].
  unfold Cart.updateCartTotals, Cart.renderCartItems. cbn. rewrite Hold. cbn.
  apply in_or_app. left. apply in_or_app. left. apply in_or_app. right.
  now left.
Qed.

(** Two lists of children that agree up to the text of price cells have
    the same length, the same rows with the same ids and quantity cells,
    and the same headers and empty-state panels. *)
Lemma blank_price_observations (children : list (Cart.ItemsChild num)) :
  forall children',
  map blank_price children' = map blank_price children ->
  List.length children' = List.length children /\
  map Cart.row_product_id (item_rows children')
  = map Cart.row_product_id (item_rows children) /\
  map Cart.row_qty (item_rows children') = map Cart.row_qty (item_rows children) /\
  empty_states children' = empty_states children /\
  header_rows children' = header_rows children.
Proof.
  unfold empty_states, header_rows.
  induction children as [|child children IH]; intros [|child' children'] H;
    try discriminate H; [repeat split|].
  injection H as Hchild Hrest.
  destruct (IH _ Hrest) as (H1 & H2 & H3 & H4 & H5).
  destruct child as [| |r], child' as [| |r']; try discriminate Hchild;
    simpl; try (repeat split; congruence).
  injection Hchild as Hid _ _ Hqty.
  repeat split; congruence.
Qed.

(** X15. [updateQuantity] (update branch) patches the view in place,
    however it finishes: the list keeps its children - same number, same
    rows with the same ids and quantity cells, same header or empty-state
    panel - and the summary display and empty-state markers are not
    touched.  The handler finishes normally when the product id is safe in
    a selector. *)
Theorem updateQuantity_patches_in_place
    (productId : string) (newQuantity : Cart.QuantityArg)
    (w : Cart.World num) (p : Cart.LineItem num) :
  num_lt (Cart.parseInt newQuantity) (num_of_Z 1) = false ->
  Cart.updateDataLayer_defined w = true ->
  obj_get (Cart.products (Cart.read_cart w)) productId = Some p ->
  let w' := completion_world (Cart.updateQuantity productId newQuantity w) in
  List.length (shown_children w') = List.length (shown_children w) /\
  map Cart.row_product_id (item_rows (shown_children w'))
  = map Cart.row_product_id (item_rows (shown_children w)) /\
  map Cart.row_qty (item_rows (shown_children w'))
  = map Cart.row_qty (item_rows (shown_children w)) /\
  header_rows (shown_children w') = header_rows (shown_children w) /\
  Cart.cart_summary_display (Cart.block w')
  = Cart.cart_summary_display (Cart.block w) /\
  Cart.cart_main_empty_state (Cart.block w')
  = Cart.cart_main_empty_state (Cart.block w) /\
  Cart.cart_content_is_empty (Cart.block w')
  = Cart.cart_content_is_empty (Cart.block w) /\
  (Cart.selector_safe productId = true ->
   Cart.updateQuantity productId newQuantity w = Cart.Normal w').
Proof.
  intros Hlt Hdef Hget. cbv zeta.
  destruct (updateQuantity_world _ _ _ _ Hlt Hdef Hget)
    as [(b & Hw & Hb) Hsafe].
  assert (Hitems : option_map (map blank_price) (Cart.cart_items b)
                   = option_map (map blank_price) (Cart.cart_items (Cart.block w)))
    by exact (f_equal (fun x => Cart.cart_items x) Hb).
  assert (Hdisplay : Cart.cart_summary_display b
                     = Cart.cart_summary_display (Cart.block w))
    by exact (f_equal (fun x => Cart.cart_summary_display x) Hb).
  assert (Hmain : Cart.cart_main_empty_state b
                  = Cart.cart_main_empty_state (Cart.block w))
    by exact (f_equal (fun x => Cart.cart_main_empty_state x) Hb).
  assert (Hcontent : Cart.cart_content_is_empty b
                     = Cart.cart_content_is_empty (Cart.block w))
    by exact (f_equal (fun x => Cart.cart_content_is_empty x) Hb).
  assert (Hshape :
            List.length (shown_children (Cart.set_block b w))
            = List.length (shown_children w) /\
            map Cart.row_product_id (item_rows (shown_children (Cart.set_block b w)))
            = map Cart.row_product_id (item_rows (shown_children w)) /\
            map Cart.row_qty (item_rows (shown_children (Cart.set_block b w)))
            = map Cart.row_qty (item_rows (shown_children w)) /\
            header_rows (shown_children (Cart.set_block b w))
            = header_rows (shown_children w)).
  { unfold shown_children. cbn [Cart.block Cart.set_block].
    destruct (Cart.cart_items b) as [children'|],
             (Cart.cart_items (Cart.block w)) as [children|];
      try discriminate Hitems; [|repeat split].
    injection Hitems as Hitems.
    destruct (blank_price_observations children children' Hitems)
      as (H1 & H2 & H3 & _ & H5).
    repeat split; assumption. }
  destruct Hshape as (H1 & H2 & H3 & H4).
  rewrite Hw.
  replace (shown_children (Cart.set_block b
             (Cart.updateCartTotals _ (Cart.updateDataLayer_replace_cart _ w))))
    with (shown_children (Cart.set_block b w)) by reflexivity.
  cbn [Cart.block Cart.set_block].
  repeat (split; [assumption|]).
  intros H. rewrite <- Hw. rewrite (Hsafe H). reflexivity.
Qed.

End ViewFacts.

Lemma removal_view_matches_store_witness :
  map Cart.row_product_id
      (item_rows (shown_children (Cart.removeFromCart "A" Sample.world)))
  = ["B"].
Proof.
  destruct (removal_view_matches_store "A" Sample.world Sample.itemA []
              eq_refl eq_refl eq_refl) as (Hrows & _).
  rewrite Hrows. reflexivity.
Defined.

Lemma removal_without_update_function_diverges_witness :
  obj_get
    (Cart.products
       (Cart.read_cart
          (Cart.removeFromCart "A"
             (Cart.mkWorld (Some Sample.cart) false false
                 Cart.standard_prototype Sample.refusing Sample.block []))))
    "A" = Some Sample.itemA.
Proof.
  destruct (removal_without_update_function_diverges "A"
              (Cart.mkWorld (Some Sample.cart) false false
                 Cart.standard_prototype Sample.refusing Sample.block [])
              Sample.itemA [] eq_refl eq_refl eq_refl) as (_ & Hget & _).
  exact Hget.
Defined.

Lemma updateQuantity_patches_in_place_witness :
  let w' := completion_world
              (Cart.updateQuantity "A" (Cart.QString "5") Sample.world) in
  Cart.updateQuantity "A" (Cart.QString "5") Sample.world = Cart.Normal w' /\
  List.length (shown_children w') = List.length (shown_children Sample.world).
Proof.
  assert (Hlt : num_lt (Cart.parseInt (num:=exact) (Cart.QString "5"))
                       (num_of_Z 1) = false) by reflexivity.
  destruct (updateQuantity_patches_in_place "A" (Cart.QString "5") Sample.world
              Sample.itemA Hlt eq_refl eq_refl)
    as (Hlen & _ & _ & _ & _ & _ & _ & Hnormal).
  split; [apply Hnormal; reflexivity|exact Hlen].
Defined.

(** ** Looking a product up *)

Section LookupFacts.
Context {num : Type} {N : JsNumber num}.

Lemma find_by_sku_first sku (pre tail : list (option (Product num))) :
  Forall (fun item => exists q, item = Some q /\ sku_or_id q <> sku) pre ->
  match tail with
  | Some p :: _ => sku_or_id p = sku
  | _ => True
  end ->
  ProductDetail.find_by_sku sku (pre ++ tail)
  = match tail with
    | None :: _ => Thrown "TypeError: cannot read properties of null"
    | Some p :: _ => Returned (Some p)
    | [] => Returned None
    end.
Proof.
  intros Hpre Htail. induction Hpre as [|item pre (q & -> & Hq) _ IH]; simpl.
  - destruct tail as [|[p|] tail]; simpl; try reflexivity.
    unfold sku_or_id in Htail. rewrite Htail, String.eqb_refl. reflexivity.
  - fold (sku_or_id q). destruct (String.eqb (sku_or_id q) sku) eqn:E.
    + apply String.eqb_eq in E. contradiction.
    + exact IH.
Qed.

(** X16. The single-product lookup of the current schema scans the listing
    in order: the first entry that is not a record with another sku-or-id
    decides.  If it is the record with the requested sku-or-id, that record
    is returned; if it is a [null] entry, the lookup returns [null] even
    when the product is listed further down (the exception is swallowed);
    if there is no such entry, the lookup returns [null]. *)
Theorem fetchProductDetail_first_entry_decides
    (fetch : string -> FetchOutcome num) (path sku : string) (isAuthor : bool)
    (json : Envelope num) (pre tail : list (option (Product num))) :
  Js.truthy path = true ->
  Js.truthy sku = true ->
  fetch (listing_baseUrl isAuthor false ++ "_path=" ++ path)%string = Json json ->
  listed_items json = pre ++ tail ->
  Forall (fun item => exists q, item = Some q /\ sku_or_id q <> sku) pre ->
  match tail with
  | Some p :: _ => sku_or_id p = sku
  | _ => True
  end ->
  ProductDetail.fetchProductDetail fetch path sku isAuthor false
  = hd None tail.
Proof.
  intros Hpath Hsku Hfetch Hitems Hpre Htail.
  unfold ProductDetail.fetchProductDetail, ProductDetail.fetchProductDetail_try.
  rewrite Hpath, Hsku, Hfetch. cbn [negb orb].
  change (match productsContentFragmentModelList_items json with
          | Some items => items
          | None => match productsModelList_items json with
                    | Some items => items
                    | None => []
                    end
          end) with (listed_items json).
  rewrite Hitems, (find_by_sku_first _ _ _ Hpre Htail).
  destruct tail as [|[p|] tail]; reflexivity.
Qed.

End LookupFacts.

Lemma fetchProductDetail_first_entry_decides_witness :
  ProductDetail.fetchProductDetail
    (fun _ => Json (mkEnvelope
                      (Some [Some Sample.tee; None; Some Sample.plain]) None))
    "/content/dam/luma" "id-2" false false
  = None.
Proof.
  assert (Hpre : Forall (fun item => exists q,
                             item = Some q /\ sku_or_id q <> "id-2")
                        [Some Sample.tee]).
  { constructor; [|constructor].
    exists Sample.tee. split; [reflexivity|discriminate]. }
  exact (fetchProductDetail_first_entry_decides
           (fun _ => Json (mkEnvelope
                             (Some [Some Sample.tee; None; Some Sample.plain])
                             None))
           "/content/dam/luma" "id-2" false
           (mkEnvelope (Some [Some Sample.tee; None; Some Sample.plain]) None)
           [Some Sample.tee] [None; Some Sample.plain]
           eq_refl eq_refl eq_refl eq_refl Hpre I).
Defined.

(** ** Decorating the product-detail block *)

Section DetailDecorateFacts.
Context {num : Type} {N : JsNumber num}.

(** X17. [decorate] of the product-detail block ends in one of two ways.
    Either the block holds a single error message, and then
    [buildProductDetail] did not run: nothing was written to the data layer
    and the trace of its calls and warnings is unchanged; or the product lookup
    returned a product, and then the block starts with that product's
    detail view, has at most one more child, holds no error message, and
    (where the update function is installed) the data layer holds the
    product's data. *)
Theorem detail_decorate_error_or_product
    (folderHref : string) (sku : option string)
    (fetchDetail fetchList : string -> FetchOutcome num)
    (w : ProductDetail.World num) :
  let isAuthor := ProductDetail.isAuthorEnvironment w in
  let isLegacy := Js.truthy folderHref && Js.includes "/dam/luma3/" folderHref in
  let w' := ProductDetail.decorate folderHref sku fetchDetail fetchList w in
  (exists msg,
      ProductDetail.block w' = [ProductDetail.ErrorMsg msg] /\
      ProductDetail.dataLayer_product w' = ProductDetail.dataLayer_product w /\
      ProductDetail.trace w' = ProductDetail.trace w)
  \/
  (exists product,
      ProductDetail.fetchProductDetail fetchDetail folderHref (Js.or_empty sku)
        isAuthor isLegacy = Some product /\
      hd_error (ProductDetail.block w')
      = Some (ProductDetail.Detail
                (ProductDetail.detail_view product isAuthor isLegacy)) /\
      List.length (ProductDetail.block w') <= 2 /\
      (forall msg, ~ In (ProductDetail.ErrorMsg msg) (ProductDetail.block w')) /\
      (ProductDetail.updateDataLayer_is_function w = true ->
       ProductDetail.dataLayer_product w'
       = Some (ProductDetail.productData_of product isAuthor isLegacy))).
Proof.
  cbv zeta. unfold ProductDetail.decorate.
  destruct (negb (Js.truthy folderHref)); [left; eexists; repeat split|].
  destruct (negb (Js.opt_truthy sku)); [left; eexists; repeat split|].
  destruct (ProductDetail.fetchProductDetail _ _ _ _ _) as [product|];
    [|left; eexists; repeat split].
  right. exists product. split; [reflexivity|].
  unfold ProductDetail.buildProductDetail.
  destruct (ProductDetail.buildRecommendations _ _ _ _) as [section|];
    destruct (ProductDetail.updateDataLayer_is_function w); cbn;
    (split; [reflexivity|]); (split; [lia|]);
    (split; [intros msg H; repeat (destruct H as [H|H]; [discriminate|]);
             exact H
            |intros; try reflexivity; discriminate]).
Qed.

(** X18. With a folder and a product id configured, a network or parse
    failure of the product lookup leaves the single message "Product not
    found or failed to load."; nothing is written to the data layer and
    [buildProductDetail] does not run. *)
Theorem detail_decorate_on_failure
    (folderHref sku : string)
    (fetchDetail fetchList : string -> FetchOutcome num)
    (w : ProductDetail.World num) :
  Js.truthy folderHref = true ->
  Js.truthy sku = true ->
  (forall url, is_failure (fetchDetail url) = true) ->
  let w' := ProductDetail.decorate folderHref (Some sku) fetchDetail fetchList w in
  ProductDetail.block w'
  = [ProductDetail.ErrorMsg "Product not found or failed to load."] /\
  ProductDetail.dataLayer_product w' = ProductDetail.dataLayer_product w /\
  ProductDetail.trace w' = ProductDetail.trace w.
Proof.
  intros Hfolder Hsku Hfail. cbv zeta. unfold ProductDetail.decorate.
  rewrite Hfolder. cbn [negb Js.opt_truthy Js.or_empty]. rewrite Hsku.
  cbn [negb andb].
  assert (Hnone : forall a l,
             ProductDetail.fetchProductDetail fetchDetail folderHref sku a l
             = None).
  { intros a l.
    unfold ProductDetail.fetchProductDetail, ProductDetail.fetchProductDetail_try.
    destruct (negb (Js.truthy folderHref) || negb (Js.truthy sku));
      [reflexivity|].
    destruct l;
      match goal with |- context [fetchDetail ?u] =>
        pose proof (Hfail u) as Hu; destruct (fetchDetail u) end;
      simpl in Hu; try discriminate; reflexivity. }
  rewrite Hnone. repeat split.
Qed.

End DetailDecorateFacts.

Lemma detail_decorate_on_failure_witness :
  ProductDetail.block
    (ProductDetail.decorate (num:=exact) "/content/dam/luma" (Some "SKU-1")
       (fun _ => ParseFailure) (fun _ => Json Sample.listing)
       Sample.detail_world)
  = [ProductDetail.ErrorMsg "Product not found or failed to load."].
Proof.
  exact (proj1 (detail_decorate_on_failure (num:=exact) "/content/dam/luma"
                  "SKU-1" (fun _ => ParseFailure) (fun _ => Json Sample.listing)
                  Sample.detail_world eq_refl eq_refl (fun _ => eq_refl))).
Defined.

(** ** Decorating the cart block and listening to the store *)

Section CartDecorateFacts.
Context {num : Type} {N : JsNumber num}.

Lemma updateCartTotals_trace c (w : Cart.World num) :
  trace_extends w (Cart.updateCartTotals c w) [Cart.UpdateCartTotals c].
Proof. reflexivity. Qed.

Lemma cart_sections_bound (recommendations : option RecSection) container :
  List.length container <= 1 ->
  List.length (Cart.append_recommendations recommendations (tl container)) <= 1.
Proof.
  intros H. destruct recommendations as [section|]; simpl.
  - rewrite length_app. destruct container as [|s [|s' l]]; simpl in *; lia.
  - destruct container as [|s [|s' l]]; simpl in *; lia.
Qed.

(** X19. [decorate] of the cart block only reads the store: the store's
    cart is untouched and no store write is among its events.  It leaves
    the item list showing the rows of the store's line items, and at most
    one recommendations section. *)
Theorem cart_decorate_reads_only
    (folderHref : string) (fetch : string -> FetchOutcome num)
    (w : Cart.World num) :
  let w' := fst (Cart.decorate folderHref fetch w) in
  Cart.dataLayer_cart w' = Cart.dataLayer_cart w /\
  (exists events, trace_extends w w' events /\ store_writes events = []) /\
  item_rows (shown_children w')
  = map (fun p => Cart.buildCartItem p (Cart.isAuthorEnvironment w))
        (obj_values (Cart.products (Cart.read_cart w))) /\
  List.length (cart_sections w') <= 1.
Proof.
  cbv zeta. unfold Cart.decorate.
  set (block0 := Cart.mkBlock _ _ _ _ _ _ _ _).
  set (w0 := Cart.set_block block0 w).
  assert (Hrows : Cart.cart_items (Cart.block (Cart.renderCartItems
                                                 (Cart.read_cart w) w0))
                  = Cart.cart_items
                      (Cart.renderCartItems_dom (Cart.isAuthorEnvironment w)
                         block0 (Cart.read_cart w))) by reflexivity.
  assert (Hstore : Cart.dataLayer_cart (Cart.renderCartItems (Cart.read_cart w) w0)
                   = Cart.dataLayer_cart w) by reflexivity.
  assert (Htrace : exists events,
             trace_extends w (Cart.renderCartItems (Cart.read_cart w) w0) events /\
             store_writes events = []).
  { destruct (renderCartItems_trace (Cart.read_cart w) w0) as (ev & He & Hw).
    exists ev. split; [exact He|exact Hw]. }
  assert (Hshown : item_rows (shown_children
                                (Cart.renderCartItems (Cart.read_cart w) w0))
                   = map (fun p => Cart.buildCartItem p (Cart.isAuthorEnvironment w))
                         (obj_values (Cart.products (Cart.read_cart w)))).
  { unfold shown_children. rewrite Hrows.
    rewrite (rendered_rows _ block0 _ [] eq_refl). apply item_rows_rendered. }
  destruct (Js.truthy folderHref); cbn [fst].
  - split; [exact Hstore|]. split; [exact Htrace|]. split; [exact Hshown|].
    unfold cart_sections. cbn.
    destruct (Cart.buildRecommendations _ _ _ _); simpl; lia.
  - split; [exact Hstore|]. split; [exact Htrace|]. split; [exact Hshown|].
    unfold cart_sections. cbn. lia.
Qed.

(** X20. If the catalogue cannot be fetched when the cart block is
    decorated, the block has no recommendations, and the listener never
    adds any afterwards, whatever carts the store announces. *)
Theorem cart_recommendations_need_the_catalogue
    (folderHref : string) (failing : string -> FetchOutcome num)
    (w : Cart.World num) :
  (forall url, is_failure (failing url) = true) ->
  let allProducts := snd (Cart.decorate folderHref failing w) in
  allProducts = [] /\
  cart_sections (fst (Cart.decorate folderHref failing w)) = [] /\
  forall isAuthor isLegacy cart (w2 : Cart.World num),
    cart_sections (Cart.onDataLayerUpdated folderHref allProducts isAuthor
                     isLegacy (Some cart) w2)
    = cart_sections w2.
Proof.
  intros Hfail. cbv zeta.
  assert (Hall : forall a l, Cart.fetchAllProducts failing folderHref a l = []).
  { intros a l. unfold Cart.fetchAllProducts, Cart.fetchAllProducts_try.
    destruct (negb (Js.truthy folderHref)); [reflexivity|].
    match goal with |- context [failing ?u] =>
      pose proof (Hfail u) as Hu; destruct (failing u) end;
      simpl in Hu; try discriminate; reflexivity. }
  assert (Hlistener : forall isAuthor isLegacy cart (w2 : Cart.World num),
             cart_sections (Cart.onDataLayerUpdated folderHref [] isAuthor
                              isLegacy (Some cart) w2)
             = cart_sections w2).
  { intros isAuthor isLegacy cart w2. unfold Cart.onDataLayerUpdated.
    change (0 <? List.length (@nil (Product num)))%nat with false.
    rewrite Bool.andb_false_r. unfold cart_sections.
    now rewrite cart_recommendations_handlers. }
  unfold Cart.decorate.
  destruct (Js.truthy folderHref); cbn [fst snd]; rewrite ?Hall;
    (split; [reflexivity|]); (split; [reflexivity|]); exact Hlistener.
Qed.

(** X21. The listener refreshes the view from the announced cart and never
    writes to the store, so a store update cannot trigger another one.  It
    replaces the recommendations section instead of adding one: a block
    with at most one section keeps at most one. *)
Theorem listener_refreshes_view
    (folderHref : string) (allProducts : list (Product num))
    (isAuthor isLegacy : bool) (cart : Cart.CartData num)
    (w : Cart.World num) (old : list (Cart.ItemsChild num)) :
  Cart.cart_items (Cart.block w) = Some old ->
  List.length (cart_sections w) <= 1 ->
  let w' := Cart.onDataLayerUpdated folderHref allProducts isAuthor isLegacy
              (Some cart) w in
  Cart.dataLayer_cart w' = Cart.dataLayer_cart w /\
  (exists events, trace_extends w w' events /\ store_writes events = []) /\
  item_rows (shown_children w')
  = map (fun p => Cart.buildCartItem p (Cart.isAuthorEnvironment w))
        (obj_values (Cart.products cart)) /\
  List.length (cart_sections w') <= 1.
Proof.
  intros Hold Hone. cbv zeta. unfold Cart.onDataLayerUpdated.
  set (w2 := Cart.updateCartTotals cart (Cart.renderCartItems cart w)).
  assert (Hstore : Cart.dataLayer_cart w2 = Cart.dataLayer_cart w).
  { unfold w2.
    change (Cart.dataLayer_cart (Cart.updateCartTotals ?c ?x))
      with (Cart.dataLayer_cart x).
    apply dataLayer_cart_renderCartItems. }
  assert (Htrace : exists events,
             trace_extends w w2 events /\ store_writes events = []).
  { destruct (renderCartItems_trace cart w) as (ev & He & Hw).
    exists (ev ++ [Cart.UpdateCartTotals cart]). split.
    - eapply trace_extends_trans; [exact He|apply updateCartTotals_trace].
    - now rewrite store_writes_app, Hw. }
  assert (Hitems : Cart.cart_items (Cart.block w2)
                   = Cart.cart_items
                       (Cart.renderCartItems_dom (Cart.isAuthorEnvironment w)
                          (Cart.block w) cart)).
  { unfold w2, Cart.updateCartTotals, Cart.renderCartItems. cbn.
    rewrite Hold. reflexivity. }
  assert (Hshown : item_rows (shown_children w2)
                   = map (fun p => Cart.buildCartItem p (Cart.isAuthorEnvironment w))
                         (obj_values (Cart.products cart))).
  { unfold shown_children. rewrite Hitems, (rendered_rows _ _ _ _ Hold).
    apply item_rows_rendered. }
  assert (Hrecs : Cart.cart_recommendations (Cart.block w2)
                  = Cart.cart_recommendations (Cart.block w))
    by apply cart_recommendations_handlers.
  destruct (Js.truthy folderHref && (0 <? List.length allProducts)%nat).
  - rewrite Hrecs.
    destruct (Cart.cart_recommendations (Cart.block w)) as [container|] eqn:Hc.
    + split; [exact Hstore|]. split; [exact Htrace|].
      split; [exact Hshown|].
      unfold cart_sections in *. rewrite Hc in Hone. cbn.
      now apply cart_sections_bound.
    + split; [exact Hstore|]. split; [exact Htrace|].
      split; [exact Hshown|].
      unfold cart_sections. rewrite Hrecs. simpl. lia.
  - split; [exact Hstore|]. split; [exact Htrace|]. split; [exact Hshown|].
    unfold cart_sections in *. now rewrite Hrecs.
Qed.

(** X22. A cart none of whose line items has a category - the empty cart in
    particular - gets no recommendations, whatever the catalogue holds. *)
Theorem no_categories_no_recommendations
    (allProducts : list (Product num)) (cartData : Cart.CartData num)
    (isAuthor isLegacy : bool) :
  Forall (fun p => Cart.li_category p = "")
         (obj_values (Cart.products cartData)) ->
  Cart.buildRecommendations allProducts cartData isAuthor isLegacy = None.
Proof.
  intros Hcat.
  assert (Hnone : Cart.cartCategories cartData = []).
  { unfold Cart.cartCategories.
    induction Hcat as [|p items Hp _ IH]; simpl; [reflexivity|].
    now rewrite Hp, IH. }
  apply cart_buildRecommendations_none.
  intros p _ (_ & c & _ & Hin). apply cartCategories_cart_category in Hin.
  rewrite Hnone in Hin. destruct Hin.
Qed.

End CartDecorateFacts.

Lemma cart_recommendations_need_the_catalogue_witness :
  cart_sections (fst (Cart.decorate "/content/dam/luma"
                        (fun _ => NetworkFailure) Sample.world)) = [].
Proof.
  exact (proj1 (proj2 (cart_recommendations_need_the_catalogue
                         "/content/dam/luma" (fun _ => NetworkFailure)
                         Sample.world (fun _ => eq_refl)))).
Defined.

Lemma listener_refreshes_view_witness :
  map Cart.row_product_id
      (item_rows (shown_children
                    (Cart.onDataLayerUpdated "/content/dam/luma"
                       [Sample.tee; Sample.plain] false false
                       (Some Sample.cart) Sample.world)))
  = ["A"; "B"].
Proof.
  assert (Hone : List.length (cart_sections Sample.world) <= 1)
    by (vm_compute; lia).
  destruct (listener_refreshes_view "/content/dam/luma"
              [Sample.tee; Sample.plain] false false Sample.cart Sample.world
              [] eq_refl Hone) as (_ & _ & Hrows & _).
  rewrite Hrows. reflexivity.
Defined.

Lemma no_categories_no_recommendations_witness :
  Cart.buildRecommendations [Sample.tee; Sample.plain]
    (Cart.empty_cart (num:=exact)) false false = None.
Proof.
  apply (no_categories_no_recommendations [Sample.tee; Sample.plain]
           (Cart.empty_cart (num:=exact)) false false).
  constructor.
Defined.

(** ** Cards, categories and names *)

Section PresentationFacts.
Context {num : Type} {N : JsNumber num}.

(** X23. The two blocks build the same recommendation card for a product,
    up to the CSS class, and the category line of a card is the formatted
    category of the detail page. *)
Theorem cards_agree_across_blocks (item : Product num) (isAuthor isLegacy : bool) :
  let cart := Cart.buildRecommendationCard item isAuthor isLegacy in
  let detail := ProductDetail.buildRecommendationCard item isAuthor isLegacy in
  card_class cart = "cart-rec-card" /\
  card_class detail = "pd-rec-card" /\
  card_click cart = card_click detail /\
  card_media cart = card_media detail /\
  card_category cart = card_category detail /\
  card_title cart = card_title detail /\
  card_category cart = ProductDetail.formatCategoryDisplay (p_category item).
Proof.
  cbv zeta. repeat split.
  unfold Cart.buildRecommendationCard, Cart.card_category_text,
    ProductDetail.formatCategoryDisplay; cbn [card_category].
  destruct (p_category item) as [[|c cs]|]; reflexivity.
Qed.

(** X24. What the detail view shows is what is written to the data layer
    and what the "Add to Cart" button hands over: the name element shows the
    written name; the category and description elements exist exactly when
    the written category and description are non-empty, and show them
    (whichever of html, markdown or plaintext the description came from);
    the image, when there is one, has the written image URL as its source;
    and the cart payload repeats the written id, name, image, category,
    description and price, with quantity 1. *)
Theorem detail_view_agrees_with_product_data
    (product : Product num) (isAuthor isLegacy : bool) :
  let written := ProductDetail.productData_of product isAuthor isLegacy in
  let view := ProductDetail.detail_view product isAuthor isLegacy in
  ProductDetail.pd_name_el view = ProductDetail.pd_name written /\
  ProductDetail.pd_category_el view
  = (if Js.truthy (ProductDetail.pd_category written)
     then Some (ProductDetail.pd_category written) else None) /\
  option_map description_content (ProductDetail.pd_description_el view)
  = (if Js.truthy (ProductDetail.pd_description written)
     then Some (ProductDetail.pd_description written) else None) /\
  option_map picture_src (ProductDetail.pd_image_el view)
  = (if Js.truthy (ProductDetail.pd_image written)
     then Some (ProductDetail.pd_image written) else None) /\
  ProductDetail.addToCart_payload product isAuthor isLegacy
  = ProductDetail.mkCartPayload
      (ProductDetail.pd_id written) (ProductDetail.pd_name written)
      (ProductDetail.pd_image written) (ProductDetail.pd_thumbnail written)
      (ProductDetail.pd_category written) (ProductDetail.pd_description written)
      (ProductDetail.pd_price written) (num_of_Z 1).
Proof.
  cbv zeta. split; [reflexivity|]. split; [reflexivity|].
  split; [|split; [|reflexivity]].
  - unfold ProductDetail.detail_view, ProductDetail.productData_of,
      ProductDetail.description_text;
      cbn [ProductDetail.pd_description_el ProductDetail.pd_description].
    destruct (p_description product) as [d|]; [|reflexivity].
    destruct (html d) as [[|c1 s1]|], (markdown d) as [[|c2 s2]|],
      (plaintext d) as [[|c3 s3]|]; reflexivity.
  - unfold ProductDetail.detail_view, ProductDetail.productData_of;
      cbn [ProductDetail.pd_image_el ProductDetail.pd_image].
    destruct (ProductDetail.getProductImageUrl (Some product) isAuthor isLegacy)
      as [[|c u]|]; try reflexivity.
    destruct (Js.startsWith "http" (String c u)); reflexivity.
Qed.

Lemma split_colon_piece a b cur :
  colon_free a = true ->
  Js.split_from ":" (a ++ String ":" b) cur
  = Js.rev_string (Js.rev_string a cur) "" :: Js.split_from ":" b "".
Proof.
  revert cur. induction a as [|c a IH]; intros cur; simpl; [reflexivity|].
  destruct (Ascii.eqb c ":"); simpl; [discriminate|]. apply IH.
Qed.

Lemma split_colon_last a cur :
  colon_free a = true ->
  Js.split_from ":" a cur = [Js.rev_string (Js.rev_string a cur) ""].
Proof.
  revert cur. induction a as [|c a IH]; intros cur; simpl; [reflexivity|].
  destruct (Ascii.eqb c ":"); simpl; [discriminate|]. apply IH.
Qed.

Lemma rev_rev_empty a : Js.rev_string (Js.rev_string a "") "" = a.
Proof. rewrite rev_string_rev. simpl. apply append_empty_r. Qed.

(** X25. The part of a category that is displayed: for [ns:value] it is
    [value], also when [ns] is empty; anything from a second colon on is
    dropped; a category without colon is displayed whole.  For a non-empty
    namespace and a single colon, the displayed part lower-cased is the
    normalized category used for matching. *)
Theorem displayed_category_value (ns value rest : string) :
  colon_free ns = true ->
  colon_free value = true ->
  category_value (ns ++ String ":" value) = value /\
  category_value (ns ++ String ":" (value ++ String ":" rest)) = value /\
  category_value value = value /\
  (ns <> "" ->
   Js.toLowerCase (category_value (ns ++ String ":" value))
   = Cart.normalizeProductCat (ns ++ String ":" value)).
Proof.
  intros Hns Hvalue.
  assert (H1 : category_value (ns ++ String ":" value) = value).
  { unfold category_value, Js.split.
    rewrite (split_colon_piece _ _ _ Hns), (split_colon_last _ _ Hvalue).
    simpl. apply rev_rev_empty. }
  split; [exact H1|]. split.
  { unfold category_value, Js.split.
    rewrite (split_colon_piece _ _ _ Hns), (split_colon_piece _ _ _ Hvalue).
    simpl. apply rev_rev_empty. }
  split.
  { unfold category_value, Js.split.
    rewrite (split_colon_last _ _ Hvalue). simpl. reflexivity. }
  intros Hne. rewrite H1. unfold Cart.normalizeProductCat.
  rewrite toLowerCase_app.
  change (Js.toLowerCase (String ":" value))
    with (String ":" (Js.toLowerCase value)).
  symmetry. apply strip_namespace_prefixed.
  - destruct ns; [congruence|discriminate].
  - now rewrite colon_free_toLowerCase.
Qed.

End PresentationFacts.

Lemma displayed_category_value_witness :
  category_value "demo123:Men:Shoes" = "Men" /\
  Cart.normalizeProductCat "demo123:Men:Shoes" = "men:shoes".
Proof.
  destruct (displayed_category_value "demo123" "Men" "Shoes" eq_refl eq_refl)
    as (_ & H & _).
  split; [exact H|reflexivity].
Defined.

Section CommaFacts.
Context {num : Type} {N : JsNumber num}.

Lemma case_chars_comma c :
  Ascii.eqb (Js.lower_char c) "," = Ascii.eqb c "," /\
  Ascii.eqb (Js.upper_char c) "," = Ascii.eqb c ",".
Proof.
  destruct c as [[] [] [] [] [] [] [] []]; vm_compute; split; reflexivity.
Qed.

Lemma comma_free_toLowerCase s : comma_free (Js.toLowerCase s) = comma_free s.
Proof.
  unfold Js.toLowerCase.
  induction s as [|c s IH]; simpl; [reflexivity|].
  now rewrite (proj1 (case_chars_comma c)), IH.
Qed.

Lemma comma_free_capitalize b s :
  comma_free (Js.capitalize_from b s) = comma_free s.
Proof.
  revert b. induction s as [|c s IH]; intros b; simpl; [reflexivity|].
  rewrite IH. destruct (Js.is_word c && negb b); [|reflexivity].
  now rewrite (proj2 (case_chars_comma c)).
Qed.

Lemma comma_free_replace_commas s : comma_free (Js.replace_commas s) = true.
Proof.
  induction s as [|c s IH]; simpl; [reflexivity|].
  destruct (Ascii.eqb c ",") eqn:E; simpl; [exact IH|].
  now rewrite E, IH.
Qed.

Lemma comma_free_rev_string s acc :
  comma_free (Js.rev_string s acc) = comma_free s && comma_free acc.
Proof.
  revert acc. induction s as [|c s IH]; intros acc; simpl; [reflexivity|].
  rewrite IH. simpl.
  destruct (Ascii.eqb c ","), (comma_free s), (comma_free acc); reflexivity.
Qed.

Lemma comma_free_trimStart s :
  comma_free s = true -> comma_free (Js.trimStart s) = true.
Proof.
  induction s as [|c s IH]; simpl; [reflexivity|].
  intros H. destruct (Js.is_space c); [|exact H].
  apply IH. now apply andb_prop in H.
Qed.

Lemma comma_free_first_piece s cur :
  comma_free cur = true ->
  comma_free (hd "" (Js.split_from "," s cur)) = true.
Proof.
  revert cur. induction s as [|c s IH]; intros cur Hcur; simpl.
  - now rewrite comma_free_rev_string, Hcur.
  - destruct (Ascii.eqb c ",") eqn:E; simpl.
    + now rewrite comma_free_rev_string, Hcur.
    + apply IH. simpl. now rewrite E, Hcur.
Qed.

Lemma comma_free_display_name name : comma_free (display_name name) = true.
Proof.
  unfold display_name. destruct (Js.truthy name); [|reflexivity].
  unfold Js.trim, Js.split.
  rewrite comma_free_rev_string, Bool.andb_true_r.
  apply comma_free_trimStart.
  rewrite comma_free_rev_string, Bool.andb_true_r.
  apply comma_free_trimStart, comma_free_first_piece. reflexivity.
Qed.

Lemma comma_free_formatted cleaned :
  comma_free (Js.capitalize_words
                (Js.toLowerCase (Js.replace_commas (Js.join ", " cleaned))))
  = true.
Proof.
  unfold Js.capitalize_words.
  now rewrite comma_free_capitalize, comma_free_toLowerCase,
    comma_free_replace_commas.
Qed.

(** X26. The title and the category line of a recommendation card, of the
    cart as of the detail page, never contain a comma, and neither does the
    category of the product written by the detail page: the title is the
    name cut at its first comma, and the categories are joined with
    [" /"].  The name the detail page shows and writes is
    [displayName || name]: it is free of commas exactly when the name cut
    at its first comma is not empty, or the name itself has no comma. *)
Theorem displayed_texts_have_no_comma (item : Product num)
    (isAuthor isLegacy : bool) :
  let cartCard := Cart.buildRecommendationCard item isAuthor isLegacy in
  let detailCard := ProductDetail.buildRecommendationCard item isAuthor isLegacy in
  let productData := ProductDetail.productData_of item isAuthor isLegacy in
  let name := Js.or_empty (p_name item) in
  comma_free (card_title cartCard) = true /\
  comma_free (card_category cartCard) = true /\
  comma_free (card_title detailCard) = true /\
  comma_free (card_category detailCard) = true /\
  comma_free (ProductDetail.pd_category productData) = true /\
  (comma_free (ProductDetail.pd_name productData) = true
   <-> display_name name <> "" \/ comma_free name = true).
Proof.
  cbv zeta.
  unfold Cart.buildRecommendationCard, ProductDetail.buildRecommendationCard,
    ProductDetail.productData_of.
  cbn [card_title card_category ProductDetail.pd_category ProductDetail.pd_name].
  split; [apply comma_free_display_name|].
  split; [unfold Cart.card_category_text; apply comma_free_formatted|].
  split; [apply comma_free_display_name|].
  split; [apply comma_free_formatted|].
  split.
  - unfold ProductDetail.formatCategoryDisplay.
    destruct (p_category item) as [[|c cs]|]; try reflexivity.
    apply comma_free_formatted.
  - pose proof (comma_free_display_name (Js.or_empty (p_name item))) as Hd.
    destruct (display_name (Js.or_empty (p_name item))) as [|c d];
      cbn [Js.truthy].
    + split; [now right|]. intros [H|H]; [congruence|exact H].
    + split; [left; discriminate|]. intros _. exact Hd.
Qed.

End CommaFacts.

(** ** From the detail page to the recommendations of the cart *)

Section CategoryRoundTrip.
Context {num : Type} {N : JsNumber num}.

Lemma case_chars_lower c :
  Cart.is_slash_or_comma (Js.lower_char c) = Cart.is_slash_or_comma c /\
  Js.is_space (Js.lower_char c) = Js.is_space c /\
  Js.lower_char (Js.lower_char c) = Js.lower_char c /\
  Js.lower_char (Js.upper_char (Js.lower_char c)) = Js.lower_char c.
Proof.
  destruct c as [[] [] [] [] [] [] [] []]; vm_compute; repeat split.
Qed.

Lemma toLowerCase_rev_string s acc :
  Js.toLowerCase (Js.rev_string s acc)
  = Js.rev_string (Js.toLowerCase s) (Js.toLowerCase acc).
Proof.
  revert acc. induction s as [|c s IH]; intros acc; simpl; [reflexivity|].
  now rewrite IH.
Qed.

Lemma toLowerCase_trimStart s :
  Js.toLowerCase (Js.trimStart s) = Js.trimStart (Js.toLowerCase s).
Proof.
  induction s as [|c s IH]; simpl; [reflexivity|].
  rewrite (proj1 (proj2 (case_chars_lower c))).
  destruct (Js.is_space c); [exact IH|reflexivity].
Qed.

Lemma toLowerCase_trim s :
  Js.toLowerCase (Js.trim s) = Js.trim (Js.toLowerCase s).
Proof.
  unfold Js.trim.
  now rewrite toLowerCase_rev_string, toLowerCase_trimStart,
    toLowerCase_rev_string, toLowerCase_trimStart.
Qed.

Lemma split_runs_lower s cur b :
  Js.split_runs_from Cart.is_slash_or_comma (Js.toLowerCase s)
    (Js.toLowerCase cur) b
  = map Js.toLowerCase (Js.split_runs_from Cart.is_slash_or_comma s cur b).
Proof.
  revert cur b. induction s as [|c s IH]; intros cur b; simpl.
  - now rewrite toLowerCase_rev_string.
  - rewrite (proj1 (case_chars_lower c)).
    destruct (Cart.is_slash_or_comma c).
    + destruct b; simpl.
      * apply (IH "" true).
      * rewrite toLowerCase_rev_string. f_equal. apply (IH "" true).
    + apply (IH (String c cur) false).
Qed.

Lemma toLowerCase_capitalize b s :
  Js.toLowerCase (Js.capitalize_from b (Js.toLowerCase s)) = Js.toLowerCase s.
Proof.
  unfold Js.toLowerCase.
  revert b. induction s as [|c s IH]; intros b; simpl; [reflexivity|].
  rewrite IH.
  destruct (Js.is_word (Js.lower_char c) && negb b).
  - now rewrite (proj2 (proj2 (proj2 (case_chars_lower c)))).
  - now rewrite (proj1 (proj2 (proj2 (case_chars_lower c)))).
Qed.

Lemma replace_commas_app a b :
  Js.replace_commas (a ++ b)
  = (Js.replace_commas a ++ Js.replace_commas b)%string.
Proof.
  induction a as [|c a IH]; simpl; [reflexivity|].
  destruct (Ascii.eqb c ","); simpl; now rewrite IH.
Qed.

Lemma replace_commas_free v : comma_free v = true -> Js.replace_commas v = v.
Proof.
  induction v as [|c v IH]; simpl; [reflexivity|].
  destruct (Ascii.eqb c ","); simpl; [discriminate|].
  intros H. now rewrite IH.
Qed.

Lemma split_runs_free v rest cur :
  slash_free v = true -> comma_free v = true ->
  Js.split_runs_from Cart.is_slash_or_comma (v ++ rest) cur false
  = Js.split_runs_from Cart.is_slash_or_comma rest (Js.rev_string v cur) false.
Proof.
  revert cur. induction v as [|c v IH]; intros cur; simpl; [reflexivity|].
  unfold Cart.is_slash_or_comma at 1.
  destruct (Ascii.eqb c "/"); simpl; [discriminate|].
  destruct (Ascii.eqb c ","); simpl; [discriminate|].
  intros Hs Hc. now apply IH.
Qed.

Lemma rev_string_app a b acc :
  Js.rev_string (a ++ b) acc = Js.rev_string b (Js.rev_string a acc).
Proof.
  revert acc. induction a as [|c a IH]; intros acc; simpl; [reflexivity|].
  apply IH.
Qed.

Lemma trimStart_app x z :
  Js.trimStart (x ++ z)
  = match Js.trimStart x with
    | EmptyString => Js.trimStart z
    | y => (y ++ z)%string
    end.
Proof.
  induction x as [|c x IH]; simpl; [reflexivity|].
  destruct (Js.is_space c); [exact IH|reflexivity].
Qed.

Lemma trim_space_r x : Js.trim (x ++ " ") = Js.trim x.
Proof.
  unfold Js.trim. rewrite trimStart_app.
  destruct (Js.trimStart x) as [|c y]; [reflexivity|].
  rewrite rev_string_app. reflexivity.
Qed.

Lemma trim_space_l x : Js.trim (String " " x) = Js.trim x.
Proof. reflexivity. Qed.

(** The pieces of a formatted list of plain values, up to white space. *)
Lemma split_runs_joined vs : forall v (lead : bool),
  Forall (fun v => slash_free v = true /\ comma_free v = true) (v :: vs) ->
  map Js.trim
    (Js.split_runs_from Cart.is_slash_or_comma
       (Js.replace_commas (Js.join ", " (v :: vs)))
       (if lead then " " else "") false)
  = map Js.trim (v :: vs).
Proof.
  induction vs as [|v2 vs IH]; intros v lead Hall.
  - inversion Hall as [|? ? [Hs Hc] _]; subst.
    change (Js.join ", " [v]) with v.
    rewrite (replace_commas_free _ Hc).
    rewrite <- (append_empty_r v) at 1.
    rewrite (split_runs_free _ _ _ Hs Hc). simpl.
    rewrite rev_string_rev, append_empty_r.
    destruct lead; reflexivity.
  - inversion Hall as [|? ? [Hs Hc] Hrest]; subst.
    change (Js.join ", " (v :: v2 :: vs))
      with (v ++ String "," (String " " (Js.join ", " (v2 :: vs))))%string.
    rewrite replace_commas_app, (replace_commas_free _ Hc).
    rewrite (split_runs_free _ _ _ Hs Hc).
    change (Js.replace_commas
              (String "," (String " " (Js.join ", " (v2 :: vs)))))
      with (String " " (String "/" (String " "
              (Js.replace_commas (Js.join ", " (v2 :: vs)))))).
    change (Js.split_runs_from Cart.is_slash_or_comma
              (String " " (String "/" (String " " ?r))) ?cur false)
      with (Js.rev_string (String " " cur) ""
              :: Js.split_runs_from Cart.is_slash_or_comma r " " false).
    change (map Js.trim (?a :: ?l)) with (Js.trim a :: map Js.trim l).
    rewrite (IH v2 true Hrest). f_equal.
    change (Js.rev_string (String " " ?cur) "") with (Js.rev_string cur " ").
    rewrite rev_string_rev.
    destruct lead; cbn [Js.rev_string]; [rewrite trim_space_l|];
      apply trim_space_r.
Qed.

Lemma category_parts_case s :
  category_parts (Js.capitalize_words (Js.toLowerCase s)) = category_parts s.
Proof.
  assert (H : forall t,
             map (fun c => Js.toLowerCase (Js.trim c))
                 (Js.split_runs Cart.is_slash_or_comma t)
             = map Js.trim
                 (Js.split_runs Cart.is_slash_or_comma (Js.toLowerCase t))).
  { intros t. unfold Js.split_runs.
    change "" with (Js.toLowerCase "") at 2.
    rewrite split_runs_lower, map_map.
    apply map_ext. intros c. apply toLowerCase_trim. }
  unfold category_parts. rewrite !H. unfold Js.capitalize_words.
  now rewrite toLowerCase_capitalize.
Qed.

Lemma category_value_namespaced ns v :
  colon_free ns = true -> colon_free v = true ->
  category_value (ns ++ String ":" v) = v.
Proof.
  intros Hns Hv. unfold category_value, Js.split.
  rewrite (split_colon_piece _ _ _ Hns), (split_colon_last _ _ Hv).
  simpl. apply rev_rev_empty.
Qed.

Lemma toLowerCase_truthy v : v <> "" -> Js.truthy (Js.toLowerCase v) = true.
Proof. destruct v; [congruence|reflexivity]. Qed.

Lemma plain_values_displayed cats vs :
  Forall2 namespaced cats vs -> Forall plain_value vs ->
  Js.filter_Boolean (map category_value cats) = vs.
Proof.
  induction 1 as [|cat v cats vs (ns & Hne & Hns & ->) _ IH]; intros Hall;
    [reflexivity|].
  inversion Hall as [|? ? (Hv & _ & Hcol & _) Hrest]; subst. simpl.
  rewrite (category_value_namespaced _ _ Hns Hcol).
  destruct v; [congruence|]. simpl. f_equal. now apply IH.
Qed.

Lemma plain_values_normalized cats vs :
  Forall2 namespaced cats vs -> Forall plain_value vs ->
  Js.filter_Boolean (map Cart.normalizeProductCat cats)
  = map Js.toLowerCase vs.
Proof.
  induction 1 as [|cat v cats vs (ns & Hne & Hns & ->) _ IH]; intros Hall;
    [reflexivity|].
  inversion Hall as [|? ? (Hv & _ & Hcol & _) Hrest]; subst.
  assert (Hn : Cart.normalizeProductCat (ns ++ String ":" v)
               = Js.toLowerCase v).
  { unfold Cart.normalizeProductCat. rewrite toLowerCase_app.
    change (Js.toLowerCase (String ":" v))
      with (String ":" (Js.toLowerCase v)).
    apply strip_namespace_prefixed.
    - destruct ns; [congruence|discriminate].
    - now rewrite colon_free_toLowerCase. }
  unfold Js.filter_Boolean in *. cbn [map filter].
  rewrite Hn, (toLowerCase_truthy _ Hv). f_equal. now apply IH.
Qed.

Lemma plain_values_parts vs :
  Forall plain_value vs ->
  category_parts (Js.replace_commas (Js.join ", " vs)) = map Js.toLowerCase vs.
Proof.
  intros Hall. destruct vs as [|v vs]; [reflexivity|].
  unfold category_parts, Js.split_runs.
  rewrite <- map_map.
  rewrite (split_runs_joined vs v false).
  - rewrite map_map. clear - Hall.
    induction Hall as [|x l (Hx & Htrim & _) _ IH]; [reflexivity|].
    simpl. rewrite Htrim, (toLowerCase_truthy _ Hx). f_equal. exact IH.
  - eapply Forall_impl; [|exact Hall]. intros x (_ & _ & _ & Hs & Hc). tauto.
Qed.

(** X27. A product whose categories are [ns:value] with plain values, added
    to the cart from the detail page, brings all its normalized categories
    into the categories of the cart; so every product that is not in the
    cart and shares a normalized category with it is recommended there, and
    the cart shows a recommendation section when the catalogue has one. *)
Theorem added_product_drives_cart_recommendations
    (p q : Product num) (cats vs : list string) (isAuthor isLegacy : bool)
    (cartData : Cart.CartData num) (item : Cart.LineItem num)
    (allProducts : list (Product num)) :
  p_category p = Some cats ->
  Forall2 namespaced cats vs ->
  Forall plain_value vs ->
  In item (obj_values (Cart.products cartData)) ->
  Cart.li_category item
  = ProductDetail.cp_category
      (ProductDetail.addToCart_payload p isAuthor isLegacy) ->
  category_parts (Cart.li_category item) = normalized_categories p /\
  incl (normalized_categories p) (Cart.cartCategories cartData) /\
  (~ In (sku_or_id q) (obj_keys (Cart.products cartData)) ->
   (exists c, In c (normalized_categories q) /\
              In c (normalized_categories p)) ->
   Cart.is_recommended cartData q = true /\
   (In q allProducts ->
    Cart.buildRecommendations allProducts cartData isAuthor isLegacy
    <> None)).
Proof.
  intros Hcat Hns Hplain Hin Hitem.
  assert (Hparts : category_parts (Cart.li_category item)
                   = normalized_categories p).
  { rewrite Hitem. unfold normalized_categories. simpl. rewrite Hcat.
    rewrite (plain_values_normalized _ _ Hns Hplain).
    unfold ProductDetail.formatCategoryDisplay.
    destruct cats as [|cat cats].
    - inversion Hns; subst. reflexivity.
    - rewrite (plain_values_displayed _ _ Hns Hplain).
      rewrite category_parts_case. now apply plain_values_parts. }
  assert (Hincl : incl (normalized_categories p)
                       (Cart.cartCategories cartData)).
  { intros c Hc. unfold Cart.cartCategories. apply in_flat_map.
    exists item. split; [exact Hin|].
    fold (category_parts (Cart.li_category item)).
    rewrite <- Hparts in Hc.
    destruct (Js.truthy (Cart.li_category item)) eqn:E; [exact Hc|].
    destruct (Cart.li_category item); [exact Hc|discriminate]. }
  split; [exact Hparts|]. split; [exact Hincl|].
  intros Hnot (c & Hq & Hp).
  assert (Hrec : Cart.is_recommended cartData q = true).
  { apply cart_is_recommended_overlap. split; [exact Hnot|].
    exists c. split; [exact Hq|now apply Hincl]. }
  split; [exact Hrec|].
  intros Hall. unfold Cart.buildRecommendations.
  assert (Hf : In q (filter (Cart.is_recommended cartData) allProducts)).
  { apply filter_In. now split. }
  destruct (filter (Cart.is_recommended cartData) allProducts) as [|x l];
    [destruct Hf|]. discriminate.
Qed.

End CategoryRoundTrip.

Lemma added_product_drives_cart_recommendations_witness :
  let p := mkProduct (Some "id-9") (Some "SKU-9") (Some "Trail Set")
             (Some (XInt 30)) (Some ["demo:Running Shoes"; "demo:Hats"])
             None None None None in
  let item := Cart.mkLineItem "id-9" "Trail Set" "" "Running Shoes / Hats"
                (XInt 1) (XInt 30) (XInt 30) (XInt 30) in
  let cartData := Cart.mkCart (XInt 1) [("id-9", item)] (XInt 30) (XInt 30) in
  category_parts (Cart.li_category item) = ["running shoes"; "hats"] /\
  Cart.is_recommended cartData Sample.plain = true.
Proof.
  intros p item cartData.
  assert (Hns : Forall2 namespaced ["demo:Running Shoes"; "demo:Hats"]
                        ["Running Shoes"; "Hats"]).
  { repeat constructor; exists "demo";
      (split; [discriminate|split; reflexivity]). }
  assert (Hplain : Forall plain_value ["Running Shoes"; "Hats"]).
  { repeat constructor; try discriminate; reflexivity. }
  destruct (added_product_drives_cart_recommendations (num:=exact)
              p Sample.plain _ _ true false cartData item [Sample.plain]
              eq_refl Hns Hplain (or_introl eq_refl) eq_refl)
    as (Hparts & _ & Hrec).
  split; [exact Hparts|].
  apply Hrec.
  - simpl. intros [H|[]]. discriminate.
  - exists "hats". split; [left; reflexivity|right; left; reflexivity].
Defined.

(** ** Where a click on a recommendation card leads *)

Section ClickFacts.

Lemma endsWith_app d p : Js.endsWith p (d ++ p) = true.
Proof.
  unfold Js.endsWith.
  rewrite rev_string_app, (rev_string_acc p (Js.rev_string d "")).
  apply prefix_app.
Qed.

Lemma basePath_dir dir leaf :
  slash_free leaf = true ->
  Js.substring_to (Js.lastIndexOf "/" (dir ++ String "/" leaf))
                  (dir ++ String "/" leaf) = dir.
Proof.
  intros Hleaf. unfold Js.lastIndexOf, Js.substring_to.
  rewrite (lastIndexOf_dir _ _ _ _ Hleaf). apply substring_prefix.
Qed.

Lemma prefix_slash_free (a b : ascii) r s :
  slash_free s = true ->
  String.prefix (String a (String b (String "/" r))) s = false.
Proof.
  destruct s as [|x [|y [|z s]]]; try reflexivity.
  - rewrite prefix_cons. now destruct (Ascii.eqb a x).
  - rewrite !prefix_cons. now destruct (Ascii.eqb a x), (Ascii.eqb b y).
  - rewrite !prefix_cons. cbn [slash_free]. rewrite (Ascii.eqb_sym "/" z).
    destruct (Ascii.eqb a x), (Ascii.eqb b y), (Ascii.eqb z "/");
      try reflexivity.
    rewrite !Bool.andb_false_r. discriminate.
Qed.

Lemma prefix_slash_head r c s :
  Ascii.eqb c "/" = false -> String.prefix (String "/" r) (String c s) = false.
Proof.
  intros Hc. rewrite prefix_cons, Ascii.eqb_sym, Hc. reflexivity.
Qed.

Lemma langCodes_shape code :
  In code langCodes ->
  exists a b, code = String a (String b "") /\
              Ascii.eqb a "/" = false /\ Ascii.eqb b "/" = false.
Proof.
  intros Hin. repeat (destruct Hin as [<-|Hin]; [eauto|]). destruct Hin.
Qed.

Lemma find_none {A} (f : A -> bool) l :
  (forall x, In x l -> f x = false) -> find f l = None.
Proof.
  induction l as [|x l IH]; simpl; intros H; [reflexivity|].
  rewrite (H x (or_introl eq_refl)). auto.
Qed.

Lemma pathMatch_slash_free s : slash_free s = true -> pathMatch s = None.
Proof.
  induction s as [|c s IH]; intros Hs.
  - reflexivity.
  - simpl in Hs. apply andb_prop in Hs. destruct Hs as [Hc Hs].
    apply Bool.negb_true_iff in Hc.
    cbn [pathMatch]. rewrite find_none; [now apply IH|].
    intros code _. now apply prefix_slash_head.
Qed.

Lemma pathMatch_root_page leaf :
  slash_free leaf = true -> pathMatch (String "/" leaf) = None.
Proof.
  intros Hleaf. cbn [pathMatch].
  rewrite find_none; [now apply pathMatch_slash_free|].
  intros code Hin. destruct (langCodes_shape _ Hin) as (a & b & -> & _).
  rewrite prefix_cons, Ascii.eqb_refl. now apply prefix_slash_free.
Qed.

(** X28. On a page directly inside a language directory
    ([dir/<code>/leaf]) a click on a card leads to the product page of that
    directory; on a page at the root ([/leaf]) it leads to [/en]. *)
Theorem card_click_language_directory
    (dir code leaf productId : string) (isAuthor : bool) :
  slash_free leaf = true ->
  (In code langCodes ->
   card_click_href ((dir ++ String "/" code) ++ String "/" leaf)
                   isAuthor productId
   = product_href (dir ++ String "/" code) isAuthor productId) /\
  card_click_href (String "/" leaf) isAuthor productId
  = product_href "/en" isAuthor productId.
Proof.
  intros Hleaf. split.
  - intros Hin. unfold card_click_href, card_basePath.
    rewrite (basePath_dir _ _ Hleaf).
    assert (Hlang : langPattern_test (dir ++ String "/" code) = true).
    { unfold langPattern_test. apply existsb_exists.
      exists code. split; [exact Hin|apply endsWith_app]. }
    now rewrite Hlang.
  - unfold card_click_href, card_basePath.
    pose proof (basePath_dir "" _ Hleaf) as Hbase.
    change ("" ++ String "/" leaf)%string with (String "/" leaf) in Hbase.
    rewrite Hbase, (pathMatch_root_page _ Hleaf). reflexivity.
Qed.

Lemma includes_cons p c s :
  Js.includes p (String c s)
  = String.prefix p (String c s) || Js.includes p s.
Proof. reflexivity. Qed.

Lemma includes_slash_free r s :
  slash_free s = true -> Js.includes (String "/" r) s = false.
Proof.
  induction s as [|c s IH]; intros Hs; [reflexivity|].
  cbn [slash_free] in Hs. apply andb_prop in Hs. destruct Hs as [Hc Hs].
  apply Bool.negb_true_iff in Hc.
  now rewrite includes_cons, (prefix_slash_head _ _ _ Hc), IH.
Qed.

Lemma slash_free_rev_string s acc :
  slash_free (Js.rev_string s acc) = slash_free s && slash_free acc.
Proof.
  revert acc. induction s as [|c s IH]; intros acc; simpl; [reflexivity|].
  rewrite IH. simpl.
  destruct (Ascii.eqb c "/"), (slash_free s), (slash_free acc); reflexivity.
Qed.

Lemma prefix_upto_slash q : forall r t,
  slash_free q = true -> slash_free r = true ->
  String.prefix (q ++ "/") (r ++ String "/" t) = true -> q = r.
Proof.
  induction q as [|x q IH]; intros r t Hq Hr H.
  - destruct r as [|y r]; [reflexivity|].
    cbn [append] in H. rewrite prefix_cons, Ascii.eqb_sym in H.
    cbn [slash_free] in Hr. destruct (Ascii.eqb y "/"); discriminate.
  - cbn [slash_free] in Hq. apply andb_prop in Hq. destruct Hq as [Hx Hq].
    destruct r as [|y r]; cbn [append] in H; rewrite prefix_cons in H.
    + destruct (Ascii.eqb x "/"); discriminate.
    + cbn [slash_free] in Hr. apply andb_prop in Hr. destruct Hr as [_ Hr].
      destruct (Ascii.eqb x y) eqn:E; [|discriminate].
      apply Ascii.eqb_eq in E. subst y. f_equal. now apply (IH r t).
Qed.

Lemma langPattern_nested mid pre :
  slash_free mid = true -> ~ In mid langCodes ->
  langPattern_test (pre ++ String "/" mid) = false.
Proof.
  intros Hmid Hnot. unfold langPattern_test.
  destruct (existsb _ langCodes) eqn:E; [|reflexivity].
  apply existsb_exists in E. destruct E as (code & Hin & Hend).
  exfalso. apply Hnot.
  unfold Js.endsWith in Hend.
  change (Js.rev_string (String "/" code) "")
    with (Js.rev_string code "/") in Hend.
  rewrite (rev_string_acc code "/"), rev_string_app in Hend.
  change (Js.rev_string (String "/" mid) ?X)
    with (Js.rev_string mid (String "/" X)) in Hend.
  rewrite (rev_string_acc mid (String "/" _)) in Hend.
  apply prefix_upto_slash in Hend.
  - assert (Heq : code = mid)
      by now rewrite <- (rev_rev_empty code), Hend, rev_rev_empty.
    now subst.
  - destruct (langCodes_shape _ Hin) as (a & b & -> & Ha & Hb).
    rewrite slash_free_rev_string. simpl. now rewrite Ha, Hb.
  - now rewrite slash_free_rev_string, Hmid.
Qed.

Lemma pathMatch_here code rest :
  In code langCodes ->
  pathMatch (String "/" (code ++ String "/" rest)) = Some code.
Proof.
  intros Hin.
  repeat (destruct Hin as [<-|Hin];
          [cbn [pathMatch find langCodes append];
           rewrite !prefix_cons, ?prefix_nil; reflexivity|]).
  destruct Hin.
Qed.

Lemma index_here c p rest :
  String.index 0 (String c p) (String c p ++ rest) = Some 0.
Proof.
  cbn [append String.index].
  change (String c (p ++ rest)) with (String c p ++ rest)%string.
  now rewrite prefix_app.
Qed.

Lemma includes_en_nested (a b : ascii) mid :
  slash_free mid = true ->
  Ascii.eqb a "/" = false -> Ascii.eqb b "/" = false ->
  String a (String b "") <> "en" ->
  Js.includes "/en/" (String "/" (String a (String b (String "/" mid))))
  = false.
Proof.
  intros Hmid Ha Hb Hne.
  rewrite !includes_cons, (includes_slash_free _ _ Hmid).
  rewrite (prefix_slash_head _ _ _ Ha), (prefix_slash_head _ _ _ Hb).
  rewrite (prefix_cons "/" _ "/" mid), Ascii.eqb_refl.
  rewrite (prefix_slash_free _ _ _ _ Hmid).
  rewrite !prefix_cons, prefix_nil, !Ascii.eqb_refl.
  destruct (Ascii.eqb "e" a) eqn:Ea; [|reflexivity].
  destruct (Ascii.eqb "n" b) eqn:Eb; [|reflexivity].
  apply Ascii.eqb_eq in Ea, Eb. subst. now elim Hne.
Qed.

(** X29. On a page one level below a language directory at the root
    ([/<code>/mid/leaf], [mid] not itself a language code), a click on a
    card leads to the product page of the language directory - except for
    [en], where it leads to a product page below [/en/mid]. *)
Theorem card_click_nested_page
    (code mid leaf productId : string) (isAuthor : bool) :
  In code langCodes ->
  slash_free mid = true -> ~ In mid langCodes ->
  slash_free leaf = true ->
  card_click_href (String "/" (code ++ String "/" mid) ++ String "/" leaf)
                  isAuthor productId
  = product_href (if String.eqb code "en"
                  then String "/" (code ++ String "/" mid)
                  else String "/" code)
                 isAuthor productId.
Proof.
  intros Hin Hmid Hnot Hleaf. unfold card_click_href, card_basePath.
  rewrite (basePath_dir _ _ Hleaf).
  pose proof (langPattern_nested mid (String "/" code) Hmid Hnot) as Hlang.
  change (String "/" code ++ String "/" mid)%string
    with (String "/" (code ++ String "/" mid)) in Hlang.
  rewrite Hlang. clear Hlang.
  destruct (String.eqb code "en") eqn:Een.
  - apply String.eqb_eq in Een. subst code.
    change (Js.includes "/en/" (String "/" ("en" ++ String "/" mid)))
      with (String.prefix ""%string mid
            || Js.includes "/en/" ("en" ++ String "/" mid)).
    now rewrite prefix_nil.
  - apply String.eqb_neq in Een.
    destruct (langCodes_shape _ Hin) as (a & b & Hcode & Ha & Hb).
    subst code.
    change (String "/" (String a (String b "") ++ String "/" mid))
      with (String "/" (String a (String b (String "/" mid)))).
    rewrite (includes_en_nested a b mid Hmid Ha Hb Een).
    cbn [negb andb].
    change (String "/" (String a (String b (String "/" mid)))
            ++ String "/" leaf)%string
      with (String "/" (String a (String b "") ++ String "/"
                          (mid ++ String "/" leaf))).
    rewrite (pathMatch_here _ (mid ++ String "/" leaf) Hin).
    change (String "/" (String a (String b "") ++ String "/"
                          (mid ++ String "/" leaf)))
      with (String "/" (String a (String b "/"))
            ++ (mid ++ String "/" leaf))%string.
    change (String "/" (String a (String b "") ++ "/"))
      with (String "/" (String a (String b "/"))).
    rewrite index_here.
    change (String "/" (String a (String b "/"))
            ++ (mid ++ String "/" leaf))%string
      with (String "/" (String a (String b ""))
            ++ String "/" (mid ++ String "/" leaf))%string.
    change (0 + String.length (String a (String b "")) + 1)
      with (String.length (String "/" (String a (String b "")))).
    now rewrite substring_prefix.
Qed.

End ClickFacts.

Lemma card_click_language_directory_witness :
  card_click_href "/content/shop/fr/cart" true "SKU 1"
  = "/content/shop/fr/product.html?productId=SKU%201" /\
  card_click_href "/cart" true "SKU 1"
  = "/en/product.html?productId=SKU%201".
Proof.
  destruct (card_click_language_directory "/content/shop" "fr" "cart" "SKU 1"
              true eq_refl) as [Ha Hb].
  split; [apply Ha; simpl; tauto|exact Hb].
Defined.

Lemma card_click_nested_page_witness :
  card_click_href "/fr/shop/cart" false "SKU-1"
  = "/fr/product?productId=SKU-1" /\
  card_click_href "/en/shop/cart" false "SKU-1"
  = "/en/shop/product?productId=SKU-1".
Proof.
  assert (Hshop : ~ In "shop" langCodes).
  { intros H. repeat (destruct H as [H|H]; [discriminate H|]). destruct H. }
  split.
  - exact (card_click_nested_page "fr" "shop" "cart" "SKU-1" false
             (or_intror (or_introl eq_refl)) eq_refl Hshop eq_refl).
  - exact (card_click_nested_page "en" "shop" "cart" "SKU-1" false
             (or_introl eq_refl) eq_refl Hshop eq_refl).
Defined.

(** ** The aggregates along a session *)

Section SessionFacts.
Context {num : Type} {N : JsNumber num}.

Lemma act_recomputes (a : Action) (w : Cart.World num) :
  let w' := completion_world (act a w) in
  Cart.dataLayer_cart w' = Cart.dataLayer_cart w \/
  aggregates_exact (Cart.read_cart w').
Proof.
  assert (Hremove : forall productId,
             Cart.dataLayer_cart (Cart.removeFromCart productId w)
             = Cart.dataLayer_cart w \/
             aggregates_exact (Cart.read_cart (Cart.removeFromCart productId w))).
  { intros productId.
    unfold Cart.read_cart, Cart.getDataLayerProperty_cart.
    rewrite removeFromCart_dataLayer.
    destruct (_ && _); [right; apply recalculate_aggregates|now left]. }
  cbv zeta. destruct a as [productId|productId newQuantity]; simpl;
    [apply Hremove|].
  destruct (num_lt (Cart.parseInt newQuantity) (num_of_Z 1)) eqn:Hlt.
  - unfold Cart.updateQuantity. rewrite Hlt. apply Hremove.
  - destruct (updateQuantity_effect productId newQuantity w Hlt)
      as [[Hs _]|(c & _ & Hs & _ & Hexact)]; [now left|].
    right. now rewrite (read_cart_stored _ _ Hs).
Qed.

(** X30. The aggregates are recomputed, never patched: after any session
    of removals and quantity changes, in any environment and however it
    ends, the cart in the store is the one the session started from or has
    as [productCount], [subTotal] and [total] the values of the sums over
    its line items (NaN when such a sum is NaN). *)
Theorem session_aggregates_recomputed
    (actions : list Action) (w : Cart.World num) :
  let w' := completion_world (session actions w) in
  Cart.dataLayer_cart w' = Cart.dataLayer_cart w \/
  aggregates_exact (Cart.read_cart w').
Proof.
  cbv zeta. revert w.
  induction actions as [|a actions IH]; intros w; simpl; [now left|].
  pose proof (act_recomputes a w) as Hact. cbv zeta in Hact.
  destruct (act a w) as [w1|error w1]; simpl in *; [|exact Hact].
  destruct (IH w1) as [Hsame|Hexact]; [|now right].
  destruct Hact as [Hact|Hact]; [left; congruence|].
  right. unfold Cart.read_cart, Cart.getDataLayerProperty_cart in *.
  now rewrite Hsame.
Qed.

End SessionFacts.
